(** * bitbucket-stupid-mcp: the tool handlers over a small model of JavaScript

    The repository holds two variants of the same MCP server:

    - [Server]  : [src/server.ts], fixed base URL, handlers registered
                  directly with [server.registerTool];
    - [ApiTool] : the variant configured from the environment, whose
                  handlers go through [getOrThrow] and [registerApiTool].

    Upstream bodies are untyped ([any]) in both, so the handlers are embedded
    over JavaScript values with the semantics of the operators they use:
    member access, optional chaining, truthiness, template literals, [===],
    spread, [Array.prototype.map], [JSON.stringify] and [Date]. *)

From Stdlib Require Import ZArith List String Ascii Bool Lia DecimalString.
Import ListNotations.
Open Scope list_scope.
Open Scope string_scope.
Open Scope Z_scope.
Set Warnings "-register-all".
Set Warnings "-automation".

(** ** JavaScript values and operators *)
Module JS.

(** Values that reach the handlers: JSON documents, [undefined], and the
    built-in method objects that a member access on an array can return.
    Numbers are the integers (ids, HTTP statuses, epoch milliseconds);
    an object lists its own properties in the engine's key order. *)
Inductive JValue : Type :=
| JUndefined
| JNull
| JBool (b : bool)
| JNum (n : Z)
| JStr (s : string)
| JArr (items : list JValue)
| JObj (props : list (string * JValue))
| JFun (name : string) (arity : Z).

(** The response axios resolves with, or attaches to the error it rejects
    with: the HTTP status and the decoded body. *)
Record AxiosResponse : Type := { status : Z; data : JValue }.

(** An [Error] object as the handlers see it: [name], [message] and, on an
    axios error, the optional [response]. *)
Record JsError : Type :=
  { err_name : string; err_message : string; err_response : option AxiosResponse }.

(** Completion of an expression: a value or a thrown error. *)
Inductive Completion (A : Type) : Type :=
| Normal (a : A)
| Throw (e : JsError).
Arguments Normal {A} a.
Arguments Throw {A} e.

Definition cbind {A B} (c : Completion A) (k : A -> Completion B) : Completion B :=
  match c with
  | Normal a => k a
  | Throw e => Throw e
  end.

Notation "'let*' x ':=' c 'in' k" := (cbind c (fun x => k))
  (at level 10, x name, c at level 100, k at level 200).

Fixpoint cmap {A B} (f : A -> Completion B) (l : list A) : Completion (list B) :=
  match l with
  | [] => Normal []
  | x :: rest =>
      let* y := f x in
      let* ys := cmap f rest in
      Normal (y :: ys)
  end.

Definition TypeError (msg : string) : JsError :=
  {| err_name := "TypeError"; err_message := msg; err_response := None |}.

Definition RangeError (msg : string) : JsError :=
  {| err_name := "RangeError"; err_message := msg; err_response := None |}.

(** *** Strings *)

(** [Number.prototype.toString] on a safe integer: its decimal digits, with a
    minus sign when negative.  Beyond the safe integers the engine prints the
    shortest digits that read back as the same double, and an exponent from
    10^21 on; a number with a fraction is not an integer at all.  Statements
    about a rendered number are made for safe integers. *)
Definition number_to_string (n : Z) : string := NilZero.string_of_int (Z.to_int n).

(** [Number.isSafeInteger]: at most [Number.MAX_SAFE_INTEGER] in magnitude. *)
Definition safe_integer (n : Z) : bool := Z.abs n <=? 9007199254740991.

Fixpoint join (sep : string) (parts : list string) : string :=
  match parts with
  | [] => ""
  | [p] => p
  | p :: rest => p ++ sep ++ join sep rest
  end.

(** Strings are UTF-8 byte sequences; a code point starts at every byte that
    is not a continuation byte. *)
Definition is_continuation (c : ascii) : bool :=
  let n := N_of_ascii c in ((128 <=? n) && (n <? 192))%N.

Definition starts_with_continuation (s : string) : bool :=
  match s with
  | String c _ => is_continuation c
  | EmptyString => false
  end.

Fixpoint code_points (s : string) : list string :=
  match s with
  | EmptyString => []
  | String c rest =>
      match code_points rest with
      | g :: gs =>
          if starts_with_continuation rest then String c g :: gs
          else String c "" :: g :: gs
      | [] => [String c ""]
      end
  end.

(** [s.length] counts UTF-16 code units: one per code point, two when the
    code point takes four bytes. *)
Definition utf16_units (cp : string) : Z :=
  match cp with
  | String c _ => if (240 <=? N_of_ascii c)%N then 2 else 1
  | EmptyString => 0
  end.

Definition string_length (s : string) : Z :=
  fold_right (fun cp acc => utf16_units cp + acc) 0 (code_points s).

Definition upper_ascii (c : ascii) : ascii :=
  let n := N_of_ascii c in
  if ((97 <=? n) && (n <=? 122))%N then ascii_of_N (n - 32) else c.

(** [String.prototype.toUpperCase] on ASCII text (the role names). *)
Fixpoint toUpperCase (s : string) : string :=
  match s with
  | EmptyString => EmptyString
  | String c rest => String (upper_ascii c) (toUpperCase rest)
  end.

(** *** Conversions *)

Definition truthy (v : JValue) : bool :=
  match v with
  | JUndefined | JNull => false
  | JBool b => b
  | JNum n => negb (n =? 0)
  | JStr s => negb (s =? "")%string
  | JArr _ | JObj _ | JFun _ _ => true
  end.

Definition nullish (v : JValue) : bool :=
  match v with
  | JUndefined | JNull => true
  | _ => false
  end.

(** [ToString], as a template literal and [new Error(msg)] apply it, on the
    values it completes on (see [stringable] below). *)
Fixpoint to_string (v : JValue) : string :=
  match v with
  | JUndefined => "undefined"
  | JNull => "null"
  | JBool true => "true"
  | JBool false => "false"
  | JNum n => number_to_string n
  | JStr s => s
  | JArr items =>
      join "," (map (fun x => if nullish x then "" else to_string x) items)
  | JObj _ => "[object Object]"
  | JFun name _ => "function " ++ name ++ "() { [native code] }"
  end.

(** [ToNumber]; [None] is NaN.  [StringToNumber] is the engine's reading of
    a numeric string. *)
Definition to_number (StringToNumber : string -> option Z) (v : JValue) : option Z :=
  match v with
  | JUndefined => None
  | JNull => Some 0
  | JBool b => Some (if b then 1 else 0)
  | JNum n => Some n
  | JStr s => StringToNumber s
  | JArr _ | JObj _ | JFun _ _ => StringToNumber (to_string v)
  end.

(** [v > 0]. *)
Definition gt_zero (StringToNumber : string -> option Z) (v : JValue) : bool :=
  match to_number StringToNumber v with
  | Some n => 0 <? n
  | None => false
  end.

Definition typeof (v : JValue) : string :=
  match v with
  | JUndefined => "undefined"
  | JNull | JArr _ | JObj _ => "object"
  | JBool _ => "boolean"
  | JNum _ => "number"
  | JStr _ => "string"
  | JFun _ _ => "function"
  end.

(** *** Properties *)

Fixpoint lookup (k : string) (props : list (string * JValue)) : JValue :=
  match props with
  | [] => JUndefined
  | (k', v) :: rest => if (k =? k')%string then v else lookup k rest
  end.

Fixpoint has_key (k : string) (props : list (string * JValue)) : bool :=
  match props with
  | [] => false
  | (k', _) :: rest => (k =? k')%string || has_key k rest
  end.

(** [ToString] completes on [v] with the string [to_string v].  On an object
    it calls the [toString] method; a parsed document that has an own key
    [toString] holds a value there that cannot be called, and the conversion
    throws a [TypeError].  An array converts its elements that are neither
    [null] nor [undefined].  A number is rendered in decimal when it is a
    safe integer. *)
Fixpoint stringable (v : JValue) : bool :=
  match v with
  | JObj props => negb (has_key "toString" props)
  | JArr items => forallb (fun x => nullish x || stringable x) items
  | JNum n => safe_integer n
  | _ => true
  end.

Definition describe_nullish (v : JValue) : string :=
  match v with
  | JNull => "null"
  | _ => "undefined"
  end.

Definition cannot_read (v : JValue) (k : string) : JsError :=
  TypeError ("Cannot read properties of " ++ describe_nullish v ++ " (reading '" ++ k ++ "')").

(** [v.k] for the property names the handlers read.  Of those names only
    [length], [values] and [map] are defined on an array, [length] on a
    string or a function, and none on [Object.prototype]. *)
Definition get_prop (v : JValue) (k : string) : Completion JValue :=
  match v with
  | JUndefined | JNull => Throw (cannot_read v k)
  | JBool _ | JNum _ => Normal JUndefined
  | JStr s => Normal (if (k =? "length")%string then JNum (string_length s) else JUndefined)
  | JArr items =>
      Normal (if (k =? "length")%string then JNum (Z.of_nat (List.length items))
              else if (k =? "values")%string then JFun "values" 0
              else if (k =? "map")%string then JFun "map" 1
              else JUndefined)
  | JObj props => Normal (lookup k props)
  | JFun _ arity => Normal (if (k =? "length")%string then JNum arity else JUndefined)
  end.

(** [v[i]].  On a string the element is taken per code point. *)
Definition get_index (v : JValue) (i : nat) : Completion JValue :=
  match v with
  | JUndefined | JNull => Throw (cannot_read v (number_to_string (Z.of_nat i)))
  | JArr items => Normal (nth i items JUndefined)
  | JStr s => Normal (match nth_error (code_points s) i with
                      | Some cp => JStr cp
                      | None => JUndefined
                      end)
  | JObj props => Normal (lookup (number_to_string (Z.of_nat i)) props)
  | JBool _ | JNum _ | JFun _ _ => Normal JUndefined
  end.

(** [v?.k]. *)
Definition get_prop_opt (v : JValue) (k : string) : Completion JValue :=
  if nullish v then Normal JUndefined else get_prop v k.

(** ['k' in v], for [v] an object or an array and [k] not an index. *)
Definition has_property (k : string) (v : JValue) : bool :=
  match v with
  | JObj props => has_key k props
  | JArr _ => (k =? "length")%string || (k =? "values")%string || (k =? "map")%string
  | _ => false
  end.

(** [f(...expr)] where [expr] is the source text of the argument and [v] its
    value.  The engine names the argument when it is [null] or [undefined]. *)
Definition spread (expr : string) (v : JValue) : Completion (list JValue) :=
  match v with
  | JArr items => Normal items
  | JStr s => Normal (map JStr (code_points s))
  | JUndefined | JNull => Throw (TypeError
      (expr ++ " is not iterable (cannot read property Symbol(Symbol.iterator))"))
  | _ => Throw (TypeError
      "Spread syntax requires ...iterable[Symbol.iterator] to be a function")
  end.

(** [v.map(f)] where [expr] is the source text of the callee. *)
Definition call_map (expr : string) (v : JValue) (f : JValue -> Completion JValue)
  : Completion JValue :=
  match v with
  | JUndefined | JNull => Throw (cannot_read v "map")
  | JArr items => let* ys := cmap f items in Normal (JArr ys)
  | _ => Throw (TypeError (expr ++ " is not a function"))
  end.

(** [a === b].  Arrays and objects compare by reference: [same_ref] tells
    whether both operands were read from the same object. *)
Definition strict_equals (same_ref : bool) (a b : JValue) : bool :=
  match a, b with
  | JUndefined, JUndefined => true
  | JNull, JNull => true
  | JBool x, JBool y => Bool.eqb x y
  | JNum x, JNum y => x =? y
  | JStr x, JStr y => (x =? y)%string
  | JArr _, JArr _ => same_ref
  | JObj _, JObj _ => same_ref
  | JFun x _, JFun y _ => (x =? y)%string
  | _, _ => false
  end.

(** *** JSON.stringify(value, null, 2) *)

Definition dquote : string := String (ascii_of_N 34) EmptyString.
Definition backslash : string := String (ascii_of_N 92) EmptyString.
Definition newline : string := String (ascii_of_N 10) EmptyString.

Definition hex_digit (n : N) : ascii :=
  ascii_of_N (if (n <? 10)%N then 48 + n else 87 + n).

Definition escape_char (c : ascii) : string :=
  let n := N_of_ascii c in
  if (n =? 34)%N then backslash ++ dquote
  else if (n =? 92)%N then backslash ++ backslash
  else if (n =? 8)%N then backslash ++ "b"
  else if (n =? 12)%N then backslash ++ "f"
  else if (n =? 10)%N then backslash ++ "n"
  else if (n =? 13)%N then backslash ++ "r"
  else if (n =? 9)%N then backslash ++ "t"
  else if (n <? 32)%N then
    backslash ++ "u00" ++ String (hex_digit (n / 16)) (String (hex_digit (n mod 16)) "")
  else String c "".

Fixpoint escape (s : string) : string :=
  match s with
  | EmptyString => EmptyString
  | String c rest => escape_char c ++ escape rest
  end.

(** [QuoteJSONString]. *)
Definition quote (s : string) : string := dquote ++ escape s ++ dquote.

Definition bracket (open close indent inner : string) (parts : list string) : string :=
  match parts with
  | [] => open ++ close
  | _ => open ++ newline ++ inner ++ join ("," ++ newline ++ inner) parts
         ++ newline ++ indent ++ close
  end.

(** [SerializeJSONProperty] with a gap of two spaces; [None] is [undefined].
    An [undefined] array element is written [null], an [undefined] property
    is left out. *)
Fixpoint serialize (indent : string) (v : JValue) : option string :=
  match v with
  | JUndefined | JFun _ _ => None
  | JNull => Some "null"
  | JBool true => Some "true"
  | JBool false => Some "false"
  | JNum n => Some (number_to_string n)
  | JStr s => Some (quote s)
  | JArr items =>
      let inner := indent ++ "  " in
      Some (bracket "[" "]" indent inner
              (map (fun x => match serialize inner x with
                             | Some t => t
                             | None => "null"
                             end) items))
  | JObj props =>
      let inner := indent ++ "  " in
      Some (bracket "{" "}" indent inner
              (flat_map (fun kv => match serialize inner (snd kv) with
                                   | Some t => [quote (fst kv) ++ ": " ++ t]
                                   | None => []
                                   end) props))
  end.

Definition JSON_stringify (v : JValue) : JValue :=
  match serialize "" v with
  | Some t => JStr t
  | None => JUndefined
  end.

(** *** Date *)

(** The time value of [new Date(v)], [None] for an invalid date.  A string
    (or an object, through its string form) goes to the engine's
    [Date.parse]; anything else is converted to a number and clipped. *)
Definition time_clip (t : Z) : option Z :=
  if Z.abs t <=? 8640000000000000 then Some t else None.

Definition new_Date (Date_parse : string -> option Z) (v : JValue) : option Z :=
  match v with
  | JUndefined => None
  | JNull => Some 0
  | JBool b => Some (if b then 1 else 0)
  | JNum n => time_clip n
  | JStr s => Date_parse s
  | JArr _ | JObj _ | JFun _ _ => Date_parse (to_string v)
  end.

Fixpoint zeros (n : nat) : string :=
  match n with
  | O => EmptyString
  | S k => "0" ++ zeros k
  end.

Definition pad_left (width : nat) (s : string) : string :=
  zeros (width - String.length s) ++ s.

Definition digits (width : nat) (n : Z) : string := pad_left width (number_to_string n).

(** Year, month and day of a day number counted from 1970-01-01, in the
    proleptic Gregorian calendar. *)
Definition civil_from_days (day : Z) : Z * Z * Z :=
  let z := day + 719468 in
  let era := z / 146097 in
  let doe := z - era * 146097 in
  let yoe := (doe - doe / 1460 + doe / 36524 - doe / 146096) / 365 in
  let doy := doe - (365 * yoe + yoe / 4 - yoe / 100) in
  let mp := (5 * doy + 2) / 153 in
  let d := doy - (153 * mp + 2) / 5 + 1 in
  let m := if mp <? 10 then mp + 3 else mp - 9 in
  let y := yoe + era * 400 + (if m <=? 2 then 1 else 0) in
  (y, m, d).

Definition iso_year (y : Z) : string :=
  if (0 <=? y) && (y <=? 9999) then digits 4 y
  else (if y <? 0 then "-" else "+") ++ digits 6 (Z.abs y).

(** [Date.prototype.toISOString] of a valid time value. *)
Definition iso_string (t : Z) : string :=
  let day := t / 86400000 in
  let ms := t mod 86400000 in
  let '(y, m, d) := civil_from_days day in
  iso_year y ++ "-" ++ digits 2 m ++ "-" ++ digits 2 d ++ "T"
  ++ digits 2 (ms / 3600000) ++ ":" ++ digits 2 (ms / 60000 mod 60) ++ ":"
  ++ digits 2 (ms / 1000 mod 60) ++ "." ++ digits 3 (ms mod 1000) ++ "Z".

(** [new Date(v).toISOString()]. *)
Definition toISOString (Date_parse : string -> option Z) (v : JValue) : Completion JValue :=
  match new_Date Date_parse v with
  | Some t => Normal (JStr (iso_string t))
  | None => Throw (RangeError "Invalid time value")
  end.

End JS.

(** ** The HTTP boundary *)
Module Http.
Import JS.

(** What [axios.get] is called with. *)
Record Request : Type :=
  { url : string; headers : list (string * string); responseType : option string }.

(** What one invocation runs against: the remote host, which answers the
    [n]-th request of the invocation by resolving with a response or by
    rejecting with an error, and the two string parsers of the engine. *)
Record Runtime : Type :=
  { upstream : nat -> Request -> Completion AxiosResponse;
    Date_parse : string -> option Z;
    StringToNumber : string -> option Z }.

(** An awaited computation: it reads the runtime, appends the requests it
    issues to the log, and completes normally or throws. *)
Definition IO (A : Type) : Type := Runtime -> list Request -> Completion A * list Request.

Definition ret {A} (a : A) : IO A := fun _ log => (Normal a, log).

Definition throw {A} (e : JsError) : IO A := fun _ log => (Throw e, log).

Definition bind {A B} (c : IO A) (k : A -> IO B) : IO B :=
  fun rt log =>
    match c rt log with
    | (Normal a, log') => k a rt log'
    | (Throw e, log') => (Throw e, log')
    end.

Definition try_catch {A} (body : IO A) (handler : JsError -> IO A) : IO A :=
  fun rt log =>
    match body rt log with
    | (Normal a, log') => (Normal a, log')
    | (Throw e, log') => handler e rt log'
    end.

Definition lift {A} (c : Completion A) : IO A := fun _ log => (c, log).

Definition runtime : IO Runtime := fun rt log => (Normal rt, log).

Notation "x <- c ;; k" := (bind c (fun x => k))
  (at level 61, c at next level, right associativity).

Definition axios_get (req : Request) : IO AxiosResponse :=
  fun rt log => (upstream rt (List.length log) req, (log ++ [req])%list).

(** An object literal with a spread: a later key replaces an earlier one in
    place, a new key is appended. *)
Fixpoint set_header (k v : string) (hs : list (string * string)) : list (string * string) :=
  match hs with
  | [] => [(k, v)]
  | (k', v') :: rest =>
      if (k =? k')%string then (k, v) :: rest else (k', v') :: set_header k v rest
  end.

Definition spread_headers (base extra : list (string * string)) : list (string * string) :=
  fold_left (fun acc kv => set_header (fst kv) (snd kv) acc) extra base.

(** The optional second argument of the request helpers. *)
Record RequestConfig : Type :=
  { cfg_headers : list (string * string); cfg_responseType : option string }.

Definition no_config : RequestConfig := {| cfg_headers := []; cfg_responseType := None |}.

(** [error.response?.status] and [error.response?.data || error.message]. *)
Definition error_status (error : JsError) : option Z :=
  option_map status (err_response error).

Definition error_message (error : JsError) : JValue :=
  let body := match err_response error with
              | Some r => data r
              | None => JUndefined
              end in
  if truthy body then body else JStr (err_message error).

(** The tagged result both variants return: [{ data }] or [{ error }]. *)
Inductive Result : Type :=
| Success (data : JValue)
| Failure (status : option Z) (message : JValue).

(** The content envelope. *)
Record ContentBlock : Type := { block_type : string; text : JValue }.
Record ToolOutput : Type := { content : list ContentBlock }.

Definition text_envelope (t : JValue) : ToolOutput :=
  {| content := [ {| block_type := "text"; text := t |} ] |}.

End Http.

(** ** What the two variants share: the role schema and the list pipeline *)
Module Handlers.
Import JS Http.

(** [z.enum(['author', 'reviewer', 'all']).optional().default('all')], after
    the schema has filled the default in. *)
Inductive Role : Type := author | reviewer | all.

Definition role_name (r : Role) : string :=
  match r with
  | author => "author"
  | reviewer => "reviewer"
  | all => "all"
  end.

Definition whoami_path : string := "/plugins/servlet/applinks/whoami".

Definition users_path (username : JValue) : string :=
  "/rest/api/latest/users?filter=" ++ to_string username.

Definition inbox_path (r : string) : string :=
  "/rest/api/latest/inbox/pull-requests?state=OPEN&role=" ++ r.

Definition pr_path (projectKey repositorySlug : string) (prId : Z) : string :=
  "/rest/api/latest/projects/" ++ projectKey ++ "/repos/" ++ repositorySlug
  ++ "/pull-requests/" ++ number_to_string prId.

Definition diff_path (projectKey repositorySlug : string) (prId : Z) : string :=
  pr_path projectKey repositorySlug prId ++ ".diff".

(** [arr.findIndex(pred)]; the callback also receives the index. *)
Fixpoint findIndex_from (pred : nat -> JValue -> Completion bool) (j : nat)
  (arr : list JValue) : Completion Z :=
  match arr with
  | [] => Normal (-1)
  | p :: rest =>
      let* hit := pred j p in
      if hit then Normal (Z.of_nat j) else findIndex_from pred (S j) rest
  end.

Definition findIndex (pred : nat -> JValue -> Completion bool) (arr : list JValue)
  : Completion Z := findIndex_from pred 0 arr.

(** [arr.filter(keep)]. *)
Fixpoint filter_from (keep : nat -> JValue -> Completion bool) (i : nat)
  (arr : list JValue) : Completion (list JValue) :=
  match arr with
  | [] => Normal []
  | pr :: rest =>
      let* k := keep i pr in
      let* kept := filter_from keep (S i) rest in
      Normal (if k then pr :: kept else kept)
  end.

(** [(p) => p.id === pr.id], with [p] at index [j] and [pr] at index [i].
    The items are distinct objects of freshly parsed responses, so two ids
    are the same reference only when [j = i]. *)
Definition same_id (i : nat) (pr : JValue) (j : nat) (p : JValue) : Completion bool :=
  let* a := get_prop p "id" in
  let* b := get_prop pr "id" in
  Normal (strict_equals (j =? i)%nat a b).

(** [prs.filter((pr, index, self) => index === self.findIndex((t) => t.id === pr.id))]. *)
Definition uniquePrs (prs : list JValue) : Completion (list JValue) :=
  filter_from
    (fun i pr => let* k := findIndex (same_id i pr) prs in Normal (k =? Z.of_nat i))
    0 prs.

(** [(r) => r.user?.displayName]. *)
Definition reviewer_name (r : JValue) : Completion JValue :=
  let* u := get_prop r "user" in
  get_prop_opt u "displayName".

(** [x.author?.user?.displayName]. *)
Definition author_name (x : JValue) : Completion JValue :=
  let* a := get_prop x "author" in
  let* u := get_prop_opt a "user" in
  get_prop_opt u "displayName".

(** [x.reviewers?.map((r) => r.user?.displayName)]; [expr] is the source
    text of [x]. *)
Definition reviewer_names (expr : string) (x : JValue) : Completion JValue :=
  let* rs := get_prop x "reviewers" in
  if nullish rs then Normal JUndefined
  else call_map (expr ++ ".reviewers?.map") rs reviewer_name.

(** The object literal of the list operation. *)
Definition project_pr (pr : JValue) : Completion JValue :=
  let* id := get_prop pr "id" in
  let* title := get_prop pr "title" in
  let* author := author_name pr in
  let* reviewers := reviewer_names "pr" pr in
  let* state := get_prop pr "state" in
  let* repository :=
    (let* d := get_prop pr "destination" in
     let* r := get_prop_opt d "repository" in
     get_prop_opt r "full_name") in
  let* projectKey :=
    (let* f := get_prop pr "fromRef" in
     let* r := get_prop f "repository" in
     let* p := get_prop r "project" in
     get_prop p "key") in
  let* repositorySlug :=
    (let* f := get_prop pr "fromRef" in
     let* r := get_prop f "repository" in
     get_prop r "slug") in
  Normal (JObj [("id", id); ("title", title); ("author", author);
                ("reviewers", reviewers); ("state", state);
                ("repository", repository); ("projectKey", projectKey);
                ("repositorySlug", repositorySlug)]).

(** The object literal of the get-info operation. *)
Definition project_info (Date_parse : string -> option Z) (expr : string) (d : JValue)
  : Completion JValue :=
  let* id := get_prop d "id" in
  let* title := get_prop d "title" in
  let* description := get_prop d "description" in
  let* author := author_name d in
  let* reviewers := reviewer_names expr d in
  let* state := get_prop d "state" in
  let* createdDate := get_prop d "createdDate" in
  let* created_on := toISOString Date_parse createdDate in
  let* updatedDate := get_prop d "updatedDate" in
  let* updated_on := toISOString Date_parse updatedDate in
  Normal (JObj [("id", id); ("title", title); ("description", description);
                ("author", author); ("reviewers", reviewers); ("state", state);
                ("created_on", created_on); ("updated_on", updated_on)]).

End Handlers.

(** ** The variant configured from the environment *)
Module ApiTool.
Import JS Http Handlers.

Section Configured.

(** [process.env.BB_BASE_URL] and [process.env.BB_TOKEN]; the process exits
    at start-up when either is missing or empty. *)
Variables (BB_BASE_URL BB_TOKEN : string).

Definition request (path : string) (config : RequestConfig) : Request :=
  {| url := BB_BASE_URL ++ path;
     headers := spread_headers [("Authorization", "Bearer " ++ BB_TOKEN)] (cfg_headers config);
     responseType := Some (match cfg_responseType config with
                           | Some t => if (t =? "")%string then "json" else t
                           | None => "json"
                           end) |}.

Definition bitbucketGet (path : string) (config : RequestConfig) : IO Result :=
  try_catch
    (response <- axios_get (request path config) ;;
     ret (Success (data response)))
    (fun error => ret (Failure (error_status error) (error_message error))).

(** [new Error(message)]. *)
Definition new_Error (message : JValue) : JsError :=
  {| err_name := "Error";
     err_message := match message with
                    | JUndefined => EmptyString
                    | _ => to_string message
                    end;
     err_response := None |}.

Definition getOrThrow (result : Result) : Completion JValue :=
  match result with
  | Failure _ message => Throw (new_Error message)
  | Success d => Normal d
  end.

Definition format (d : JValue) : ToolOutput :=
  text_envelope (if (typeof d =? "string")%string then d else JSON_stringify d).

(** [Error.prototype.toString]. *)
Definition error_to_string (e : JsError) : string :=
  if (err_name e =? "")%string then err_message e
  else if (err_message e =? "")%string then err_name e
  else err_name e ++ ": " ++ err_message e.

(** [e.message || e] inside the template literal. *)
Definition message_or_error (e : JsError) : string :=
  if (err_message e =? "")%string then error_to_string e else err_message e.

(** The handler [registerApiTool] hands to [server.registerTool]. *)
Definition registerApiTool {Args : Type} (logic : Args -> IO JValue) (args : Args)
  : IO ToolOutput :=
  try_catch
    (result <- logic args ;;
     ret (format result))
    (fun e => ret (format (JStr ("Unhandled error: " ++ message_or_error e)))).

(** [for (const r of roles) { ...; allPrs.push(...prs.values) }]. *)
Fixpoint collect (roles : list string) (allPrs : list JValue) : IO (list JValue) :=
  match roles with
  | [] => ret allPrs
  | r :: rest =>
      resp <- bitbucketGet (inbox_path r) no_config ;;
      prs <- lift (getOrThrow resp) ;;
      values <- lift (get_prop prs "values") ;;
      items <- lift (spread "prs.values" values) ;;
      collect rest (allPrs ++ items)%list
  end.

Definition roles_of (role : Role) : list string :=
  match role with
  | all => ["AUTHOR"; "REVIEWER"]
  | _ => [toUpperCase (role_name role)]
  end.

Definition listprs_logic (role : Role) : IO JValue :=
  whoami <- bitbucketGet whoami_path no_config ;;
  username <- lift (getOrThrow whoami) ;;
  found <- bitbucketGet (users_path username) no_config ;;
  userResp <- lift (getOrThrow found) ;;
  values <- lift (get_prop userResp "values") ;;
  user <- lift (get_index values 0) ;;
  slug <- lift (get_prop_opt user "slug") ;;
  if negb (truthy slug) then throw (new_Error (JStr "Failed to resolve current user slug"))
  else
    allPrs <- collect (roles_of role) [] ;;
    unique <- lift (uniquePrs allPrs) ;;
    projected <- lift (cmap project_pr unique) ;;
    ret (JArr projected).

(** Arguments of the two pull-request tools, as the schema admits them
    ([z.string()], [z.string()], [z.number()] at an integer). *)
Record PrArgs : Type := { projectKey : string; repositorySlug : string; prId : Z }.

Definition getpr_logic (a : PrArgs) : IO JValue :=
  resp <- bitbucketGet (pr_path (projectKey a) (repositorySlug a) (prId a)) no_config ;;
  d <- lift (getOrThrow resp) ;;
  rt <- runtime ;;
  lift (project_info (Date_parse rt) "d" d).

Definition diff_config : RequestConfig :=
  {| cfg_headers := [("Accept", "text/plain")]; cfg_responseType := Some "text" |}.

Definition getdiff_logic (a : PrArgs) : IO JValue :=
  resp <- bitbucketGet (diff_path (projectKey a) (repositorySlug a) (prId a)) diff_config ;;
  lift (getOrThrow resp).

Definition bitbucketlistprs : Role -> IO ToolOutput := registerApiTool listprs_logic.
Definition bitbucketgetpr : PrArgs -> IO ToolOutput := registerApiTool getpr_logic.
Definition bitbucketgetdiff : PrArgs -> IO ToolOutput := registerApiTool getdiff_logic.

End Configured.

(** A call the transport dispatches to one of the three registered tools. *)
Inductive ToolCall : Type :=
| CallListPrs (role : Role)
| CallGetPr (a : PrArgs)
| CallGetDiff (a : PrArgs).

Definition logic_of (base token : string) (c : ToolCall) : IO JValue :=
  match c with
  | CallListPrs role => listprs_logic base token role
  | CallGetPr a => getpr_logic base token a
  | CallGetDiff a => getdiff_logic base token a
  end.

Definition invoke (base token : string) (c : ToolCall) : IO ToolOutput :=
  match c with
  | CallListPrs role => bitbucketlistprs base token role
  | CallGetPr a => bitbucketgetpr base token a
  | CallGetDiff a => bitbucketgetdiff base token a
  end.

End ApiTool.

(** ** [src/server.ts]: the variant with the fixed base URL *)
Module Server.
Import JS Http Handlers.

Definition BITBUCKET_BASE_URL : string := "https://git.namecheap.net".

Section Process.

(** [process.env.BB_TOKEN], read at every request. *)
Variable BB_TOKEN : option string.

Definition bearer : string :=
  "Bearer " ++ match BB_TOKEN with
               | Some t => t
               | None => "undefined"
               end.

Definition request (path : string) (config : option RequestConfig) : Request :=
  {| url := BITBUCKET_BASE_URL ++ path;
     headers := spread_headers [("Authorization", bearer)]
                  (match config with
                   | Some c => cfg_headers c
                   | None => []
                   end);
     responseType := match config with
                     | Some c => cfg_responseType c
                     | None => None
                     end |}.

(** The [console.error] line of the catch block writes to the process log
    only and is left out. *)
Definition bitbucketApiRequest (path : string) (config : option RequestConfig) : IO Result :=
  try_catch
    (response <- axios_get (request path config) ;;
     ret (Success (data response)))
    (fun error => ret (Failure (error_status error) (error_message error))).

Definition formatToolResponse (d : JValue) : Completion ToolOutput :=
  let* textContent :=
    if (typeof d =? "string")%string then Normal d
    else if (typeof d =? "object")%string && negb (nullish d) && has_property "error" d then
      let* e := get_prop d "error" in
      let* m := get_prop e "message" in
      Normal (JStr ("Error: " ++ to_string m))
    else if (typeof d =? "object")%string && negb (nullish d) && has_property "data" d then
      let* inner := get_prop d "data" in
      Normal (JSON_stringify inner)
    else Normal (JSON_stringify d) in
  Normal (text_envelope textContent).

(** The user-search block: [inl] is an early return of the handler, [inr]
    the value of [user] after the block. *)
Definition find_user (username : JValue) : IO (ToolOutput + JValue) :=
  if truthy username then
    userDetailsResponse <- bitbucketApiRequest (users_path username) None ;;
    match userDetailsResponse with
    | Failure _ message =>
        out <- lift (formatToolResponse
                       (JStr ("Error fetching user details: " ++ to_string message))) ;;
        ret (inl out)
    | Success d =>
        values <- lift (get_prop d "values") ;;
        if truthy values then
          len <- lift (get_prop values "length") ;;
          rt <- runtime ;;
          if gt_zero (StringToNumber rt) len then
            user <- lift (get_index values 0) ;;
            ret (inr user)
          else ret (inr JUndefined)
        else ret (inr JUndefined)
    end
  else ret (inr JUndefined).

(** One [if (role === ...) { ... }] block of the inbox step. *)
Definition inbox (r : string) (prs : list JValue) : IO (list JValue) :=
  response <- bitbucketApiRequest (inbox_path r) None ;;
  match response with
  | Failure _ _ => ret prs
  | Success d =>
      values <- lift (get_prop d "values") ;;
      if truthy values then
        items <- lift (spread "response.data.values" values) ;;
        ret (prs ++ items)%list
      else ret prs
  end.

Definition is_author_or_all (role : Role) : bool :=
  match role with
  | author | all => true
  | reviewer => false
  end.

Definition is_reviewer_or_all (role : Role) : bool :=
  match role with
  | reviewer | all => true
  | author => false
  end.

Definition could_not_determine : ToolOutput :=
  text_envelope (JStr "Could not determine the current user.").

Definition bitbucketlistprs (role : Role) : IO ToolOutput :=
  whoamiResponse <- bitbucketApiRequest whoami_path None ;;
  match whoamiResponse with
  | Failure _ message =>
      lift (formatToolResponse (JStr ("Error fetching user: " ++ to_string message)))
  | Success username =>
      found <- find_user username ;;
      match found with
      | inl out => ret out
      | inr user =>
          slug <- lift (if truthy user then get_prop user "slug" else Normal JUndefined) ;;
          if negb (truthy user) || negb (truthy slug) then ret could_not_determine
          else
            prs1 <- (if is_author_or_all role then inbox "AUTHOR" [] else ret []) ;;
            prs2 <- (if is_reviewer_or_all role then inbox "REVIEWER" prs1 else ret prs1) ;;
            uniquePrs <- lift (uniquePrs prs2) ;;
            projected <- lift (cmap project_pr uniquePrs) ;;
            lift (formatToolResponse (JArr projected))
      end
  end.

(** Arguments of the two pull-request tools, as the schema admits them. *)
Record PrArgs : Type := { projectKey : string; repositorySlug : string; prId : Z }.

Definition bitbucketgetpr (a : PrArgs) : IO ToolOutput :=
  resp <- bitbucketApiRequest (pr_path (projectKey a) (repositorySlug a) (prId a)) None ;;
  match resp with
  | Failure _ message =>
      lift (formatToolResponse (JStr ("Error fetching PR info: " ++ to_string message)))
  | Success d =>
      rt <- runtime ;;
      info <- lift (project_info (Date_parse rt) "data.data" d) ;;
      lift (formatToolResponse info)
  end.

Definition diff_config : RequestConfig :=
  {| cfg_headers := [("Accept", "text/plain")]; cfg_responseType := Some "text" |}.

Definition bitbucketgetdiff (a : PrArgs) : IO ToolOutput :=
  resp <- bitbucketApiRequest (diff_path (projectKey a) (repositorySlug a) (prId a))
            (Some diff_config) ;;
  match resp with
  | Failure _ message =>
      lift (formatToolResponse (JStr ("Error fetching PR diff: " ++ to_string message)))
  | Success d => ret (text_envelope d)
  end.

End Process.

End Server.

(** ** Start-up of the variant configured from the environment *)
Module Startup.
Import JS Http Handlers.

(** [process.env]: a variable is unset or holds a string. *)
Definition Env : Type := string -> option string.

(** How the top of the module ends: the process has exited with a code
    after writing to standard error, or the two settings are bound and the
    server goes on to register its tools. *)
Inductive Outcome : Type :=
| Exited (code : Z) (stderr : list string)
| Serving (BB_BASE_URL BB_TOKEN : string).

(** [fatal(...args)]: [console.error(...args); process.exit(1)]. *)
Definition fatal (args : list string) : Outcome := Exited 1 args.

(** [process.env.NAME || fatal(msg)], followed by the rest of the module. *)
Definition required (env : Env) (name msg : string) (rest : string -> Outcome) : Outcome :=
  match env name with
  | Some v => if (v =? "")%string then fatal [msg] else rest v
  | None => fatal [msg]
  end.

Definition main (env : Env) : Outcome :=
  required env "BB_BASE_URL" "Missing BB_BASE_URL" (fun base =>
  required env "BB_TOKEN" "Missing BB_TOKEN" (fun token =>
  Serving base token)).

(** A tool call reaches a handler only in a process that is serving. *)
Definition call (env : Env) (c : ApiTool.ToolCall) : option (IO ToolOutput) :=
  match main env with
  | Serving base token => Some (ApiTool.invoke base token c)
  | Exited _ _ => None
  end.

End Startup.

(** ** Running one invocation *)
Module Run.
Import JS Http Handlers.

(** An invocation starts with an empty request log. *)
Definition result_of {A} (c : IO A) (rt : Runtime) : Completion A := fst (c rt []).
Definition requests_of {A} (c : IO A) (rt : Runtime) : list Request := snd (c rt []).
Definition urls_of {A} (c : IO A) (rt : Runtime) : list string := map url (requests_of c rt).

(** The envelope carries one text block whose text is a string. *)
Definition well_formed (out : ToolOutput) : Prop :=
  exists s, out = {| content := [ {| block_type := "text"; text := JStr s |} ] |}.

(** Bodies axios can resolve with: a parsed JSON document or a string,
    never [undefined] and never a function. *)
Definition is_body (v : JValue) : bool :=
  match v with
  | JUndefined | JFun _ _ => false
  | _ => true
  end.

Definition json_bodies (rt : Runtime) : Prop :=
  forall n req resp, upstream rt n req = Normal resp -> is_body (data resp) = true.

(** A remote host that answers the calls of an invocation in order, and
    refuses the connection once the script is exhausted. *)
Definition network_error : JsError :=
  {| err_name := "AxiosError"; err_message := "Network Error"; err_response := None |}.

Definition scripted (answers : list (Completion AxiosResponse)) : Runtime :=
  {| upstream := fun n _ => nth n answers (Throw network_error);
     Date_parse := fun _ => None;
     StringToNumber := fun _ => None |}.

Definition ok (d : JValue) : Completion AxiosResponse :=
  Normal {| status := 200; data := d |}.

Definition http_failure (st : Z) (body : JValue) : JsError :=
  {| err_name := "AxiosError";
     err_message := "Request failed with status code " ++ number_to_string st;
     err_response := Some {| status := st; data := body |} |}.

Definition http_error (st : Z) (body : JValue) : Completion AxiosResponse :=
  Throw (http_failure st body).

Definition page (items : list JValue) : JValue := JObj [("values", JArr items)].

Definition sample_user : JValue := JObj [("name", JStr "ann"); ("slug", JStr "ann")].

Definition sample_ref : JValue :=
  JObj [("repository", JObj [("slug", JStr "repo"); ("project", JObj [("key", JStr "PRJ")])])].

Definition sample_pr (id : Z) (title : string) : JValue :=
  JObj [("id", JNum id); ("title", JStr title); ("fromRef", sample_ref)].

(** A pull request without [fromRef]. *)
Definition bare_pr (id : Z) (title : string) : JValue :=
  JObj [("id", JNum id); ("title", JStr title)].

(** The tagged result an axios outcome is turned into. *)
Definition to_result (c : Completion AxiosResponse) : Result :=
  match c with
  | Normal r => Success (data r)
  | Throw e => Failure (error_status e) (error_message e)
  end.

(** A result that reports the outcome of the GET: the body on success; on
    failure the status of the rejected response when there is one, and the
    truthy body of that response or else the message of the error. *)
Definition captures (outcome : Completion AxiosResponse) (r : Result) : Prop :=
  match outcome, r with
  | Normal resp, Success d => d = data resp
  | Throw e, Failure st msg =>
      match err_response e with
      | Some resp =>
          st = Some (status resp)
          /\ msg = (if truthy (data resp) then data resp else JStr (err_message e))
      | None => st = None /\ msg = JStr (err_message e)
      end
  | _, _ => False
  end.

(** The remote host resolves the [n]-th GET, issued as [req], with body [d];
    or rejects it with [e]. *)
Definition answers (rt : Runtime) (n : nat) (req : Request) (d : JValue) : Prop :=
  exists st, upstream rt n req = Normal {| status := st; data := d |}.

Definition rejects (rt : Runtime) (n : nat) (req : Request) (e : JsError) : Prop :=
  upstream rt n req = Throw e.

(** [user?.slug] as a value. *)
Definition slug_of (user : JValue) : JValue :=
  match get_prop_opt user "slug" with
  | Normal s => s
  | Throw _ => JUndefined
  end.

(** How an upstream message shows after [Unhandled error: ]. *)
Definition shown (m : JValue) : string :=
  if (to_string m =? "")%string then "Error" else to_string m.

(** The user search found nothing usable: [values] is an array that is
    empty or whose first entry has no truthy [slug]. *)
Definition no_usable_match (found : JValue) : Prop :=
  exists items,
    get_prop found "values" = Normal (JArr items)
    /\ truthy (slug_of (nth 0 items JUndefined)) = false.

(** The user search found a user: the first entry of [values] has a truthy
    [slug]. *)
Definition resolves_user (found : JValue) : Prop :=
  exists values user,
    get_prop found "values" = Normal values
    /\ get_index values 0 = Normal user
    /\ truthy (slug_of user) = true.

(** An inbox page whose [values] can be spread into [items]. *)
Definition lists (d : JValue) (items : list JValue) : Prop :=
  exists values,
    get_prop d "values" = Normal values /\ spread "prs.values" values = Normal items.


(** The invocation ends with the text [t] after issuing exactly [reqs]. *)
Definition ends_with (c : IO ToolOutput) (rt : Runtime) (t : string) (reqs : list Request)
  : Prop :=
  c rt [] = (Normal {| content := [ {| block_type := "text"; text := JStr t |} ] |}, reqs).

(** Paths a list invocation restricted to [roles] may request. *)
Definition planned (roles : list string) (path : string) : Prop :=
  path = whoami_path
  \/ (exists username, path = users_path username)
  \/ (exists r, In r roles /\ path = inbox_path r).

(** The roles [src/server.ts] queries for a role filter. *)
Definition server_roles (role : Role) : list string :=
  ((if Server.is_author_or_all role then ["AUTHOR"] else [])
   ++ (if Server.is_reviewer_or_all role then ["REVIEWER"] else []))%list.

(** [pr.id] as a value. *)
Definition id_of (pr : JValue) : JValue :=
  match get_prop pr "id" with
  | Normal v => v
  | Throw _ => JUndefined
  end.

(** The item [pr] carries the id [k], compared as [===] compares the ids of
    two different items. *)
Definition has_id (k : JValue) (pr : JValue) : bool := strict_equals false (id_of pr) k.

(** Deduplication by identifier in first-seen order, as the specification
    words it: going through the items in order, an item is kept unless an
    item seen before it has the same id. *)
Fixpoint first_seen (seen prs : list JValue) : list JValue :=
  match prs with
  | [] => []
  | pr :: rest =>
      if existsb (has_id (id_of pr)) seen
      then first_seen (seen ++ [pr])%list rest
      else pr :: first_seen (seen ++ [pr])%list rest
  end.

(** [l] is [r] with some elements left out, the order kept. *)
Inductive subsequence {A : Type} : list A -> list A -> Prop :=
| subsequence_nil : subsequence [] []
| subsequence_skip x l r : subsequence l r -> subsequence l (x :: r)
| subsequence_keep x l r : subsequence l r -> subsequence (x :: l) (x :: r).

(** The user search found a user at the head of an array of matches. *)
Definition finds_user (found : JValue) : Prop :=
  exists user others,
    get_prop found "values" = Normal (JArr (user :: others))
    /\ truthy (slug_of user) = true.

(** What the list operation returns once both inbox pages are in: the
    projections of the deduplicated items. *)
Definition listing (prs : list JValue) : Completion JValue :=
  let* unique := uniquePrs prs in
  let* projected := cmap project_pr unique in
  Normal (JArr projected).

(** The reviewers of [d] can be read: the field is missing, or an array
    whose entries are not null. *)
Definition reads_reviewers (d names : JValue) : Prop :=
  forall expr, reviewer_names expr d = Normal names.

(** A pull request with both dates and no reviewers field. *)
Definition dated_pr (created updated : Z) : JValue :=
  JObj [("id", JNum 5); ("title", JStr "Fix"); ("state", JStr "OPEN");
        ("createdDate", JNum created); ("updatedDate", JNum updated)].

(** The value of header [k] in an object of headers. *)
Fixpoint header_lookup (k : string) (hs : list (string * string)) : option string :=
  match hs with
  | [] => None
  | (k', v) :: rest => if (k =? k')%string then Some v else header_lookup k rest
  end.

(** The value a spread of [hs] leaves under [k]: the last one written. *)
Fixpoint last_written (k : string) (hs : list (string * string)) : option string :=
  match hs with
  | [] => None
  | (k', v) :: rest =>
      match last_written k rest with
      | Some w => Some w
      | None => if (k =? k')%string then Some v else None
      end
  end.

(** [l] is an initial segment of [plan]. *)
Definition is_prefix {A : Type} (l plan : list A) : Prop := exists rest, plan = (l ++ rest)%list.

(** [x.k] as a value. *)
Definition prop_of (x : JValue) (k : string) : JValue :=
  match get_prop x k with
  | Normal v => v
  | Throw _ => JUndefined
  end.

(** [x.author?.user?.displayName] as a value. *)
Definition author_of (x : JValue) : JValue :=
  let a := prop_of x "author" in
  if nullish a then JUndefined
  else let u := prop_of a "user" in
       if nullish u then JUndefined else prop_of u "displayName".

(** [r.user?.displayName] as a value. *)
Definition display_name (r : JValue) : JValue :=
  let u := prop_of r "user" in
  if nullish u then JUndefined else prop_of u "displayName".

(** The reviewers of [x] are missing, or an array without null entries. *)
Definition readable_reviewers (x : JValue) : bool :=
  match prop_of x "reviewers" with
  | JUndefined | JNull => true
  | JArr items => forallb (fun r => negb (nullish r)) items
  | _ => false
  end.

(** The item is an object, its reviewers are readable, and it carries
    [fromRef], [fromRef.repository] and [fromRef.repository.project]. *)
Definition projectable (pr : JValue) : bool :=
  negb (nullish pr)
  && readable_reviewers pr
  && negb (nullish (prop_of pr "fromRef"))
  && negb (nullish (prop_of (prop_of pr "fromRef") "repository"))
  && negb (nullish (prop_of (prop_of (prop_of pr "fromRef") "repository") "project")).

(** A request of the [registerApiTool] variant, and of [src/server.ts], as
    their helpers build it when no caller overrides a header. *)
Definition carries_bearer (bearer : string) (req : Request) : Prop :=
  header_lookup "Authorization" (headers req) = Some bearer.

Definition starts_with (prefix s : string) : Prop := exists rest, s = prefix ++ rest.

(** A remote host that knows the user and whose inbox pages are all empty. *)
Definition quiet_host : Runtime :=
  {| upstream := fun n _ => match n with
                            | O => ok (JStr "ann")
                            | S O => ok (page [sample_user])
                            | _ => ok (page [])
                            end;
     Date_parse := fun _ => None;
     StringToNumber := fun _ => None |}.

End Run.

Import JS Http Handlers Run.

(** ** Properties of the HTTP client wrapper *)

Lemma bind_run {A B} (c : IO A) (k : A -> IO B) rt log :
  bind c k rt log =
  match c rt log with
  | (Normal a, log') => k a rt log'
  | (Throw e, log') => (Throw e, log')
  end.
Proof. reflexivity. Qed.

Lemma bitbucketGet_run base token path config rt log :
  ApiTool.bitbucketGet base token path config rt log =
  (Normal (to_result (upstream rt (List.length log) (ApiTool.request base token path config))),
   (log ++ [ApiTool.request base token path config])%list).
Proof.
  unfold ApiTool.bitbucketGet, try_catch, bind, axios_get, ret, to_result.
  destruct (upstream rt _ _); reflexivity.
Qed.

Lemma bitbucketApiRequest_run tok path config rt log :
  Server.bitbucketApiRequest tok path config rt log =
  (Normal (to_result (upstream rt (List.length log) (Server.request tok path config))),
   (log ++ [Server.request tok path config])%list).
Proof.
  unfold Server.bitbucketApiRequest, try_catch, bind, axios_get, ret, to_result.
  destruct (upstream rt _ _); reflexivity.
Qed.

Lemma to_result_captures outcome : captures outcome (to_result outcome).
Proof.
  destruct outcome as [resp | e]; simpl; [reflexivity |].
  unfold error_status, error_message.
  destruct (err_response e); simpl; split; reflexivity.
Qed.

(** C2. For every path, header set and format hint, and whatever the GET
    does (resolve, reject with a response, reject without one), both request
    helpers issue exactly that one GET and complete normally with a tagged
    result, never by throwing: the data variant holds the body of the
    response; the error variant holds the status of the rejected response
    when there is one, and as message that response's body when it is truthy,
    the error's own message otherwise. *)
Theorem http_wrapper_returns_result :
  forall base token tok path config config' rt log,
    (exists r,
        ApiTool.bitbucketGet base token path config rt log
        = (Normal r, (log ++ [ApiTool.request base token path config])%list)
        /\ captures (upstream rt (List.length log) (ApiTool.request base token path config)) r)
    /\ (exists r,
        Server.bitbucketApiRequest tok path config' rt log
        = (Normal r, (log ++ [Server.request tok path config'])%list)
        /\ captures (upstream rt (List.length log) (Server.request tok path config')) r).
Proof.
  intros. split.
  - eexists. split; [apply bitbucketGet_run | apply to_result_captures].
  - eexists. split; [apply bitbucketApiRequest_run | apply to_result_captures].
Qed.

(** ** The registration wrapper *)

Ltac step_match :=
  match goal with
  | |- context [match ?x with _ => _ end] =>
      first [ is_var x; destruct x | let E := fresh "E" in destruct x eqn:E ]
  end.

Lemma format_well_formed v : is_body v = true -> well_formed (ApiTool.format v).
Proof.
  unfold well_formed, ApiTool.format, text_envelope, JSON_stringify.
  destruct v as [ | | [|] | n | s | items | props | f a]; simpl; intros H;
    try discriminate; eexists; reflexivity.
Qed.

Lemma listprs_logic_value base token role rt log v log' :
  ApiTool.listprs_logic base token role rt log = (Normal v, log') -> is_body v = true.
Proof.
  unfold ApiTool.listprs_logic.
  repeat (rewrite bind_run; rewrite ?bitbucketGet_run; unfold lift).
  repeat (step_match; try discriminate; try rewrite bind_run; unfold lift, throw, ret in * ).
  all: try (intros H; inversion H; subst; reflexivity).
Qed.

Lemma project_info_value parse expr d v :
  project_info parse expr d = Normal v -> is_body v = true.
Proof.
  unfold project_info, cbind.
  repeat (step_match; try discriminate).
  intros H; inversion H; subst; reflexivity.
Qed.

Lemma getpr_logic_value base token a rt log v log' :
  ApiTool.getpr_logic base token a rt log = (Normal v, log') -> is_body v = true.
Proof.
  unfold ApiTool.getpr_logic.
  rewrite bind_run, bitbucketGet_run. unfold lift, runtime, bind.
  destruct (ApiTool.getOrThrow _) as [d|e]; [|discriminate].
  intros H; inversion H. eapply project_info_value; eassumption.
Qed.

Lemma getdiff_logic_value base token a rt log v log' :
  json_bodies rt ->
  ApiTool.getdiff_logic base token a rt log = (Normal v, log') -> is_body v = true.
Proof.
  intros J. unfold ApiTool.getdiff_logic.
  rewrite bind_run, bitbucketGet_run. unfold lift, to_result.
  destruct (upstream rt _ _) as [resp|e] eqn:E; simpl; [|discriminate].
  intros H; inversion H; subst. eapply J; eassumption.
Qed.

Lemma logic_value base token call rt log v log' :
  json_bodies rt ->
  ApiTool.logic_of base token call rt log = (Normal v, log') -> is_body v = true.
Proof.
  intros J. destruct call; simpl.
  - apply listprs_logic_value.
  - apply getpr_logic_value.
  - apply getdiff_logic_value; assumption.
Qed.

Lemma registerApiTool_run {Args} (logic : Args -> IO JValue) args rt log :
  ApiTool.registerApiTool logic args rt log =
  match logic args rt log with
  | (Normal v, l) => (Normal (ApiTool.format v), l)
  | (Throw e, l) =>
      (Normal (ApiTool.format (JStr ("Unhandled error: " ++ ApiTool.message_or_error e))), l)
  end.
Proof.
  unfold ApiTool.registerApiTool, try_catch, bind, ret.
  destruct (logic args rt log) as [[v|e] l]; reflexivity.
Qed.

Lemma invoke_registered base token call rt log :
  ApiTool.invoke base token call rt log =
  ApiTool.registerApiTool (ApiTool.logic_of base token) call rt log.
Proof. destruct call; reflexivity. Qed.

Lemma message_or_error_eq e :
  ApiTool.message_or_error e = if (err_message e =? "")%string then err_name e else err_message e.
Proof.
  unfold ApiTool.message_or_error, ApiTool.error_to_string.
  destruct (err_message e =? "")%string eqn:M; [|reflexivity].
  destruct (err_name e =? "")%string eqn:N; [|reflexivity].
  apply String.eqb_eq in M, N. congruence.
Qed.

Lemma scripted_json_bodies answers :
  Forall (fun a => match a with
                   | Normal r => is_body (data r) = true
                   | Throw _ => True
                   end) answers ->
  json_bodies (scripted answers).
Proof.
  intros F n req resp. unfold scripted; simpl.
  revert n. induction F as [| a rest Ha _ IH]; intros n.
  - destruct n; discriminate.
  - destruct n as [| n]; simpl.
    + intros E. rewrite E in Ha. exact Ha.
    + apply IH.
Qed.

(** C1, as the code has it.  In the variant that registers its tools through
    [registerApiTool], every call of the three tools, against any remote host
    whose bodies are JSON documents or strings, completes normally with an
    envelope of one text block; when the logic of the tool throws [e], the
    text is [Unhandled error: ] followed by the message of [e], or by the
    name of [e] when its message is empty. *)
Theorem registered_tools_always_answer base token call rt log :
  json_bodies rt ->
  exists out log',
    ApiTool.invoke base token call rt log = (Normal out, log')
    /\ well_formed out
    /\ (forall e l,
          ApiTool.logic_of base token call rt log = (Throw e, l) ->
          log' = l
          /\ out = {| content :=
                        [ {| block_type := "text";
                             text := JStr ("Unhandled error: "
                                           ++ (if (err_message e =? "")%string
                                               then err_name e else err_message e)) |} ] |}).
Proof.
  intros J. rewrite invoke_registered, registerApiTool_run.
  destruct (ApiTool.logic_of base token call rt log) as [[v|e] l] eqn:L.
  - exists (ApiTool.format v), l. split; [reflexivity|]. split.
    + apply format_well_formed. eapply logic_value; eassumption.
    + intros e l0 H. discriminate.
  - eexists _, l. split; [reflexivity|]. split.
    + apply format_well_formed. reflexivity.
    + intros e0 l0 H. inversion H; subst. split; [reflexivity|].
      rewrite <- message_or_error_eq. reflexivity.
Qed.


Lemma registered_tools_always_answer_witness :
  json_bodies (scripted [ok (JStr "ann"); ok (page [])])
  /\ exists out log',
      ApiTool.invoke "https://bitbucket.example" "token" (ApiTool.CallListPrs all)
        (scripted [ok (JStr "ann"); ok (page [])]) [] = (Normal out, log')
      /\ well_formed out
      /\ (forall e l,
            ApiTool.logic_of "https://bitbucket.example" "token" (ApiTool.CallListPrs all)
              (scripted [ok (JStr "ann"); ok (page [])]) [] = (Throw e, l) ->
            log' = l
            /\ out = {| content :=
                          [ {| block_type := "text";
                               text := JStr ("Unhandled error: "
                                             ++ (if (err_message e =? "")%string
                                                 then err_name e else err_message e)) |} ] |}).
Proof.
  assert (J : json_bodies (scripted [ok (JStr "ann"); ok (page [])])).
  { apply scripted_json_bodies. repeat constructor. }
  split; [exact J |].
  exact (registered_tools_always_answer "https://bitbucket.example" "token"
           (ApiTool.CallListPrs all) (scripted [ok (JStr "ann"); ok (page [])]) [] J).
Defined.

(** C1 fails in [src/server.ts], whose handlers have no catching wrapper: a
    pull request without [fromRef] makes the list handler throw. *)
Lemma server_handler_throws :
  result_of (Server.bitbucketlistprs (Some "token") all)
    (scripted [ok (JStr "ann"); ok (page [sample_user]);
               ok (page [bare_pr 1 "Fix"]); ok (page [])])
  = Throw (TypeError "Cannot read properties of undefined (reading 'repository')").
Proof. vm_compute. reflexivity. Qed.
(** ** The list operation: resolving the user *)

Lemma get_prop_opt_slug user : get_prop_opt user "slug" = Normal (slug_of user).
Proof. destruct user; reflexivity. Qed.

Lemma truthy_slug user :
  truthy user = true -> get_prop user "slug" = Normal (slug_of user).
Proof. destruct user; simpl; intros; try discriminate; reflexivity. Qed.

Lemma server_listprs_after_whoami tok role rt username :
  answers rt 0 (Server.request tok whoami_path None) username ->
  Server.bitbucketlistprs tok role rt [] =
  (found <- Server.find_user tok username ;;
   match found with
   | inl out => ret out
   | inr user =>
       slug <- lift (if truthy user then get_prop user "slug" else Normal JUndefined) ;;
       if negb (truthy user) || negb (truthy slug) then ret Server.could_not_determine
       else
         prs1 <- (if Server.is_author_or_all role then Server.inbox tok "AUTHOR" [] else ret []) ;;
         prs2 <- (if Server.is_reviewer_or_all role then Server.inbox tok "REVIEWER" prs1
                  else ret prs1) ;;
         uniquePrs <- lift (uniquePrs prs2) ;;
         projected <- lift (cmap project_pr uniquePrs) ;;
         lift (Server.formatToolResponse (JArr projected))
   end) rt [Server.request tok whoami_path None].
Proof.
  intros [st H]. unfold Server.bitbucketlistprs.
  rewrite bind_run, bitbucketApiRequest_run. cbn [List.length]. rewrite H. reflexivity.
Qed.

Lemma server_user_unresolved tok role rt log user :
  truthy (slug_of user) = false ->
  (slug <- lift (if truthy user then get_prop user "slug" else Normal JUndefined) ;;
   if negb (truthy user) || negb (truthy slug) then ret Server.could_not_determine
   else
     prs1 <- (if Server.is_author_or_all role then Server.inbox tok "AUTHOR" [] else ret []) ;;
     prs2 <- (if Server.is_reviewer_or_all role then Server.inbox tok "REVIEWER" prs1
              else ret prs1) ;;
     uniquePrs <- lift (uniquePrs prs2) ;;
     projected <- lift (cmap project_pr uniquePrs) ;;
     lift (Server.formatToolResponse (JArr projected))) rt log
  = (Normal Server.could_not_determine, log).
Proof.
  intros F. rewrite bind_run. unfold lift.
  destruct (truthy user) eqn:T.
  - rewrite (truthy_slug user T), F. reflexivity.
  - reflexivity.
Qed.

(** C10. In [src/server.ts], when the identity lookup resolves with a falsy
    username, the list operation returns the text
    [Could not determine the current user.] and the identity lookup is the only
    request it issues: no user search, no inbox query. *)
Theorem falsy_username_skips_search tok role rt username :
  answers rt 0 (Server.request tok whoami_path None) username ->
  truthy username = false ->
  result_of (Server.bitbucketlistprs tok role) rt
  = Normal {| content := [ {| block_type := "text";
                              text := JStr "Could not determine the current user." |} ] |}
  /\ urls_of (Server.bitbucketlistprs tok role) rt
     = ["https://git.namecheap.net/plugins/servlet/applinks/whoami"].
Proof.
  intros H F. unfold result_of, urls_of, requests_of.
  rewrite (server_listprs_after_whoami _ _ _ _ H).
  rewrite bind_run. unfold Server.find_user. rewrite F. unfold ret at 1.
  rewrite server_user_unresolved by reflexivity.
  split; reflexivity.
Qed.

Lemma falsy_username_skips_search_witness :
  result_of (Server.bitbucketlistprs (Some "token") all) (scripted [ok (JStr "")])
  = Normal {| content := [ {| block_type := "text";
                              text := JStr "Could not determine the current user." |} ] |}
  /\ urls_of (Server.bitbucketlistprs (Some "token") all) (scripted [ok (JStr "")])
     = ["https://git.namecheap.net/plugins/servlet/applinks/whoami"].
Proof.
  apply (falsy_username_skips_search (Some "token") all (scripted [ok (JStr "")]) (JStr "")).
  - exists 200. reflexivity.
  - reflexivity.
Defined.

Lemma server_find_user_no_match tok rt log username found :
  answers rt (List.length log) (Server.request tok (users_path username) None) found ->
  no_usable_match found ->
  exists user log',
    Server.find_user tok username rt log = (Normal (inr user), log')
    /\ truthy (slug_of user) = false.
Proof.
  intros [st H] (items & Hv & Hs). unfold Server.find_user.
  destruct (truthy username).
  - rewrite bind_run, bitbucketApiRequest_run, H. cbn [to_result data].
    rewrite bind_run. unfold lift at 1. rewrite Hv. cbn [truthy].
    rewrite bind_run. unfold lift at 1. cbn [get_prop String.eqb Ascii.eqb Bool.eqb].
    rewrite bind_run. unfold runtime at 1. unfold gt_zero, to_number.
    destruct items as [| x rest]; cbn [List.length Z.of_nat Z.ltb Z.compare].
    + eexists _, _. split; [reflexivity | reflexivity].
    + cbn [nth] in Hs. eexists _, _. split; [reflexivity | exact Hs].
  - eexists _, _. split; [reflexivity | reflexivity].
Qed.

Lemma apitool_listprs_after_whoami base token role rt username :
  answers rt 0 (ApiTool.request base token whoami_path no_config) username ->
  ApiTool.listprs_logic base token role rt [] =
  (found <- ApiTool.bitbucketGet base token (users_path username) no_config ;;
   userResp <- lift (ApiTool.getOrThrow found) ;;
   values <- lift (get_prop userResp "values") ;;
   user <- lift (get_index values 0) ;;
   slug <- lift (get_prop_opt user "slug") ;;
   if negb (truthy slug)
   then throw (ApiTool.new_Error (JStr "Failed to resolve current user slug"))
   else
     allPrs <- ApiTool.collect base token (ApiTool.roles_of role) [] ;;
     unique <- lift (uniquePrs allPrs) ;;
     projected <- lift (cmap project_pr unique) ;;
     ret (JArr projected)) rt [ApiTool.request base token whoami_path no_config].
Proof.
  intros [st H]. unfold ApiTool.listprs_logic.
  rewrite bind_run, bitbucketGet_run. cbn [List.length]. rewrite H. reflexivity.
Qed.

Lemma apitool_listprs_after_users base token role rt username found :
  answers rt 0 (ApiTool.request base token whoami_path no_config) username ->
  answers rt 1 (ApiTool.request base token (users_path username) no_config) found ->
  ApiTool.listprs_logic base token role rt [] =
  (values <- lift (get_prop found "values") ;;
   user <- lift (get_index values 0) ;;
   slug <- lift (get_prop_opt user "slug") ;;
   if negb (truthy slug)
   then throw (ApiTool.new_Error (JStr "Failed to resolve current user slug"))
   else
     allPrs <- ApiTool.collect base token (ApiTool.roles_of role) [] ;;
     unique <- lift (uniquePrs allPrs) ;;
     projected <- lift (cmap project_pr unique) ;;
     ret (JArr projected)) rt
    [ApiTool.request base token whoami_path no_config;
     ApiTool.request base token (users_path username) no_config].
Proof.
  intros H0 [st H]. rewrite (apitool_listprs_after_whoami _ _ _ _ _ H0).
  rewrite bind_run, bitbucketGet_run. cbn [List.length]. rewrite H. reflexivity.
Qed.

(** C7, as the code has it.  When the user search answers with a list that is
    empty or whose first entry has no truthy slug, [src/server.ts] returns the
    plain text [Could not determine the current user.]; the [registerApiTool]
    variant throws [Error: Failed to resolve current user slug], which its
    wrapper returns as an [Unhandled error: ] text. *)
Theorem unresolved_user_outcome base token tok role rt username found :
  no_usable_match found ->
  (answers rt 0 (Server.request tok whoami_path None) username ->
   answers rt 1 (Server.request tok (users_path username) None) found ->
   result_of (Server.bitbucketlistprs tok role) rt
   = Normal {| content := [ {| block_type := "text";
                               text := JStr "Could not determine the current user." |} ] |})
  /\ (answers rt 0 (ApiTool.request base token whoami_path no_config) username ->
      answers rt 1 (ApiTool.request base token (users_path username) no_config) found ->
      result_of (ApiTool.listprs_logic base token role) rt
      = Throw {| err_name := "Error";
                 err_message := "Failed to resolve current user slug";
                 err_response := None |}
      /\ result_of (ApiTool.bitbucketlistprs base token role) rt
         = Normal {| content :=
                       [ {| block_type := "text";
                            text := JStr "Unhandled error: Failed to resolve current user slug" |} ] |}).
Proof.
  intros N. split.
  - intros H0 H1. unfold result_of.
    rewrite (server_listprs_after_whoami _ _ _ _ H0), bind_run.
    destruct (server_find_user_no_match tok rt [Server.request tok whoami_path None]
                username found H1 N)
      as (user & log' & F & S).
    rewrite F, server_user_unresolved by exact S. reflexivity.
  - intros H0 H1.
    assert (L : ApiTool.listprs_logic base token role rt [] =
                (Throw (ApiTool.new_Error (JStr "Failed to resolve current user slug")),
                 [ApiTool.request base token whoami_path no_config;
                  ApiTool.request base token (users_path username) no_config])).
    { rewrite (apitool_listprs_after_users _ _ _ _ _ _ H0 H1).
      destruct N as (items & Hv & Hs).
      rewrite bind_run. unfold lift at 1. rewrite Hv.
      rewrite bind_run. unfold lift at 1. cbn [get_index].
      rewrite bind_run. unfold lift at 1. rewrite get_prop_opt_slug, Hs. reflexivity. }
    unfold result_of, ApiTool.bitbucketlistprs. rewrite registerApiTool_run, L.
    split; reflexivity.
Qed.

Lemma unresolved_user_outcome_witness :
  result_of (Server.bitbucketlistprs (Some "token") all)
    (scripted [ok (JStr "ann"); ok (page [])])
  = Normal {| content := [ {| block_type := "text";
                              text := JStr "Could not determine the current user." |} ] |}
  /\ result_of (ApiTool.bitbucketlistprs "https://bitbucket.example" "token" all)
       (scripted [ok (JStr "ann"); ok (page [])])
     = Normal {| content :=
                   [ {| block_type := "text";
                        text := JStr "Unhandled error: Failed to resolve current user slug" |} ] |}.
Proof.
  assert (N : no_usable_match (page [])).
  { exists []. split; reflexivity. }
  destruct (unresolved_user_outcome "https://bitbucket.example" "token" (Some "token") all
              (scripted [ok (JStr "ann"); ok (page [])]) (JStr "ann") (page []) N)
    as [S A].
  split.
  - apply S; exists 200; reflexivity.
  - apply A; exists 200; reflexivity.
Defined.

(** C7 fails in the [registerApiTool] variant: an empty user search makes the
    logic throw, and the wrapper renders the exception. *)
Lemma missing_user_is_thrown :
  result_of (ApiTool.listprs_logic "https://bitbucket.example" "token" all)
    (scripted [ok (JStr "ann"); ok (page [])])
  = Throw {| err_name := "Error";
             err_message := "Failed to resolve current user slug";
             err_response := None |}
  /\ result_of (ApiTool.bitbucketlistprs "https://bitbucket.example" "token" all)
       (scripted [ok (JStr "ann"); ok (page [])])
     = Normal {| content :=
                   [ {| block_type := "text";
                        text := JStr "Unhandled error: Failed to resolve current user slug" |} ] |}.
Proof. split; vm_compute; reflexivity. Qed.
Lemma error_message_shown e :
  ApiTool.message_or_error (ApiTool.new_Error (error_message e)) = shown (error_message e).
Proof.
  assert (G : forall m, m <> JUndefined ->
              ApiTool.message_or_error (ApiTool.new_Error m) = shown m).
  { intros m Hm. rewrite message_or_error_eq. unfold shown, ApiTool.new_Error.
    destruct m; try congruence; reflexivity. }
  apply G. unfold error_message.
  destruct (truthy _) eqn:T; [| discriminate].
  intros U. rewrite U in T. discriminate.
Qed.

(** ** The list operation: upstream errors *)



Lemma collect_first_answered base token r rest acc rt log d items :
  answers rt (List.length log) (ApiTool.request base token (inbox_path r) no_config) d ->
  lists d items ->
  ApiTool.collect base token (r :: rest) acc rt log =
  ApiTool.collect base token rest (acc ++ items)%list rt
    (log ++ [ApiTool.request base token (inbox_path r) no_config])%list.
Proof.
  intros [st H] (values & Hv & Hs). cbn [ApiTool.collect].
  rewrite bind_run, bitbucketGet_run, H. cbn [to_result data].
  rewrite bind_run. unfold lift at 1. cbn [ApiTool.getOrThrow].
  rewrite bind_run. unfold lift at 1. rewrite Hv.
  rewrite bind_run. unfold lift at 1. rewrite Hs. reflexivity.
Qed.

Lemma apitool_listprs_resolved base token role rt username found :
  answers rt 0 (ApiTool.request base token whoami_path no_config) username ->
  answers rt 1 (ApiTool.request base token (users_path username) no_config) found ->
  resolves_user found ->
  ApiTool.listprs_logic base token role rt [] =
  (allPrs <- ApiTool.collect base token (ApiTool.roles_of role) [] ;;
   unique <- lift (uniquePrs allPrs) ;;
   projected <- lift (cmap project_pr unique) ;;
   ret (JArr projected)) rt
    [ApiTool.request base token whoami_path no_config;
     ApiTool.request base token (users_path username) no_config].
Proof.
  intros H0 H1 (values & user & Hv & Hu & Hs).
  rewrite (apitool_listprs_after_users _ _ _ _ _ _ H0 H1).
  rewrite bind_run. unfold lift at 1. rewrite Hv.
  rewrite bind_run. unfold lift at 1. rewrite Hu.
  rewrite bind_run. unfold lift at 1. rewrite get_prop_opt_slug, Hs. reflexivity.
Qed.





(** ** The list operation: which requests it issues *)

Lemma bind_lift {A B} (c : Completion A) (k : A -> IO B) rt log :
  bind (lift c) k rt log =
  match c with
  | Normal a => k a rt log
  | Throw e => (Throw e, log)
  end.
Proof. unfold bind, lift. destruct c; reflexivity. Qed.

Lemma append_cancel_l (p x y : string) : p ++ x = p ++ y -> x = y.
Proof.
  induction p as [| c p IH]; simpl; intros H; [exact H |].
  injection H as H. apply IH. exact H.
Qed.

Lemma Forall_snoc {A} (P : A -> Prop) l x : Forall P l -> P x -> Forall P (l ++ [x])%list.
Proof. intros Hl Hx. apply Forall_app. split; [exact Hl | constructor; [exact Hx | constructor]]. Qed.

Section Logs.
Variables (base token : string) (tok : option string).

Lemma collect_log roles (P : Request -> Prop) :
  (forall r, In r roles -> P (ApiTool.request base token (inbox_path r) no_config)) ->
  forall acc rt log,
    Forall P log -> Forall P (snd (ApiTool.collect base token roles acc rt log)).
Proof.
  induction roles as [| r rest IH]; intros Hr acc rt log Hlog; cbn [ApiTool.collect].
  - exact Hlog.
  - rewrite bind_run, bitbucketGet_run.
    assert (Hlog' : Forall P (log ++ [ApiTool.request base token (inbox_path r) no_config])%list).
    { apply Forall_snoc; [exact Hlog | apply Hr; left; reflexivity]. }
    rewrite bind_lift. destruct (ApiTool.getOrThrow _); [| exact Hlog'].
    rewrite bind_lift. destruct (get_prop _ _); [| exact Hlog'].
    rewrite bind_lift. destruct (spread _ _); [| exact Hlog'].
    apply IH; [intros r' Hin; apply Hr; right; exact Hin | exact Hlog'].
Qed.

Lemma apitool_listprs_log role rt :
  Forall (fun req => exists path, planned (ApiTool.roles_of role) path
                                  /\ req = ApiTool.request base token path no_config)
         (requests_of (ApiTool.bitbucketlistprs base token role) rt).
Proof.
  unfold requests_of, ApiTool.bitbucketlistprs. rewrite registerApiTool_run.
  match goal with
  | |- Forall ?P (snd (match ?c with _ => _ end)) =>
      assert (G : Forall P (snd c)); [| destruct c as [[v | e] l]; exact G]
  end.
  unfold ApiTool.listprs_logic.
  rewrite bind_run, bitbucketGet_run. cbn [List.length app].
  set (w := ApiTool.request base token whoami_path no_config).
  assert (H1 : Forall (fun req => exists path, planned (ApiTool.roles_of role) path
                        /\ req = ApiTool.request base token path no_config) [w]).
  { repeat constructor. exists whoami_path. split; [left; reflexivity | reflexivity]. }
  rewrite bind_lift. destruct (ApiTool.getOrThrow _) as [username |]; [| exact H1].
  rewrite bind_run, bitbucketGet_run. cbn [List.length app].
  set (u := ApiTool.request base token (users_path username) no_config).
  assert (H2 : Forall (fun req => exists path, planned (ApiTool.roles_of role) path
                        /\ req = ApiTool.request base token path no_config) [w; u]).
  { repeat constructor.
    - exists whoami_path. split; [left; reflexivity | reflexivity].
    - exists (users_path username). split; [right; left; eexists; reflexivity | reflexivity]. }
  rewrite bind_lift. destruct (ApiTool.getOrThrow _); [| exact H2].
  rewrite bind_lift. destruct (get_prop _ _); [| exact H2].
  rewrite bind_lift. destruct (get_index _ _); [| exact H2].
  rewrite bind_lift. destruct (get_prop_opt _ _) as [slug |]; [| exact H2].
  destruct (negb (truthy slug)); [exact H2 |].
  rewrite bind_run.
  pose proof (collect_log (ApiTool.roles_of role) _
                (fun r Hin => ex_intro _ (inbox_path r)
                   (conj (or_intror (or_intror (ex_intro _ r (conj Hin eq_refl)))) eq_refl))
                [] rt [w; u] H2) as H3.
  destruct (ApiTool.collect _ _ _ _ _ _) as [[allPrs |] log3]; [| exact H3].
  cbn [snd] in H3.
  rewrite bind_lift. destruct (uniquePrs _); [| exact H3].
  rewrite bind_lift. destruct (cmap _ _); exact H3.
Qed.

Lemma server_inbox_log r prs rt log :
  snd (Server.inbox tok r prs rt log)
  = (log ++ [Server.request tok (inbox_path r) None])%list.
Proof.
  unfold Server.inbox. rewrite bind_run, bitbucketApiRequest_run.
  destruct (to_result _); [| reflexivity].
  rewrite bind_lift. destruct (get_prop _ _) as [values |]; [| reflexivity].
  destruct (truthy values); [| reflexivity].
  rewrite bind_lift. destruct (spread _ _); reflexivity.
Qed.

Lemma server_find_user_log (P : Request -> Prop) username rt log :
  P (Server.request tok (users_path username) None) ->
  Forall P log -> Forall P (snd (Server.find_user tok username rt log)).
Proof.
  intros Hu Hlog. unfold Server.find_user.
  destruct (truthy username); [| exact Hlog].
  rewrite bind_run, bitbucketApiRequest_run.
  pose proof (Forall_snoc P log _ Hlog Hu) as H2.
  destruct (to_result _).
  - rewrite bind_lift. destruct (get_prop _ _) as [values |]; [| exact H2].
    destruct (truthy values); [| exact H2].
    rewrite bind_lift. destruct (get_prop _ _) as [len |]; [| exact H2].
    rewrite bind_run. unfold runtime at 1.
    destruct (gt_zero _ _); [| exact H2].
    rewrite bind_lift. destruct (get_index _ _); exact H2.
  - rewrite bind_lift. destruct (Server.formatToolResponse _); exact H2.
Qed.

Lemma server_listprs_log role rt :
  Forall (fun req => exists path, planned (server_roles role) path
                                  /\ req = Server.request tok path None)
         (requests_of (Server.bitbucketlistprs tok role) rt).
Proof.
  unfold requests_of, Server.bitbucketlistprs.
  rewrite bind_run, bitbucketApiRequest_run. cbn [List.length app].
  set (P := fun req => exists path, planned (server_roles role) path
                                    /\ req = Server.request tok path None).
  assert (H1 : Forall P [Server.request tok whoami_path None]).
  { repeat constructor. exists whoami_path. split; [left; reflexivity | reflexivity]. }
  destruct (to_result _) as [username | st message].
  - rewrite bind_run.
    pose proof (server_find_user_log P username rt _
                  (ex_intro _ (users_path username)
                     (conj (or_intror (or_introl (ex_intro _ username eq_refl))) eq_refl))
                  H1) as H2.
    destruct (Server.find_user _ _ _ _) as [[[out | user] |] log2]; cbn [snd] in H2;
      [exact H2 | | exact H2].
    rewrite bind_lift.
    destruct (if truthy user then _ else _) as [slug |]; [| exact H2].
    destruct (negb (truthy user) || negb (truthy slug)); [exact H2 |].
    rewrite bind_run.
    assert (H3 : Forall P (snd ((if Server.is_author_or_all role
                                 then Server.inbox tok "AUTHOR" [] else ret []) rt log2))).
    { destruct role; cbn [Server.is_author_or_all]; try exact H2;
        rewrite server_inbox_log; (apply Forall_snoc; [exact H2 |]);
        exists (inbox_path "AUTHOR");
        (split; [right; right; exists "AUTHOR"; split; [left; reflexivity | reflexivity]
                | reflexivity]). }
    match type of H3 with
    | Forall _ (snd ?c) => destruct c as [[prs1 |] log3]
    end; cbn [snd] in H3; [| exact H3].
    rewrite bind_run.
    assert (H4 : Forall P (snd ((if Server.is_reviewer_or_all role
                                 then Server.inbox tok "REVIEWER" prs1 else ret prs1)
                                  rt log3))).
    { destruct role; cbn [Server.is_reviewer_or_all]; try exact H3;
        rewrite server_inbox_log; (apply Forall_snoc; [exact H3 |]);
        exists (inbox_path "REVIEWER");
        (split; [right; right; exists "REVIEWER"; split;
                   [cbn; auto | reflexivity]
                | reflexivity]). }
    match type of H4 with
    | Forall _ (snd ?c) => destruct c as [[prs2 |] log4]
    end; cbn [snd] in H4; [| exact H4].
    rewrite bind_lift. destruct (uniquePrs _); [| exact H4].
    rewrite bind_lift. destruct (cmap _ _); [| exact H4].
    unfold lift. exact H4.
  - unfold lift. exact H1.
Qed.

End Logs.

Lemma planned_inbox roles r : planned roles (inbox_path r) -> In r roles.
Proof.
  intros [H | [[username H] | (r' & Hin & H)]].
  - discriminate H.
  - discriminate H.
  - apply append_cancel_l in H. subst. exact Hin.
Qed.

Lemma not_queried {A} (c : IO A) rt (prefix : string)
  (roles : list string) (mk : string -> Request) r :
  (forall path, url (mk path) = prefix ++ path) ->
  Forall (fun req => exists path, planned roles path /\ req = mk path) (requests_of c rt) ->
  ~ In r roles ->
  ~ In (prefix ++ inbox_path r) (urls_of c rt).
Proof.
  intros Hurl F Hr Hin. unfold urls_of in Hin.
  apply in_map_iff in Hin. destruct Hin as (req & Hu & Hreq).
  rewrite Forall_forall in F. destruct (F req Hreq) as (path & Hp & ->).
  rewrite Hurl in Hu. apply append_cancel_l in Hu. subst path.
  apply Hr. apply planned_inbox. exact Hp.
Qed.

Lemma apitool_request_url base token path config :
  url (ApiTool.request base token path config) = base ++ path.
Proof. reflexivity. Qed.

Lemma server_request_url tok path config :
  url (Server.request tok path config) = Server.BITBUCKET_BASE_URL ++ path.
Proof. reflexivity. Qed.

(** C6. With role [author] no inbox query with [role=REVIEWER] is issued, and
    with role [reviewer] none with [role=AUTHOR], whatever the remote host
    answers; so an invocation that issues both has role [all], and with role
    [all] both are issued when the earlier steps succeed.  This holds in both
    variants. *)
Theorem role_filter_limits_queries base token tok rt :
  ~ In (base ++ "/rest/api/latest/inbox/pull-requests?state=OPEN&role=REVIEWER")
       (urls_of (ApiTool.bitbucketlistprs base token author) rt)
  /\ ~ In (base ++ "/rest/api/latest/inbox/pull-requests?state=OPEN&role=AUTHOR")
          (urls_of (ApiTool.bitbucketlistprs base token reviewer) rt)
  /\ ~ In "https://git.namecheap.net/rest/api/latest/inbox/pull-requests?state=OPEN&role=REVIEWER"
          (urls_of (Server.bitbucketlistprs tok author) rt)
  /\ ~ In "https://git.namecheap.net/rest/api/latest/inbox/pull-requests?state=OPEN&role=AUTHOR"
          (urls_of (Server.bitbucketlistprs tok reviewer) rt)
  /\ (forall role,
        In (base ++ "/rest/api/latest/inbox/pull-requests?state=OPEN&role=AUTHOR")
           (urls_of (ApiTool.bitbucketlistprs base token role) rt) ->
        In (base ++ "/rest/api/latest/inbox/pull-requests?state=OPEN&role=REVIEWER")
           (urls_of (ApiTool.bitbucketlistprs base token role) rt) ->
        role = all)
  /\ (forall role,
        In "https://git.namecheap.net/rest/api/latest/inbox/pull-requests?state=OPEN&role=AUTHOR"
           (urls_of (Server.bitbucketlistprs tok role) rt) ->
        In "https://git.namecheap.net/rest/api/latest/inbox/pull-requests?state=OPEN&role=REVIEWER"
           (urls_of (Server.bitbucketlistprs tok role) rt) ->
        role = all)
  /\ urls_of (ApiTool.bitbucketlistprs base token all)
       (scripted [ok (JStr "ann"); ok (page [sample_user]); ok (page []); ok (page [])])
     = [base ++ "/plugins/servlet/applinks/whoami";
        base ++ "/rest/api/latest/users?filter=ann";
        base ++ "/rest/api/latest/inbox/pull-requests?state=OPEN&role=AUTHOR";
        base ++ "/rest/api/latest/inbox/pull-requests?state=OPEN&role=REVIEWER"]
  /\ urls_of (Server.bitbucketlistprs tok all)
       (scripted [ok (JStr "ann"); ok (page [sample_user]); ok (page []); ok (page [])])
     = ["https://git.namecheap.net/plugins/servlet/applinks/whoami";
        "https://git.namecheap.net/rest/api/latest/users?filter=ann";
        "https://git.namecheap.net/rest/api/latest/inbox/pull-requests?state=OPEN&role=AUTHOR";
        "https://git.namecheap.net/rest/api/latest/inbox/pull-requests?state=OPEN&role=REVIEWER"].
Proof.
  assert (A : forall role r, ~ In r (ApiTool.roles_of role) ->
              ~ In (base ++ inbox_path r)
                   (urls_of (ApiTool.bitbucketlistprs base token role) rt)).
  { intros role r Hr.
    apply (not_queried _ rt base (ApiTool.roles_of role)
             (fun path => ApiTool.request base token path no_config) r).
    - intros path. apply apitool_request_url.
    - apply apitool_listprs_log.
    - exact Hr. }
  assert (S : forall role r, ~ In r (server_roles role) ->
              ~ In (Server.BITBUCKET_BASE_URL ++ inbox_path r)
                   (urls_of (Server.bitbucketlistprs tok role) rt)).
  { intros role r Hr.
    apply (not_queried _ rt Server.BITBUCKET_BASE_URL (server_roles role)
             (fun path => Server.request tok path None) r).
    - intros path. apply server_request_url.
    - apply server_listprs_log.
    - exact Hr. }
  assert (NA : ~ In "REVIEWER" (ApiTool.roles_of author)).
  { cbn. intros [H | []]. discriminate H. }
  assert (NR : ~ In "AUTHOR" (ApiTool.roles_of reviewer)).
  { cbn. intros [H | []]. discriminate H. }
  assert (SA : ~ In "REVIEWER" (server_roles author)).
  { cbn. intros [H | []]. discriminate H. }
  assert (SR : ~ In "AUTHOR" (server_roles reviewer)).
  { cbn. intros [H | []]. discriminate H. }
  split; [exact (A author "REVIEWER" NA) |].
  split; [exact (A reviewer "AUTHOR" NR) |].
  split; [exact (S author "REVIEWER" SA) |].
  split; [exact (S reviewer "AUTHOR" SR) |].
  split.
  { intros [| |] Ha Hr; [ | | reflexivity].
    - exfalso. exact (A author "REVIEWER" NA Hr).
    - exfalso. exact (A reviewer "AUTHOR" NR Ha). }
  split.
  { intros [| |] Ha Hr; [ | | reflexivity].
    - exfalso. exact (S author "REVIEWER" SA Hr).
    - exfalso. exact (S reviewer "AUTHOR" SR Ha). }
  split; reflexivity.
Qed.

Lemma role_filter_limits_queries_witness :
  In "https://git.namecheap.net/rest/api/latest/inbox/pull-requests?state=OPEN&role=AUTHOR"
     (urls_of (Server.bitbucketlistprs (Some "token") all)
        (scripted [ok (JStr "ann"); ok (page [sample_user]); ok (page []); ok (page [])]))
  /\ In "https://git.namecheap.net/rest/api/latest/inbox/pull-requests?state=OPEN&role=REVIEWER"
        (urls_of (Server.bitbucketlistprs (Some "token") all)
           (scripted [ok (JStr "ann"); ok (page [sample_user]); ok (page []); ok (page [])]))
  /\ all = all.
Proof.
  assert (Ha : In "https://git.namecheap.net/rest/api/latest/inbox/pull-requests?state=OPEN&role=AUTHOR"
                 (urls_of (Server.bitbucketlistprs (Some "token") all)
                    (scripted [ok (JStr "ann"); ok (page [sample_user]);
                               ok (page []); ok (page [])]))).
  { vm_compute. right. right. left. reflexivity. }
  assert (Hr : In "https://git.namecheap.net/rest/api/latest/inbox/pull-requests?state=OPEN&role=REVIEWER"
                 (urls_of (Server.bitbucketlistprs (Some "token") all)
                    (scripted [ok (JStr "ann"); ok (page [sample_user]);
                               ok (page []); ok (page [])]))).
  { vm_compute. right. right. right. left. reflexivity. }
  split; [exact Ha | split; [exact Hr |]].
  destruct (role_filter_limits_queries "https://bitbucket.example" "token" (Some "token")
              (scripted [ok (JStr "ann"); ok (page [sample_user]); ok (page []); ok (page [])]))
    as (_ & _ & _ & _ & _ & Only & _).
  exact (Only all Ha Hr).
Defined.
(** ** Request URLs *)








Lemma append_assoc (a b c : string) : (a ++ b) ++ c = a ++ (b ++ c).
Proof. induction a as [| x a IH]; simpl; [reflexivity | rewrite IH; reflexivity]. Qed.


(** ** Deduplication *)

Lemma strict_equals_same a : strict_equals true a a = true.
Proof.
  destruct a as [ | | b | n | s | items | props | f k]; simpl; try reflexivity.
  - destruct b; reflexivity.
  - apply Z.eqb_refl.
  - apply String.eqb_refl.
  - apply String.eqb_refl.
Qed.



Lemma get_prop_id pr : nullish pr = false -> get_prop pr "id" = Normal (id_of pr).
Proof. destruct pr; simpl; intros H; try discriminate; reflexivity. Qed.

Lemma same_id_run i pr j p :
  nullish pr = false -> nullish p = false ->
  same_id i pr j p = Normal (strict_equals (j =? i)%nat (id_of p) (id_of pr)).
Proof.
  intros Hpr Hp. unfold same_id. rewrite (get_prop_id p Hp), (get_prop_id pr Hpr). reflexivity.
Qed.

Lemma findIndex_first pre : forall j0 x post,
  Forall (fun p => nullish p = false) pre -> nullish x = false ->
  existsb (has_id (id_of x)) pre = false ->
  findIndex_from (same_id (j0 + List.length pre) x) j0 (pre ++ x :: post)
  = Normal (Z.of_nat (j0 + List.length pre)).
Proof.
  induction pre as [| p pre IH]; intros j0 x post Hpre Hx Hnone; cbn [app findIndex_from List.length].
  - rewrite same_id_run by assumption. rewrite Nat.add_0_r, Nat.eqb_refl, strict_equals_same.
    reflexivity.
  - inversion Hpre as [| ? ? Hp Hpre']; subst.
    cbn [existsb] in Hnone. apply orb_false_iff in Hnone. destruct Hnone as [Hp' Hrest].
    rewrite same_id_run by assumption.
    replace (j0 =? j0 + S (List.length pre))%nat with false
      by (symmetry; apply Nat.eqb_neq; lia).
    unfold has_id in Hp'. rewrite Hp'. cbn [cbind].
    replace (j0 + S (List.length pre))%nat with (S j0 + List.length pre)%nat by lia.
    apply IH; assumption.
Qed.

Lemma findIndex_earlier pre : forall j0 x post,
  Forall (fun p => nullish p = false) pre -> nullish x = false ->
  existsb (has_id (id_of x)) pre = true ->
  exists k, findIndex_from (same_id (j0 + List.length pre) x) j0 (pre ++ x :: post)
            = Normal (Z.of_nat k)
            /\ (k < j0 + List.length pre)%nat.
Proof.
  induction pre as [| p pre IH]; intros j0 x post Hpre Hx Hsome; [discriminate |].
  inversion Hpre as [| ? ? Hp Hpre']; subst.
  cbn [app findIndex_from List.length].
  rewrite same_id_run by assumption.
  replace (j0 =? j0 + S (List.length pre))%nat with false
    by (symmetry; apply Nat.eqb_neq; lia).
  cbn [existsb] in Hsome. unfold has_id at 1 in Hsome.
  destruct (strict_equals false (id_of p) (id_of x)); cbn [cbind].
  - exists j0. split; [reflexivity | lia].
  - cbn [orb] in Hsome.
    replace (j0 + S (List.length pre))%nat with (S j0 + List.length pre)%nat by lia.
    destruct (IH (S j0) x post Hpre' Hx Hsome) as (k & Hk & Hlt).
    exists k. split; [exact Hk | lia].
Qed.

Lemma filter_first_seen post : forall pre,
  Forall (fun p => nullish p = false) (pre ++ post) ->
  filter_from
    (fun i pr => let* k := findIndex (same_id i pr) (pre ++ post) in Normal (k =? Z.of_nat i))
    (List.length pre) post
  = Normal (first_seen pre post).
Proof.
  induction post as [| x post IH]; intros pre Hall; [reflexivity |].
  pose proof Hall as Hall'. apply Forall_app in Hall'. destruct Hall' as [Hpre Hpost].
  inversion Hpost as [| ? ? Hx Hpost']; subst.
  cbn [filter_from first_seen]. unfold findIndex at 1.
  assert (Hrec : filter_from
            (fun i pr => let* k := findIndex (same_id i pr) (pre ++ x :: post) in
                         Normal (k =? Z.of_nat i))
            (S (List.length pre)) post
          = Normal (first_seen (pre ++ [x]) post)).
  { replace (pre ++ x :: post)%list with ((pre ++ [x]) ++ post)%list
      by (rewrite <- app_assoc; reflexivity).
    replace (S (List.length pre)) with (List.length (pre ++ [x])%list)
      by (rewrite length_app; cbn; lia).
    apply IH. rewrite <- app_assoc. exact Hall. }
  destruct (existsb (has_id (id_of x)) pre) eqn:Hdup.
  - destruct (findIndex_earlier pre 0 x post Hpre Hx Hdup) as (k & Hk & Hlt).
    cbn [Nat.add] in Hk. rewrite Hk. cbn [cbind].
    replace (Z.of_nat k =? Z.of_nat (List.length pre)) with false
      by (symmetry; apply Z.eqb_neq; cbn in Hlt; lia).
    rewrite Hrec. reflexivity.
  - pose proof (findIndex_first pre 0 x post Hpre Hx Hdup) as Hk.
    cbn [Nat.add] in Hk. rewrite Hk. cbn [cbind].
    rewrite Z.eqb_refl, Hrec. reflexivity.
Qed.

Lemma uniquePrs_first_seen prs :
  Forall (fun p => nullish p = false) prs ->
  uniquePrs prs = Normal (first_seen [] prs).
Proof. intros H. exact (filter_first_seen prs [] H). Qed.

Lemma first_seen_subsequence prs : forall seen, subsequence (first_seen seen prs) prs.
Proof.
  induction prs as [| x prs IH]; intros seen; cbn [first_seen]; [constructor |].
  destruct (existsb _ seen); constructor; apply IH.
Qed.






Lemma finds_user_resolves found : finds_user found -> resolves_user found.
Proof.
  intros (user & others & Hv & Hs). exists (JArr (user :: others)), user.
  repeat split; assumption.
Qed.

Lemma apitool_listprs_all base token rt username found d1 d2 l1 l2 :
  answers rt 0 (ApiTool.request base token whoami_path no_config) username ->
  answers rt 1 (ApiTool.request base token (users_path username) no_config) found ->
  finds_user found ->
  answers rt 2 (ApiTool.request base token (inbox_path "AUTHOR") no_config) d1 ->
  lists d1 l1 ->
  answers rt 3 (ApiTool.request base token (inbox_path "REVIEWER") no_config) d2 ->
  lists d2 l2 ->
  result_of (ApiTool.listprs_logic base token all) rt = listing (l1 ++ l2).
Proof.
  intros H0 H1 F H2 L1 H3 L2. unfold result_of.
  rewrite (apitool_listprs_resolved _ _ _ _ _ _ H0 H1 (finds_user_resolves _ F)).
  cbn [ApiTool.roles_of]. rewrite bind_run.
  rewrite (collect_first_answered _ _ _ _ _ _ _ d1 l1) by assumption.
  rewrite (collect_first_answered _ _ _ _ _ _ _ d2 l2) by assumption.
  cbn [ApiTool.collect app]. unfold ret at 1. unfold listing.
  rewrite bind_lift. destruct (uniquePrs _); [| reflexivity]. cbn [cbind].
  rewrite bind_lift. destruct (cmap _ _); reflexivity.
Qed.

Lemma spread_expr expr expr' v items :
  spread expr v = Normal items -> spread expr' v = Normal items.
Proof. destruct v; cbn; intros H; try discriminate; exact H. Qed.

Lemma server_inbox_answered tok r prs rt log d items :
  answers rt (List.length log) (Server.request tok (inbox_path r) None) d ->
  lists d items ->
  Server.inbox tok r prs rt log
  = (Normal (prs ++ items)%list, (log ++ [Server.request tok (inbox_path r) None])%list).
Proof.
  intros [st H] (values & Hv & Hs). unfold Server.inbox.
  rewrite bind_run, bitbucketApiRequest_run, H. cbn [to_result data].
  rewrite bind_lift, Hv.
  destruct (truthy values) eqn:T.
  - rewrite bind_lift, (spread_expr _ "response.data.values" _ _ Hs). reflexivity.
  - destruct values; try discriminate.
    destruct s; [| discriminate]. cbn in Hs. inversion Hs. rewrite app_nil_r. reflexivity.
Qed.

Lemma server_find_user_found tok rt log username found :
  truthy username = true ->
  answers rt (List.length log) (Server.request tok (users_path username) None) found ->
  finds_user found ->
  exists user,
    Server.find_user tok username rt log
    = (Normal (inr user), (log ++ [Server.request tok (users_path username) None])%list)
    /\ truthy user = true /\ truthy (slug_of user) = true.
Proof.
  intros T [st H] (user & others & Hv & Hs). exists user.
  unfold Server.find_user. rewrite T.
  rewrite bind_run, bitbucketApiRequest_run, H. cbn [to_result data].
  rewrite bind_lift, Hv. cbn [truthy].
  rewrite bind_lift. cbn [get_prop String.eqb Ascii.eqb Bool.eqb].
  rewrite bind_run. unfold runtime at 1.
  unfold gt_zero, to_number.
  replace (0 <? Z.of_nat (List.length (user :: others))) with true
    by (symmetry; apply Z.ltb_lt; cbn [List.length]; lia).
  split; [reflexivity |]. split; [| exact Hs].
  destruct user; try discriminate; reflexivity.
Qed.

Lemma server_listprs_all tok rt username found d1 d2 l1 l2 :
  answers rt 0 (Server.request tok whoami_path None) username ->
  truthy username = true ->
  answers rt 1 (Server.request tok (users_path username) None) found ->
  finds_user found ->
  answers rt 2 (Server.request tok (inbox_path "AUTHOR") None) d1 ->
  lists d1 l1 ->
  answers rt 3 (Server.request tok (inbox_path "REVIEWER") None) d2 ->
  lists d2 l2 ->
  result_of (Server.bitbucketlistprs tok all) rt
  = (let* projection := listing (l1 ++ l2) in Server.formatToolResponse projection).
Proof.
  intros H0 T H1 F H2 L1 H3 L2. unfold result_of.
  rewrite (server_listprs_after_whoami _ _ _ _ H0), bind_run.
  destruct (server_find_user_found tok rt [Server.request tok whoami_path None]
              username found T H1 F) as (user & -> & Tu & Ts).
  rewrite bind_lift, Tu, (truthy_slug user Tu), Ts. cbn [negb orb app].
  cbn [Server.is_author_or_all Server.is_reviewer_or_all].
  rewrite bind_run, (server_inbox_answered _ _ _ _ _ d1 l1) by assumption.
  rewrite bind_run, (server_inbox_answered _ _ _ _ _ d2 l2) by assumption.
  cbn [app]. unfold listing.
  rewrite bind_lift. destruct (uniquePrs _); [| reflexivity]. cbn [cbind].
  rewrite bind_lift. destruct (cmap _ _); reflexivity.
Qed.

(** ** The get-info operation *)

Lemma toISOString_number parse t :
  Z.abs t <= 8640000000000000 -> toISOString parse (JNum t) = Normal (JStr (iso_string t)).
Proof.
  intros H. unfold toISOString, new_Date, time_clip.
  replace (Z.abs t <=? 8640000000000000) with true by (symmetry; apply Z.leb_le; exact H).
  reflexivity.
Qed.

Lemma get_prop_total d k : nullish d = false -> exists v, get_prop d k = Normal v.
Proof. destruct d; simpl; intros H; try discriminate; eexists; reflexivity. Qed.

Lemma author_name_total d : nullish d = false -> exists v, author_name d = Normal v.
Proof.
  intros H. unfold author_name.
  destruct (get_prop_total d "author" H) as [a ->]. cbn [cbind].
  assert (T : forall x k, exists v, get_prop_opt x k = Normal v).
  { intros x k. unfold get_prop_opt. destruct (nullish x) eqn:N; [eexists; reflexivity |].
    apply get_prop_total. exact N. }
  destruct (T a "user") as [u ->]. cbn [cbind]. apply T.
Qed.

Lemma project_info_created parse expr d v c :
  get_prop d "createdDate" = Normal (JNum c) ->
  Z.abs c <= 8640000000000000 ->
  project_info parse expr d = Normal v ->
  get_prop v "created_on" = Normal (JStr (iso_string c)).
Proof.
  intros Hc Hr H. unfold project_info in H. rewrite Hc in H. unfold cbind in H.
  rewrite (toISOString_number parse c Hr) in H.
  repeat match type of H with
         | context [match ?x with _ => _ end] => destruct x; try discriminate
         end.
  inversion H. reflexivity.
Qed.

Lemma project_info_dated parse expr d c u names :
  nullish d = false ->
  get_prop d "createdDate" = Normal (JNum c) -> Z.abs c <= 8640000000000000 ->
  get_prop d "updatedDate" = Normal (JNum u) -> Z.abs u <= 8640000000000000 ->
  reads_reviewers d names ->
  exists id title description author state,
    project_info parse expr d
    = Normal (JObj [("id", id); ("title", title); ("description", description);
                    ("author", author); ("reviewers", names); ("state", state);
                    ("created_on", JStr (iso_string c));
                    ("updated_on", JStr (iso_string u))]).
Proof.
  intros N Hc Rc Hu Ru Hr. unfold project_info.
  destruct (get_prop_total d "id" N) as [id ->]. cbn [cbind].
  destruct (get_prop_total d "title" N) as [title ->]. cbn [cbind].
  destruct (get_prop_total d "description" N) as [description ->]. cbn [cbind].
  destruct (author_name_total d N) as [author ->]. cbn [cbind].
  rewrite (Hr expr). cbn [cbind].
  destruct (get_prop_total d "state" N) as [state ->]. cbn [cbind].
  rewrite Hc. cbn [cbind]. rewrite (toISOString_number parse c Rc). cbn [cbind].
  rewrite Hu. cbn [cbind]. rewrite (toISOString_number parse u Ru). cbn [cbind].
  exists id, title, description, author, state. reflexivity.
Qed.

(** ** The projection of the list operation *)

(** C4. The projection reads [author], [reviewers] and [destination]
    through optional chaining: a pull request that lacks them projects to
    [undefined] in those fields.  It reads [fromRef.repository.project.key]
    and [fromRef.repository.slug] without it: a pull request that lacks
    [fromRef], its [repository] or the [project] of that repository makes the
    projection throw a [TypeError]; the [registerApiTool] variant then answers
    the whole listing with an [Unhandled error: ] text and the handler of
    [src/server.ts] throws. *)
Theorem projection_is_not_defensive_on_fromRef :
  project_pr (sample_pr 1 "Fix")
  = Normal (JObj [("id", JNum 1); ("title", JStr "Fix"); ("author", JUndefined);
                  ("reviewers", JUndefined); ("state", JUndefined);
                  ("repository", JUndefined); ("projectKey", JStr "PRJ");
                  ("repositorySlug", JStr "repo")])
  /\ project_pr (bare_pr 1 "Fix")
     = Throw (TypeError "Cannot read properties of undefined (reading 'repository')")
  /\ project_pr (JObj [("id", JNum 1); ("fromRef", JObj [])])
     = Throw (TypeError "Cannot read properties of undefined (reading 'project')")
  /\ project_pr (JObj [("id", JNum 1);
                       ("fromRef", JObj [("repository", JObj [("slug", JStr "repo")])])])
     = Throw (TypeError "Cannot read properties of undefined (reading 'key')")
  /\ result_of (ApiTool.bitbucketlistprs "https://bitbucket.example" "token" author)
       (scripted [ok (JStr "ann"); ok (page [sample_user]);
                  ok (page [sample_pr 2 "Add"; bare_pr 1 "Fix"])])
     = Normal (text_envelope (JStr
         "Unhandled error: Cannot read properties of undefined (reading 'repository')"))
  /\ result_of (Server.bitbucketlistprs (Some "token") author)
       (scripted [ok (JStr "ann"); ok (page [sample_user]);
                  ok (page [sample_pr 2 "Add"; bare_pr 1 "Fix"])])
     = Throw (TypeError "Cannot read properties of undefined (reading 'repository')").
Proof. repeat split; vm_compute; reflexivity. Qed.

(** * Further properties of the handlers *)

(** ** The two pull-request tools *)

Lemma registered_throw {Args} (logic : Args -> IO JValue) args rt e reqs :
  logic args rt [] = (Throw (ApiTool.new_Error (error_message e)), reqs) ->
  ends_with (ApiTool.registerApiTool logic args) rt
    ("Unhandled error: " ++ shown (error_message e)) reqs.
Proof.
  intros L. unfold ends_with. rewrite registerApiTool_run, L, error_message_shown. reflexivity.
Qed.

(** X1. Diff passthrough.  When the GET of the diff resolves with a string,
    both variants return that string as the text of the envelope, unchanged,
    after one request that asks for [text/plain] with the [text] response
    type and carries the bearer token. *)
Theorem diff_text_is_passed_through base token tok key slug id rt s :
  (answers rt 0
     {| url := base ++ diff_path key slug id;
        headers := [("Authorization", "Bearer " ++ token); ("Accept", "text/plain")];
        responseType := Some "text" |} (JStr s) ->
   ends_with (ApiTool.bitbucketgetdiff base token
                {| ApiTool.projectKey := key; ApiTool.repositorySlug := slug;
                   ApiTool.prId := id |}) rt s
     [ {| url := base ++ diff_path key slug id;
          headers := [("Authorization", "Bearer " ++ token); ("Accept", "text/plain")];
          responseType := Some "text" |} ])
  /\ (answers rt 0
        {| url := "https://git.namecheap.net" ++ diff_path key slug id;
           headers := [("Authorization", Server.bearer tok); ("Accept", "text/plain")];
           responseType := Some "text" |} (JStr s) ->
      ends_with (Server.bitbucketgetdiff tok
                   {| Server.projectKey := key; Server.repositorySlug := slug;
                      Server.prId := id |}) rt s
        [ {| url := "https://git.namecheap.net" ++ diff_path key slug id;
             headers := [("Authorization", Server.bearer tok); ("Accept", "text/plain")];
             responseType := Some "text" |} ]).
Proof.
  split.
  - intros [st H]. unfold ends_with, ApiTool.bitbucketgetdiff.
    rewrite registerApiTool_run. unfold ApiTool.getdiff_logic.
    rewrite bind_run, bitbucketGet_run. cbn [List.length].
    change (ApiTool.request base token
              (diff_path (ApiTool.projectKey _) (ApiTool.repositorySlug _) (ApiTool.prId _))
              ApiTool.diff_config)
      with {| url := base ++ diff_path key slug id;
              headers := [("Authorization", "Bearer " ++ token); ("Accept", "text/plain")];
              responseType := Some "text" |}.
    rewrite H. reflexivity.
  - intros [st H]. unfold ends_with, Server.bitbucketgetdiff.
    rewrite bind_run, bitbucketApiRequest_run. cbn [List.length].
    change (Server.request tok
              (diff_path (Server.projectKey _) (Server.repositorySlug _) (Server.prId _))
              (Some Server.diff_config))
      with {| url := "https://git.namecheap.net" ++ diff_path key slug id;
              headers := [("Authorization", Server.bearer tok); ("Accept", "text/plain")];
              responseType := Some "text" |}.
    rewrite H. reflexivity.
Qed.

Lemma diff_text_is_passed_through_witness :
  ends_with (ApiTool.bitbucketgetdiff "https://bitbucket.example" "token"
               {| ApiTool.projectKey := "PRJ"; ApiTool.repositorySlug := "repo";
                  ApiTool.prId := 7 |})
    (scripted [ok (JStr "--- a/f +++ b/f")]) "--- a/f +++ b/f"
    [ {| url := "https://bitbucket.example" ++ diff_path "PRJ" "repo" 7;
         headers := [("Authorization", "Bearer " ++ "token"); ("Accept", "text/plain")];
         responseType := Some "text" |} ]
  /\ ends_with (Server.bitbucketgetdiff None
                  {| Server.projectKey := "PRJ"; Server.repositorySlug := "repo";
                     Server.prId := 7 |})
       (scripted [ok (JStr "--- a/f +++ b/f")]) "--- a/f +++ b/f"
       [ {| url := "https://git.namecheap.net" ++ diff_path "PRJ" "repo" 7;
            headers := [("Authorization", Server.bearer None); ("Accept", "text/plain")];
            responseType := Some "text" |} ].
Proof.
  destruct (diff_text_is_passed_through "https://bitbucket.example" "token" None
              "PRJ" "repo" 7 (scripted [ok (JStr "--- a/f +++ b/f")]) "--- a/f +++ b/f")
    as [A S].
  split; [apply A | apply S]; exists 200; reflexivity.
Defined.

(** X2. A rejected GET in the two pull-request tools, for an upstream message
    that [ToString] completes on.  [src/server.ts] answers with
    [Error fetching PR info: ] or [Error fetching PR diff: ] followed by the
    upstream message; the [registerApiTool] variant answers both with
    [Unhandled error: ] followed by it.  The rejected GET is the only
    request: nothing is retried. *)
Theorem pull_request_tools_report_upstream_errors base token tok rt e :
  stringable (error_message e) = true ->
  (forall a,
      rejects rt 0 (Server.request tok
                      (pr_path (Server.projectKey a) (Server.repositorySlug a) (Server.prId a))
                      None) e ->
      ends_with (Server.bitbucketgetpr tok a) rt
        ("Error fetching PR info: " ++ to_string (error_message e))
        [Server.request tok
           (pr_path (Server.projectKey a) (Server.repositorySlug a) (Server.prId a)) None])
  /\ (forall a,
      rejects rt 0 (Server.request tok
                      (diff_path (Server.projectKey a) (Server.repositorySlug a) (Server.prId a))
                      (Some Server.diff_config)) e ->
      ends_with (Server.bitbucketgetdiff tok a) rt
        ("Error fetching PR diff: " ++ to_string (error_message e))
        [Server.request tok
           (diff_path (Server.projectKey a) (Server.repositorySlug a) (Server.prId a))
           (Some Server.diff_config)])
  /\ (forall a,
      rejects rt 0 (ApiTool.request base token
                      (pr_path (ApiTool.projectKey a) (ApiTool.repositorySlug a)
                               (ApiTool.prId a)) no_config) e ->
      ends_with (ApiTool.bitbucketgetpr base token a) rt
        ("Unhandled error: " ++ shown (error_message e))
        [ApiTool.request base token
           (pr_path (ApiTool.projectKey a) (ApiTool.repositorySlug a) (ApiTool.prId a))
           no_config])
  /\ (forall a,
      rejects rt 0 (ApiTool.request base token
                      (diff_path (ApiTool.projectKey a) (ApiTool.repositorySlug a)
                                 (ApiTool.prId a)) ApiTool.diff_config) e ->
      ends_with (ApiTool.bitbucketgetdiff base token a) rt
        ("Unhandled error: " ++ shown (error_message e))
        [ApiTool.request base token
           (diff_path (ApiTool.projectKey a) (ApiTool.repositorySlug a) (ApiTool.prId a))
           ApiTool.diff_config]).
Proof.
  intros _. repeat split.
  - intros a H. unfold ends_with, Server.bitbucketgetpr.
    rewrite bind_run, bitbucketApiRequest_run. cbn [List.length]. rewrite H. reflexivity.
  - intros a H. unfold ends_with, Server.bitbucketgetdiff.
    rewrite bind_run, bitbucketApiRequest_run. cbn [List.length]. rewrite H. reflexivity.
  - intros a H. unfold ApiTool.bitbucketgetpr. apply (registered_throw _ a rt e).
    unfold ApiTool.getpr_logic.
    rewrite bind_run, bitbucketGet_run. cbn [List.length]. rewrite H. reflexivity.
  - intros a H. unfold ApiTool.bitbucketgetdiff. apply (registered_throw _ a rt e).
    unfold ApiTool.getdiff_logic.
    rewrite bind_run, bitbucketGet_run. cbn [List.length]. rewrite H. reflexivity.
Qed.

Lemma pull_request_tools_report_upstream_errors_witness :
  ends_with (Server.bitbucketgetpr (Some "token")
               {| Server.projectKey := "PRJ"; Server.repositorySlug := "repo";
                  Server.prId := 7 |})
    (scripted [http_error 404 (JStr "no such pull request")])
    "Error fetching PR info: no such pull request"
    [Server.request (Some "token") (pr_path "PRJ" "repo" 7) None]
  /\ ends_with (ApiTool.bitbucketgetdiff "https://bitbucket.example" "token"
                  {| ApiTool.projectKey := "PRJ"; ApiTool.repositorySlug := "repo";
                     ApiTool.prId := 7 |})
       (scripted [Throw network_error])
       "Unhandled error: Network Error"
       [ApiTool.request "https://bitbucket.example" "token" (diff_path "PRJ" "repo" 7)
          ApiTool.diff_config]
  /\ ends_with (ApiTool.bitbucketgetpr "https://bitbucket.example" "token"
                  {| ApiTool.projectKey := "PRJ"; ApiTool.repositorySlug := "repo";
                     ApiTool.prId := 7 |})
       (scripted [http_error 404 (JObj [("errors", JArr [])])])
       "Unhandled error: [object Object]"
       [ApiTool.request "https://bitbucket.example" "token" (pr_path "PRJ" "repo" 7)
          no_config].
Proof.
  split; [| split].
  - destruct (pull_request_tools_report_upstream_errors "https://bitbucket.example" "token"
                (Some "token") (scripted [http_error 404 (JStr "no such pull request")])
                (http_failure 404 (JStr "no such pull request")) eq_refl) as (S & _).
    exact (S {| Server.projectKey := "PRJ"; Server.repositorySlug := "repo";
                Server.prId := 7 |} eq_refl).
  - destruct (pull_request_tools_report_upstream_errors "https://bitbucket.example" "token"
                (Some "token") (scripted [Throw network_error]) network_error eq_refl)
      as (_ & _ & _ & A).
    exact (A {| ApiTool.projectKey := "PRJ"; ApiTool.repositorySlug := "repo";
                ApiTool.prId := 7 |} eq_refl).
  - destruct (pull_request_tools_report_upstream_errors "https://bitbucket.example" "token"
                (Some "token") (scripted [http_error 404 (JObj [("errors", JArr [])])])
                (http_failure 404 (JObj [("errors", JArr [])])) eq_refl)
      as (_ & _ & A & _).
    exact (A {| ApiTool.projectKey := "PRJ"; ApiTool.repositorySlug := "repo";
                ApiTool.prId := 7 |} eq_refl).
Defined.

(** ** The two formatters *)

(** X3. [format] passes a string through as it is and pretty-prints any other
    value with [JSON.stringify(data, null, 2)]: an array goes one element a
    line, indented by two spaces.  The envelope it builds is well formed
    exactly when the value is neither [undefined] nor a function (for those
    [JSON.stringify] gives [undefined], which becomes the text). *)
Theorem format_envelope_well_formed_iff v :
  ApiTool.format v
  = {| content := [ {| block_type := "text";
                       text := match v with
                               | JStr s => JStr s
                               | _ => JSON_stringify v
                               end |} ] |}
  /\ (well_formed (ApiTool.format v) <-> is_body v = true)
  /\ (is_body v = false -> ApiTool.format v = text_envelope JUndefined)
  /\ (forall a b,
        safe_integer a = true ->
        ApiTool.format (JArr [JNum a; JBool b])
        = text_envelope
            (JStr ("[" ++ newline ++ "  " ++ number_to_string a ++ "," ++ newline
                   ++ "  " ++ (if b then "true" else "false") ++ newline ++ "]")))
  /\ ApiTool.format (JArr []) = text_envelope (JStr "[]")
  /\ ApiTool.format JNull = text_envelope (JStr "null").
Proof.
  split; [destruct v; reflexivity |].
  split; [split |].
  - intros [s H]. destruct v; try reflexivity; discriminate H.
  - apply format_well_formed.
  - split; [destruct v; intros H; try discriminate H; reflexivity |].
    split; [| split; reflexivity].
    intros a b _. unfold ApiTool.format, text_envelope, JSON_stringify. cbn.
    destruct b; cbn; rewrite ?append_assoc; reflexivity.
Qed.

Lemma format_envelope_well_formed_iff_witness :
  ApiTool.format (JFun "map" 1) = text_envelope JUndefined
  /\ ApiTool.format (JArr [JNum 42; JBool true])
     = text_envelope (JStr ("[" ++ newline ++ "  42," ++ newline ++ "  true" ++ newline
                            ++ "]")).
Proof.
  destruct (format_envelope_well_formed_iff (JFun "map" 1)) as (_ & _ & P & Q & _).
  split; [exact (P eq_refl) | exact (Q 42 true eq_refl)].
Defined.

Lemma project_info_keys parse expr d v :
  project_info parse expr d = Normal v ->
  has_property "error" v = false /\ has_property "data" v = false.
Proof.
  unfold project_info, cbind.
  repeat (step_match; try discriminate).
  intros H. inversion H. split; reflexivity.
Qed.

(** X4. [formatToolResponse] of [src/server.ts] returns the same envelope as
    [format] of the other variant on every value that has no [error] and no
    [data] property: on every string and array, and on every projection the
    get-info operation builds.  On an object with an [error] property it reads
    [error.message] instead, so it throws when that [error] is null or
    undefined. *)
Theorem formatters_agree v :
  (has_property "error" v = false -> has_property "data" v = false ->
   Server.formatToolResponse v = Normal (ApiTool.format v))
  /\ (forall s, Server.formatToolResponse (JStr s) = Normal (ApiTool.format (JStr s)))
  /\ (forall items, Server.formatToolResponse (JArr items) = Normal (ApiTool.format (JArr items)))
  /\ (forall parse expr d, project_info parse expr d = Normal v ->
        Server.formatToolResponse v = Normal (ApiTool.format v))
  /\ (forall props, v = JObj props -> has_key "error" props = true ->
        nullish (lookup "error" props) = true ->
        Server.formatToolResponse v = Throw (cannot_read (lookup "error" props) "message")).
Proof.
  assert (A : has_property "error" v = false -> has_property "data" v = false ->
              Server.formatToolResponse v = Normal (ApiTool.format v)).
  { intros He Hd. unfold Server.formatToolResponse, ApiTool.format.
    destruct v; try reflexivity; cbn in He, Hd |- *; rewrite ?He, ?Hd; reflexivity. }
  split; [exact A |].
  split; [reflexivity |].
  split; [reflexivity |].
  split.
  - intros parse expr d H. destruct (project_info_keys _ _ _ _ H) as [He Hd].
    apply A; assumption.
  - intros props -> He Hn. unfold Server.formatToolResponse. cbn.
    rewrite He. cbn. destruct (lookup "error" props); try discriminate Hn; reflexivity.
Qed.

Lemma formatters_agree_witness :
  Server.formatToolResponse (JObj [("error", JNull)])
  = Throw (cannot_read JNull "message").
Proof.
  destruct (formatters_agree (JObj [("error", JNull)])) as (_ & _ & _ & _ & E).
  exact (E [("error", JNull)] eq_refl eq_refl eq_refl).
Defined.

(** ** Request headers *)

Lemma header_lookup_set k k' v hs :
  header_lookup k (set_header k' v hs)
  = if (k =? k')%string then Some v else header_lookup k hs.
Proof.
  induction hs as [| [k0 v0] hs IH]; cbn [set_header header_lookup].
  - reflexivity.
  - destruct (k' =? k0)%string eqn:E0; cbn [header_lookup].
    + apply String.eqb_eq in E0. subst k0. destruct (k =? k')%string; reflexivity.
    + destruct (k =? k0)%string eqn:E1.
      * destruct (k =? k')%string eqn:E2; [| reflexivity].
        apply String.eqb_eq in E1, E2. subst. rewrite String.eqb_refl in E0. discriminate.
      * exact IH.
Qed.

Lemma set_header_keys k v hs :
  NoDup (map fst hs) ->
  NoDup (map fst (set_header k v hs))
  /\ (forall x, In x (map fst (set_header k v hs)) <-> x = k \/ In x (map fst hs)).
Proof.
  induction hs as [| [k0 v0] hs IH]; cbn [set_header map fst]; intros N.
  - split; [repeat constructor; intros [] |].
    intros x. cbn. intuition.
  - inversion N as [| ? ? Hn N']; subst.
    destruct (k =? k0)%string eqn:E.
    + apply String.eqb_eq in E. subst k0. cbn [map fst]. split; [exact N |].
      intros x. cbn. intuition.
    + destruct (IH N') as [ND Hin]. cbn [map fst]. split.
      * constructor; [| exact ND]. intros H. apply Hin in H. destruct H as [-> | H].
        -- rewrite String.eqb_refl in E. discriminate.
        -- exact (Hn H).
      * intros x. cbn. rewrite Hin. intuition.
Qed.

(** X5. The headers of a request are the bearer header with the caller's
    headers spread over it: under every name the request carries the value
    the caller wrote last, or else the helper's own; so [Authorization] is
    the bearer token unless the caller supplies one, and no name occurs
    twice. *)
Theorem caller_headers_override base token tok path config k :
  header_lookup k (headers (ApiTool.request base token path config))
  = match last_written k (cfg_headers config) with
    | Some v => Some v
    | None => if (k =? "Authorization")%string then Some ("Bearer " ++ token) else None
    end
  /\ header_lookup k (headers (Server.request tok path (Some config)))
     = match last_written k (cfg_headers config) with
       | Some v => Some v
       | None => if (k =? "Authorization")%string then Some (Server.bearer tok) else None
       end
  /\ NoDup (map fst (headers (ApiTool.request base token path config)))
  /\ NoDup (map fst (headers (Server.request tok path (Some config)))).
Proof.
  assert (L : forall extra start,
             header_lookup k (spread_headers start extra)
             = match last_written k extra with
               | Some v => Some v
               | None => header_lookup k start
               end).
  { unfold spread_headers.
    induction extra as [| [k' v] extra IH]; intros start; cbn [fold_left last_written fst snd].
    - reflexivity.
    - rewrite IH, header_lookup_set.
      destruct (last_written k extra); [reflexivity |].
      destruct (k =? k')%string; reflexivity. }
  assert (N : forall extra start, NoDup (map fst start) ->
                NoDup (map fst (spread_headers start extra))).
  { unfold spread_headers.
    induction extra as [| [k' v] extra IH]; intros start Hs; cbn [fold_left fst snd].
    - exact Hs.
    - apply IH. apply set_header_keys. exact Hs. }
  assert (One : forall b : string, NoDup (map fst [("Authorization", b)])).
  { intros b. repeat constructor. intros []. }
  split; [| split; [| split]].
  - cbn [ApiTool.request headers]. rewrite L. reflexivity.
  - cbn [Server.request headers]. rewrite L. reflexivity.
  - cbn [ApiTool.request headers]. apply N, One.
  - cbn [Server.request headers]. apply N, One.
Qed.

(** ** What every request looks like *)

Lemma apitool_getpr_requests base token a rt :
  requests_of (ApiTool.bitbucketgetpr base token a) rt
  = [ApiTool.request base token
       (pr_path (ApiTool.projectKey a) (ApiTool.repositorySlug a) (ApiTool.prId a)) no_config].
Proof.
  unfold requests_of, ApiTool.bitbucketgetpr.
  rewrite registerApiTool_run. unfold ApiTool.getpr_logic.
  rewrite bind_run, bitbucketGet_run, bind_lift.
  destruct (ApiTool.getOrThrow _); [| reflexivity].
  rewrite bind_run. unfold runtime at 1. unfold lift.
  destruct (project_info _ _ _); reflexivity.
Qed.

Lemma apitool_getdiff_requests base token a rt :
  requests_of (ApiTool.bitbucketgetdiff base token a) rt
  = [ApiTool.request base token
       (diff_path (ApiTool.projectKey a) (ApiTool.repositorySlug a) (ApiTool.prId a))
       ApiTool.diff_config].
Proof.
  unfold requests_of, ApiTool.bitbucketgetdiff.
  rewrite registerApiTool_run. unfold ApiTool.getdiff_logic.
  rewrite bind_run, bitbucketGet_run. unfold lift.
  destruct (ApiTool.getOrThrow _); reflexivity.
Qed.

Lemma server_getpr_requests tok a rt :
  requests_of (Server.bitbucketgetpr tok a) rt
  = [Server.request tok
       (pr_path (Server.projectKey a) (Server.repositorySlug a) (Server.prId a)) None].
Proof.
  unfold requests_of, Server.bitbucketgetpr.
  rewrite bind_run, bitbucketApiRequest_run.
  destruct (to_result _).
  - rewrite bind_run. unfold runtime at 1. rewrite bind_lift.
    destruct (project_info _ _ _); [| reflexivity].
    unfold lift. reflexivity.
  - unfold lift. reflexivity.
Qed.

Lemma server_getdiff_requests tok a rt :
  requests_of (Server.bitbucketgetdiff tok a) rt
  = [Server.request tok
       (diff_path (Server.projectKey a) (Server.repositorySlug a) (Server.prId a))
       (Some Server.diff_config)].
Proof.
  unfold requests_of, Server.bitbucketgetdiff.
  rewrite bind_run, bitbucketApiRequest_run.
  destruct (to_result _); reflexivity.
Qed.

(** X6. Whatever the remote host answers, every request a tool issues goes
    to a URL that starts with the base URL and carries the bearer header of
    the process.  In the [registerApiTool] variant the list and get-info
    tools ask for the response type [json] and send no [Accept] header, the
    diff tool asks for [text] and accepts [text/plain].  In [src/server.ts]
    the list and get-info tools pass no response type and no [Accept]
    header, the diff tool asks for [text] and accepts [text/plain]; the token
    is read there without a check, so an unset token is sent as
    [Bearer undefined]. *)
Theorem every_request_is_authenticated base token tok rt req :
  (forall call,
      In req (requests_of (ApiTool.invoke base token call) rt) ->
      carries_bearer ("Bearer " ++ token) req
      /\ starts_with base (url req)
      /\ match call with
         | ApiTool.CallGetDiff _ =>
             responseType req = Some "text"
             /\ header_lookup "Accept" (headers req) = Some "text/plain"
         | _ =>
             responseType req = Some "json"
             /\ header_lookup "Accept" (headers req) = None
         end)
  /\ (forall role a,
        In req (requests_of (Server.bitbucketlistprs tok role) rt)
        \/ In req (requests_of (Server.bitbucketgetpr tok a) rt) ->
        carries_bearer (Server.bearer tok) req
        /\ starts_with "https://git.namecheap.net" (url req)
        /\ responseType req = None
        /\ header_lookup "Accept" (headers req) = None)
  /\ (forall a,
        In req (requests_of (Server.bitbucketgetdiff tok a) rt) ->
        carries_bearer (Server.bearer tok) req
        /\ starts_with "https://git.namecheap.net" (url req)
        /\ responseType req = Some "text"
        /\ header_lookup "Accept" (headers req) = Some "text/plain")
  /\ Server.bearer None = "Bearer undefined".
Proof.
  split; [| split; [| split; [| reflexivity]]].
  - intros [role | a | a] Hin; cbn [ApiTool.invoke] in Hin.
    + pose proof (apitool_listprs_log base token role rt) as F.
      rewrite Forall_forall in F. destruct (F req Hin) as (path & _ & ->).
      split; [reflexivity |]. split; [exists path; reflexivity | split; reflexivity].
    + rewrite apitool_getpr_requests in Hin. destruct Hin as [<- | []].
      split; [reflexivity |]. split; [eexists; reflexivity | split; reflexivity].
    + rewrite apitool_getdiff_requests in Hin. destruct Hin as [<- | []].
      split; [reflexivity |]. split; [eexists; reflexivity | split; reflexivity].
  - intros role a [Hin | Hin].
    + pose proof (server_listprs_log tok role rt) as F.
      rewrite Forall_forall in F. destruct (F req Hin) as (path & _ & ->).
      split; [reflexivity |]. split; [exists path; reflexivity | split; reflexivity].
    + rewrite server_getpr_requests in Hin. destruct Hin as [<- | []].
      split; [reflexivity |]. split; [eexists; reflexivity | split; reflexivity].
  - intros a Hin.
    rewrite server_getdiff_requests in Hin. destruct Hin as [<- | []].
    split; [reflexivity |]. split; [eexists; reflexivity | split; reflexivity].
Qed.

Lemma every_request_is_authenticated_witness :
  (carries_bearer "Bearer undefined"
     (Server.request None (users_path (JStr "ann")) None)
   /\ starts_with "https://git.namecheap.net"
        (url (Server.request None (users_path (JStr "ann")) None))
   /\ responseType (Server.request None (users_path (JStr "ann")) None) = None
   /\ header_lookup "Accept" (headers (Server.request None (users_path (JStr "ann")) None))
      = None)
  /\ (carries_bearer "Bearer token"
        (ApiTool.request "https://bitbucket.example" "token" (diff_path "PRJ" "repo" 1)
           ApiTool.diff_config)
      /\ starts_with "https://bitbucket.example"
           (url (ApiTool.request "https://bitbucket.example" "token"
                   (diff_path "PRJ" "repo" 1) ApiTool.diff_config))
      /\ responseType (ApiTool.request "https://bitbucket.example" "token"
                         (diff_path "PRJ" "repo" 1) ApiTool.diff_config) = Some "text"
      /\ header_lookup "Accept"
           (headers (ApiTool.request "https://bitbucket.example" "token"
                       (diff_path "PRJ" "repo" 1) ApiTool.diff_config))
         = Some "text/plain").
Proof.
  split.
  - destruct (every_request_is_authenticated "https://bitbucket.example" "token" None
                (scripted [ok (JStr "ann"); ok (page [])])
                (Server.request None (users_path (JStr "ann")) None)) as (_ & S & _).
    apply (S all {| Server.projectKey := "PRJ"; Server.repositorySlug := "repo";
                    Server.prId := 1 |}).
    left. vm_compute. right. left. reflexivity.
  - destruct (every_request_is_authenticated "https://bitbucket.example" "token" None
                (scripted [ok (JStr "diff --git")])
                (ApiTool.request "https://bitbucket.example" "token"
                   (diff_path "PRJ" "repo" 1) ApiTool.diff_config)) as (A & _).
    apply (A (ApiTool.CallGetDiff
                {| ApiTool.projectKey := "PRJ"; ApiTool.repositorySlug := "repo";
                   ApiTool.prId := 1 |})).
    vm_compute. left. reflexivity.
Defined.

(** ** The order of the requests of the list operation *)

Lemma collect_done base token roles :
  forall acc rt log, exists done rest,
    roles = (done ++ rest)%list
    /\ snd (ApiTool.collect base token roles acc rt log)
       = (log ++ map (fun r => ApiTool.request base token (inbox_path r) no_config) done)%list.
Proof.
  induction roles as [| r roles IH]; intros acc rt log; cbn [ApiTool.collect].
  - exists [], []. split; [reflexivity | cbn; rewrite app_nil_r; reflexivity].
  - rewrite bind_run, bitbucketGet_run.
    assert (Stop : exists done rest,
               r :: roles = (done ++ rest)%list
               /\ (log ++ [ApiTool.request base token (inbox_path r) no_config])%list
                  = (log ++ map (fun r => ApiTool.request base token (inbox_path r) no_config)
                              done)%list).
    { exists [r], roles. split; reflexivity. }
    rewrite bind_lift. destruct (ApiTool.getOrThrow _); [| exact Stop].
    rewrite bind_lift. destruct (get_prop _ _); [| exact Stop].
    rewrite bind_lift. destruct (spread _ _) as [items |]; [| exact Stop].
    destruct (IH (acc ++ items)%list rt
                (log ++ [ApiTool.request base token (inbox_path r) no_config])%list)
      as (done & rest & -> & ->).
    exists (r :: done), rest. split; [reflexivity |].
    rewrite <- app_assoc. reflexivity.
Qed.

Lemma is_prefix_length {A} (l plan : list A) :
  is_prefix l plan -> (List.length l <= List.length plan)%nat.
Proof. intros [rest ->]. rewrite length_app. lia. Qed.

Lemma apitool_listprs_prefix base token role rt :
  exists username,
    is_prefix (requests_of (ApiTool.bitbucketlistprs base token role) rt)
      (ApiTool.request base token whoami_path no_config
       :: ApiTool.request base token (users_path username) no_config
       :: map (fun r => ApiTool.request base token (inbox_path r) no_config)
            (ApiTool.roles_of role))
    /\ hd_error (requests_of (ApiTool.bitbucketlistprs base token role) rt)
       = Some (ApiTool.request base token whoami_path no_config).
Proof.
  unfold requests_of, ApiTool.bitbucketlistprs. rewrite registerApiTool_run.
  match goal with
  | |- exists u, is_prefix (snd (match ?c with _ => _ end)) (@?plan u) /\ hd_error _ = ?h =>
      assert (G : exists u, is_prefix (snd c) (plan u) /\ hd_error (snd c) = h);
        [| destruct c as [[v | e] l]; exact G]
  end.
  unfold ApiTool.listprs_logic.
  rewrite bind_run, bitbucketGet_run. cbn [List.length app].
  rewrite bind_lift. destruct (ApiTool.getOrThrow _) as [username |].
  2:{ exists JUndefined. split; [eexists; reflexivity | reflexivity]. }
  exists username.
  rewrite bind_run, bitbucketGet_run. cbn [List.length app].
  assert (Stop : is_prefix
                   [ApiTool.request base token whoami_path no_config;
                    ApiTool.request base token (users_path username) no_config]
                   (ApiTool.request base token whoami_path no_config
                    :: ApiTool.request base token (users_path username) no_config
                    :: map (fun r => ApiTool.request base token (inbox_path r) no_config)
                         (ApiTool.roles_of role))
                 /\ hd_error [ApiTool.request base token whoami_path no_config;
                              ApiTool.request base token (users_path username) no_config]
                    = Some (ApiTool.request base token whoami_path no_config)).
  { split; [eexists; reflexivity | reflexivity]. }
  rewrite bind_lift. destruct (ApiTool.getOrThrow _); [| exact Stop].
  rewrite bind_lift. destruct (get_prop _ _); [| exact Stop].
  rewrite bind_lift. destruct (get_index _ _); [| exact Stop].
  rewrite bind_lift. destruct (get_prop_opt _ _) as [slug |]; [| exact Stop].
  destruct (negb (truthy slug)); [exact Stop |].
  rewrite bind_run.
  match goal with
  | |- context [ApiTool.collect ?b ?t ?rs ?acc ?r ?l] =>
      destruct (collect_done b t rs acc r l) as (done & rest & Hr & Hl);
        destruct (ApiTool.collect b t rs acc r l) as [[allPrs |] log3]
  end; cbn [snd] in Hl; subst log3.
  - rewrite bind_lift.
    assert (Fin : is_prefix
              ([ApiTool.request base token whoami_path no_config;
                ApiTool.request base token (users_path username) no_config]
               ++ map (fun r => ApiTool.request base token (inbox_path r) no_config) done)
              (ApiTool.request base token whoami_path no_config
               :: ApiTool.request base token (users_path username) no_config
               :: map (fun r => ApiTool.request base token (inbox_path r) no_config)
                    (ApiTool.roles_of role))
            /\ hd_error
                 ([ApiTool.request base token whoami_path no_config;
                   ApiTool.request base token (users_path username) no_config]
                  ++ map (fun r => ApiTool.request base token (inbox_path r) no_config) done)
               = Some (ApiTool.request base token whoami_path no_config)).
    { split; [| reflexivity].
      exists (map (fun r => ApiTool.request base token (inbox_path r) no_config) rest).
      rewrite Hr, map_app. reflexivity. }
    destruct (uniquePrs _); [| exact Fin].
    rewrite bind_lift. destruct (cmap _ _); exact Fin.
  - split; [| reflexivity].
    exists (map (fun r => ApiTool.request base token (inbox_path r) no_config) rest).
    rewrite Hr, map_app. reflexivity.
Qed.

Lemma server_find_user_shape tok username rt log :
  (snd (Server.find_user tok username rt log) = log
   /\ forall user, fst (Server.find_user tok username rt log) = Normal (inr user) ->
                   truthy user = false)
  \/ snd (Server.find_user tok username rt log)
     = (log ++ [Server.request tok (users_path username) None])%list.
Proof.
  unfold Server.find_user. destruct (truthy username).
  - right. rewrite bind_run, bitbucketApiRequest_run.
    destruct (to_result _).
    + rewrite bind_lift. destruct (get_prop _ _) as [values |]; [| reflexivity].
      destruct (truthy values); [| reflexivity].
      rewrite bind_lift. destruct (get_prop _ _) as [len |]; [| reflexivity].
      rewrite bind_run. unfold runtime at 1.
      destruct (gt_zero _ _); [| reflexivity].
      rewrite bind_lift. destruct (get_index _ _); reflexivity.
    + rewrite bind_lift. destruct (Server.formatToolResponse _); reflexivity.
  - left. split; [reflexivity |]. intros user H. inversion H. reflexivity.
Qed.

Lemma server_listprs_prefix tok role rt :
  exists username,
    is_prefix (requests_of (Server.bitbucketlistprs tok role) rt)
      (Server.request tok whoami_path None
       :: Server.request tok (users_path username) None
       :: map (fun r => Server.request tok (inbox_path r) None) (server_roles role))
    /\ hd_error (requests_of (Server.bitbucketlistprs tok role) rt)
       = Some (Server.request tok whoami_path None).
Proof.
  unfold requests_of, Server.bitbucketlistprs.
  rewrite bind_run, bitbucketApiRequest_run. cbn [List.length app].
  set (w := Server.request tok whoami_path None).
  set (mk := fun r => Server.request tok (inbox_path r) None).
  destruct (to_result _) as [username | st message].
  2:{ exists JUndefined. unfold lift. split; [eexists; reflexivity | reflexivity]. }
  exists username. set (u := Server.request tok (users_path username) None).
  assert (P1 : is_prefix [w] (w :: u :: map mk (server_roles role))
               /\ hd_error [w] = Some w)
    by (split; [eexists; reflexivity | reflexivity]).
  assert (P2 : is_prefix [w; u] (w :: u :: map mk (server_roles role))
               /\ hd_error [w; u] = Some w)
    by (split; [eexists; reflexivity | reflexivity]).
  rewrite bind_run.
  pose proof (server_find_user_shape tok username rt [w]) as Shape.
  destruct (Server.find_user tok username rt [w]) as [[[out | user] |] log2];
    cbn [fst snd] in Shape.
  - destruct Shape as [[-> _] | ->]; [exact P1 | exact P2].
  - rewrite bind_lift.
    destruct (truthy user) eqn:Tu.
    2:{ cbn [negb orb]. destruct Shape as [[-> _] | ->]; [exact P1 | exact P2]. }
    destruct Shape as [[_ Hf] | ->]; [rewrite (Hf user eq_refl) in Tu; discriminate |].
    destruct (get_prop user "slug") as [slug |]; [| exact P2].
    destruct (negb true || negb (truthy slug)); [exact P2 |].
    cbn [app]. fold w u.
    rewrite bind_run.
    assert (S1 : exists prs1,
               (if Server.is_author_or_all role then Server.inbox tok "AUTHOR" []
                else ret []) rt [w; u]
               = (prs1, ([w; u] ++ map mk (if Server.is_author_or_all role
                                           then ["AUTHOR"] else []))%list)).
    { destruct (Server.is_author_or_all role).
      - pose proof (server_inbox_log tok "AUTHOR" [] rt [w; u]) as L.
        destruct (Server.inbox tok "AUTHOR" [] rt [w; u]) as [r l]. cbn [snd] in L.
        subst l. eexists. reflexivity.
      - exists (Normal []). reflexivity. }
    destruct S1 as (prs1 & ->).
    assert (Q1 : is_prefix ([w; u] ++ map mk (if Server.is_author_or_all role
                                              then ["AUTHOR"] else []))%list
                   (w :: u :: map mk (server_roles role))
                 /\ hd_error ([w; u] ++ map mk (if Server.is_author_or_all role
                                                then ["AUTHOR"] else []))%list = Some w).
    { split; [| reflexivity].
      exists (map mk (if Server.is_reviewer_or_all role then ["REVIEWER"] else [])).
      unfold server_roles. rewrite map_app, <- app_assoc. reflexivity. }
    destruct prs1 as [prs1 |]; [| exact Q1].
    rewrite bind_run.
    assert (S2 : exists prs2,
               (if Server.is_reviewer_or_all role then Server.inbox tok "REVIEWER" prs1
                else ret prs1) rt
                 ([w; u] ++ map mk (if Server.is_author_or_all role then ["AUTHOR"] else []))%list
               = (prs2, (w :: u :: map mk (server_roles role)))).
    { unfold server_roles. rewrite map_app.
      destruct (Server.is_reviewer_or_all role).
      - match goal with
        | |- exists _, Server.inbox ?t ?r ?p ?rt0 ?l = _ =>
            pose proof (server_inbox_log t r p rt0 l) as L;
              destruct (Server.inbox t r p rt0 l) as [res l']
        end.
        cbn [snd] in L. subst l'. exists res. rewrite <- app_assoc. reflexivity.
      - exists (Normal prs1). cbn [map]. rewrite app_nil_r. reflexivity. }
    destruct S2 as (prs2 & ->).
    assert (Q2 : is_prefix (w :: u :: map mk (server_roles role))
                   (w :: u :: map mk (server_roles role))
                 /\ hd_error (w :: u :: map mk (server_roles role)) = Some w).
    { split; [exists []; rewrite app_nil_r; reflexivity | reflexivity]. }
    destruct prs2 as [prs2 |]; [| exact Q2].
    rewrite bind_lift. destruct (uniquePrs _); [| exact Q2].
    rewrite bind_lift. destruct (cmap _ _); [| exact Q2].
    unfold lift. exact Q2.
  - destruct Shape as [[-> _] | ->]; [exact P1 | exact P2].
Qed.

(** X7. The list operation issues its requests in a fixed order and stops
    early only by leaving out a tail: the identity lookup always comes first,
    then the user search, then one inbox query per role of the filter, AUTHOR
    before REVIEWER.  It therefore never issues more than four requests, and
    never more than three when the role is not [all]. *)
Theorem list_requests_follow_the_plan base token tok role rt :
  (exists username,
      is_prefix (requests_of (ApiTool.bitbucketlistprs base token role) rt)
        (ApiTool.request base token whoami_path no_config
         :: ApiTool.request base token (users_path username) no_config
         :: map (fun r => ApiTool.request base token (inbox_path r) no_config)
              (match role with
               | all => ["AUTHOR"; "REVIEWER"]
               | author => ["AUTHOR"]
               | reviewer => ["REVIEWER"]
               end)))
  /\ (exists username,
        is_prefix (requests_of (Server.bitbucketlistprs tok role) rt)
          (Server.request tok whoami_path None
           :: Server.request tok (users_path username) None
           :: map (fun r => Server.request tok (inbox_path r) None)
                (match role with
                 | all => ["AUTHOR"; "REVIEWER"]
                 | author => ["AUTHOR"]
                 | reviewer => ["REVIEWER"]
                 end)))
  /\ hd_error (requests_of (ApiTool.bitbucketlistprs base token role) rt)
     = Some (ApiTool.request base token whoami_path no_config)
  /\ hd_error (requests_of (Server.bitbucketlistprs tok role) rt)
     = Some (Server.request tok whoami_path None)
  /\ (List.length (requests_of (ApiTool.bitbucketlistprs base token role) rt)
      <= (if match role with all => true | _ => false end then 4 else 3))%nat
  /\ (List.length (requests_of (Server.bitbucketlistprs tok role) rt)
      <= (if match role with all => true | _ => false end then 4 else 3))%nat.
Proof.
  destruct (apitool_listprs_prefix base token role rt) as (ua & Pa & Ha).
  destruct (server_listprs_prefix tok role rt) as (us & Ps & Hs).
  assert (Ra : ApiTool.roles_of role = match role with
                                       | all => ["AUTHOR"; "REVIEWER"]
                                       | author => ["AUTHOR"]
                                       | reviewer => ["REVIEWER"]
                                       end) by (destruct role; reflexivity).
  assert (Rs : server_roles role = match role with
                                   | all => ["AUTHOR"; "REVIEWER"]
                                   | author => ["AUTHOR"]
                                   | reviewer => ["REVIEWER"]
                                   end) by (destruct role; reflexivity).
  rewrite Ra in Pa. rewrite Rs in Ps.
  split; [exists ua; exact Pa |].
  split; [exists us; exact Ps |].
  split; [exact Ha |]. split; [exact Hs |].
  apply is_prefix_length in Pa. apply is_prefix_length in Ps.
  split; destruct role; cbn in Pa, Ps |- *; lia.
Qed.

(** ** Deduplication: null items and repetition *)

Lemma get_prop_nullish x k : nullish x = true -> get_prop x k = Throw (cannot_read x k).
Proof. destruct x; intros H; try discriminate H; reflexivity. Qed.

Lemma keep_normal done x post :
  Forall (fun p => nullish p = false) done -> nullish x = false ->
  exists k, findIndex (same_id (List.length done) x) (done ++ x :: post) = Normal k.
Proof.
  intros Hd Hx. unfold findIndex.
  destruct (existsb (has_id (id_of x)) done) eqn:E.
  - destruct (findIndex_earlier done 0 x post Hd Hx E) as (k & Hk & _).
    exists (Z.of_nat k). exact Hk.
  - eexists. exact (findIndex_first done 0 x post Hd Hx E).
Qed.

Lemma keep_throws done x post :
  Forall (fun p => nullish p = false) done -> nullish x = true ->
  findIndex (same_id (List.length done) x) (done ++ x :: post)
  = Throw (cannot_read x "id").
Proof.
  intros Hd Hx. unfold findIndex.
  destruct done as [| p done]; cbn [app findIndex_from]; unfold same_id.
  - rewrite (get_prop_nullish x "id" Hx). reflexivity.
  - inversion Hd as [| ? ? Hp _]; subst.
    rewrite (get_prop_id p Hp), (get_prop_nullish x "id" Hx). reflexivity.
Qed.

Lemma filter_throws mid : forall done x post,
  Forall (fun p => nullish p = false) (done ++ mid) -> nullish x = true ->
  filter_from
    (fun i pr => let* k := findIndex (same_id i pr) (done ++ mid ++ x :: post) in
                 Normal (k =? Z.of_nat i))
    (List.length done) (mid ++ x :: post)
  = Throw (cannot_read x "id").
Proof.
  induction mid as [| m mid IH]; intros done x post Hall Hx; cbn [app filter_from].
  - rewrite app_nil_r in Hall. rewrite (keep_throws done x post Hall Hx). reflexivity.
  - pose proof Hall as Hall'. apply Forall_app in Hall'. destruct Hall' as [Hd Hm].
    inversion Hm as [| ? ? Hm0 _]; subst.
    destruct (keep_normal done m (mid ++ x :: post) Hd Hm0) as [k Hk].
    rewrite Hk. cbn [cbind].
    replace (done ++ m :: mid ++ x :: post)%list
      with ((done ++ [m]) ++ mid ++ x :: post)%list
      by (rewrite <- app_assoc; reflexivity).
    replace (S (List.length done)) with (List.length (done ++ [m])%list)
      by (rewrite length_app; cbn; lia).
    rewrite IH; [reflexivity | | exact Hx].
    rewrite <- app_assoc. exact Hall.
Qed.

Lemma first_nullish (l : list JValue) :
  Forall (fun p => nullish p = false) l
  \/ exists pre x post,
       l = (pre ++ x :: post)%list
       /\ Forall (fun p => nullish p = false) pre /\ nullish x = true.
Proof.
  induction l as [| y l IH]; [left; constructor |].
  destruct (nullish y) eqn:Hy.
  - right. exists [], y, l. repeat split; [constructor | exact Hy].
  - destruct IH as [IH | (pre & x & post & -> & Hp & Hx)].
    + left. constructor; assumption.
    + right. exists (y :: pre), x, post. repeat split; [constructor; assumption | exact Hx].
Qed.

Lemma uniquePrs_throws_at pre x post :
  Forall (fun p => nullish p = false) pre -> nullish x = true ->
  uniquePrs (pre ++ x :: post) = Throw (cannot_read x "id").
Proof. intros Hp Hx. exact (filter_throws pre [] x post Hp Hx). Qed.

Lemma uniquePrs_completes prs kept :
  uniquePrs prs = Normal kept -> Forall (fun p => nullish p = false) prs.
Proof.
  intros H. destruct (first_nullish prs) as [F | (pre & x & post & -> & Hp & Hx)].
  - exact F.
  - rewrite (uniquePrs_throws_at pre x post Hp Hx) in H. discriminate H.
Qed.

(** X8. Deduplication reads [id] off every item, so it fails on an inbox
    list that holds a null (or undefined) entry: the result is the
    [TypeError] of reading [id] from the first such entry, and nothing is
    kept.  It completes exactly when no entry is null. *)
Theorem deduplication_fails_on_null_items prs :
  (forall pre x post,
      prs = (pre ++ x :: post)%list ->
      Forall (fun p => nullish p = false) pre -> nullish x = true ->
      uniquePrs prs
      = Throw (TypeError ("Cannot read properties of " ++ describe_nullish x
                          ++ " (reading 'id')")))
  /\ ((exists kept, uniquePrs prs = Normal kept)
      <-> Forall (fun p => nullish p = false) prs).
Proof.
  assert (T : forall pre x post,
             prs = (pre ++ x :: post)%list ->
             Forall (fun p => nullish p = false) pre -> nullish x = true ->
             uniquePrs prs = Throw (cannot_read x "id")).
  { intros pre x post -> Hp Hx.
    exact (filter_throws pre [] x post Hp Hx). }
  split; [exact T |]. split.
  - intros [kept H]. destruct (first_nullish prs) as [F | (pre & x & post & E & Hp & Hx)].
    + exact F.
    + rewrite (T pre x post E Hp Hx) in H. discriminate H.
  - intros F. eexists. apply uniquePrs_first_seen. exact F.
Qed.

Lemma deduplication_fails_on_null_items_witness :
  uniquePrs [sample_pr 1 "Fix"; JNull; sample_pr 2 "Add"]
  = Throw (TypeError "Cannot read properties of null (reading 'id')").
Proof.
  destruct (deduplication_fails_on_null_items [sample_pr 1 "Fix"; JNull; sample_pr 2 "Add"])
    as [T _].
  apply (T [sample_pr 1 "Fix"] JNull [sample_pr 2 "Add"]).
  - reflexivity.
  - repeat constructor.
  - reflexivity.
Defined.

Lemma subsequence_Forall {A} (P : A -> Prop) (l r : list A) :
  subsequence l r -> Forall P r -> Forall P l.
Proof.
  induction 1 as [| x l r _ IH | x l r _ IH]; intros F.
  - constructor.
  - inversion F; subst. apply IH. assumption.
  - inversion F; subst. constructor; [assumption | apply IH; assumption].
Qed.

Lemma existsb_subset {A} (f : A -> bool) (small big : list A) :
  (forall p, In p small -> In p big) -> existsb f big = false -> existsb f small = false.
Proof.
  intros Sub Hb. destruct (existsb f small) eqn:E; [| reflexivity].
  apply existsb_exists in E. destruct E as (p & Hin & Hp).
  assert (B : existsb f big = true) by (apply existsb_exists; exists p; split; auto).
  congruence.
Qed.

Lemma first_seen_again prs : forall seen seen',
  (forall p, In p seen' -> In p seen) ->
  first_seen seen' (first_seen seen prs) = first_seen seen prs.
Proof.
  induction prs as [| x prs IH]; intros seen seen' Sub; cbn [first_seen]; [reflexivity |].
  destruct (existsb (has_id (id_of x)) seen) eqn:E.
  - apply IH. intros p Hin. apply in_or_app. left. apply Sub. exact Hin.
  - cbn [first_seen]. rewrite (existsb_subset _ seen' seen Sub E). f_equal.
    apply IH. intros p Hin. apply in_app_or in Hin. apply in_or_app.
    destruct Hin as [Hin | Hin]; [left; apply Sub; exact Hin | right; exact Hin].
Qed.

(** X9. Deduplicating an already deduplicated list changes nothing: on a
    list without null entries, applying [uniquePrs] to its own result
    returns that result. *)
Theorem deduplication_is_idempotent prs :
  Forall (fun p => nullish p = false) prs ->
  exists kept,
    uniquePrs prs = Normal kept /\ uniquePrs kept = Normal kept.
Proof.
  intros F. exists (first_seen [] prs). split; [apply uniquePrs_first_seen; exact F |].
  rewrite uniquePrs_first_seen.
  - rewrite first_seen_again; [reflexivity | intros p Hin; exact Hin].
  - apply (subsequence_Forall _ _ prs); [apply first_seen_subsequence | exact F].
Qed.

Lemma deduplication_is_idempotent_witness :
  exists kept,
    uniquePrs [sample_pr 42 "A"; sample_pr 1 "B"; sample_pr 42 "C"] = Normal kept
    /\ uniquePrs kept = Normal kept.
Proof.
  apply (deduplication_is_idempotent [sample_pr 42 "A"; sample_pr 1 "B"; sample_pr 42 "C"]).
  repeat constructor.
Defined.

(** ** When the projection succeeds *)

Lemma get_prop_prop_of x k : nullish x = false -> get_prop x k = Normal (prop_of x k).
Proof. unfold prop_of. destruct x; intros H; try discriminate H; reflexivity. Qed.

Lemma get_prop_opt_value x k :
  get_prop_opt x k = Normal (if nullish x then JUndefined else prop_of x k).
Proof.
  unfold get_prop_opt. destruct (nullish x) eqn:N; [reflexivity |].
  apply get_prop_prop_of. exact N.
Qed.

Lemma reviewer_name_value r : nullish r = false -> reviewer_name r = Normal (display_name r).
Proof.
  intros N. unfold reviewer_name, display_name.
  rewrite (get_prop_prop_of r "user" N). cbn [cbind]. apply get_prop_opt_value.
Qed.

Lemma cmap_reviewer_names items :
  forallb (fun r => negb (nullish r)) items = true ->
  cmap reviewer_name items = Normal (map display_name items).
Proof.
  induction items as [| r items IH]; cbn [forallb cmap map]; intros H; [reflexivity |].
  apply andb_true_iff in H. destruct H as [Hr Hi].
  apply negb_true_iff in Hr.
  rewrite (reviewer_name_value r Hr), (IH Hi). reflexivity.
Qed.

Lemma cmap_reviewer_names_throw items :
  forallb (fun r => negb (nullish r)) items = false ->
  exists msg, cmap reviewer_name items = Throw (TypeError msg).
Proof.
  induction items as [| r items IH]; cbn [forallb cmap]; intros H; [discriminate H |].
  destruct (nullish r) eqn:Hr.
  - unfold reviewer_name. rewrite (get_prop_nullish r "user" Hr). eexists. reflexivity.
  - cbn [negb andb] in H. rewrite (reviewer_name_value r Hr). cbn [cbind].
    destruct (IH H) as [msg ->]. exists msg. reflexivity.
Qed.

Lemma reviewer_names_cases expr x :
  nullish x = false ->
  (forall items,
      prop_of x "reviewers" = JArr items ->
      forallb (fun r => negb (nullish r)) items = true ->
      reviewer_names expr x = Normal (JArr (map display_name items)))
  /\ (nullish (prop_of x "reviewers") = true -> reviewer_names expr x = Normal JUndefined)
  /\ (readable_reviewers x = false ->
      exists msg, reviewer_names expr x = Throw (TypeError msg))
  /\ (readable_reviewers x = true -> exists names, reviewer_names expr x = Normal names).
Proof.
  intros N. unfold reviewer_names, readable_reviewers.
  rewrite (get_prop_prop_of x "reviewers" N). cbn [cbind].
  split; [| split; [| split]].
  - intros items -> H. cbn [nullish call_map]. rewrite (cmap_reviewer_names items H).
    reflexivity.
  - intros ->. reflexivity.
  - destruct (prop_of x "reviewers"); cbn [nullish call_map]; intros H;
      try discriminate H; try (eexists; reflexivity).
    destruct (cmap_reviewer_names_throw items H) as [msg ->]. exists msg. reflexivity.
  - destruct (prop_of x "reviewers"); cbn [nullish call_map]; intros H;
      try discriminate H; try (eexists; reflexivity).
    rewrite (cmap_reviewer_names items H). eexists. reflexivity.
Qed.

(** X10. The reviewers of an item are projected to their display names, one
    per upstream reviewer and in the same order, a reviewer without [user] or
    without a display name giving [undefined].  A missing or null [reviewers]
    gives [undefined]; a [reviewers] that is not an array, or an array with a
    null entry, makes the projection throw a [TypeError]. *)
Theorem reviewers_are_projected_in_order expr x :
  nullish x = false ->
  (forall items,
      prop_of x "reviewers" = JArr items ->
      forallb (fun r => negb (nullish r)) items = true ->
      reviewer_names expr x = Normal (JArr (map display_name items)))
  /\ (nullish (prop_of x "reviewers") = true -> reviewer_names expr x = Normal JUndefined)
  /\ (readable_reviewers x = false ->
      exists msg, reviewer_names expr x = Throw (TypeError msg))
  /\ (readable_reviewers x = true -> exists names, reviewer_names expr x = Normal names).
Proof.
  intros N. unfold reviewer_names, readable_reviewers.
  rewrite (get_prop_prop_of x "reviewers" N). cbn [cbind].
  split; [| split; [| split]].
  - intros items -> H. cbn [nullish call_map]. rewrite (cmap_reviewer_names items H).
    reflexivity.
  - intros ->. reflexivity.
  - destruct (prop_of x "reviewers"); cbn [nullish call_map]; intros H;
      try discriminate H; try (eexists; reflexivity).
    destruct (cmap_reviewer_names_throw items H) as [msg ->]. exists msg. reflexivity.
  - destruct (prop_of x "reviewers"); cbn [nullish call_map]; intros H;
      try discriminate H; try (eexists; reflexivity).
    rewrite (cmap_reviewer_names items H). eexists. reflexivity.
Qed.

Lemma reviewers_are_projected_in_order_witness :
  reviewer_names "pr"
    (JObj [("reviewers",
            JArr [JObj [("user", JObj [("displayName", JStr "Ann")])];
                  JObj [("approved", JBool true)];
                  JObj [("user", JObj [("displayName", JStr "Bob")])]])])
  = Normal (JArr [JStr "Ann"; JUndefined; JStr "Bob"]).
Proof.
  destruct (reviewers_are_projected_in_order "pr"
              (JObj [("reviewers",
                      JArr [JObj [("user", JObj [("displayName", JStr "Ann")])];
                            JObj [("approved", JBool true)];
                            JObj [("user", JObj [("displayName", JStr "Bob")])]])])
              eq_refl) as (A & _).
  exact (A _ eq_refl eq_refl).
Defined.

Lemma project_pr_cases pr :
  (projectable pr = true ->
   exists fields,
     project_pr pr = Normal (JObj fields)
     /\ map fst fields = ["id"; "title"; "author"; "reviewers"; "state"; "repository";
                          "projectKey"; "repositorySlug"]
     /\ lookup "id" fields = prop_of pr "id"
     /\ lookup "title" fields = prop_of pr "title"
     /\ lookup "state" fields = prop_of pr "state"
     /\ lookup "projectKey" fields
        = prop_of (prop_of (prop_of (prop_of pr "fromRef") "repository") "project") "key"
     /\ lookup "repositorySlug" fields
        = prop_of (prop_of (prop_of pr "fromRef") "repository") "slug")
  /\ (projectable pr = false -> exists msg, project_pr pr = Throw (TypeError msg))
  /\ ((exists v, project_pr pr = Normal v) <-> projectable pr = true).
Proof.
  assert (Yes : projectable pr = true ->
     exists fields,
       project_pr pr = Normal (JObj fields)
       /\ map fst fields = ["id"; "title"; "author"; "reviewers"; "state"; "repository";
                            "projectKey"; "repositorySlug"]
       /\ lookup "id" fields = prop_of pr "id"
       /\ lookup "title" fields = prop_of pr "title"
       /\ lookup "state" fields = prop_of pr "state"
       /\ lookup "projectKey" fields
          = prop_of (prop_of (prop_of (prop_of pr "fromRef") "repository") "project") "key"
       /\ lookup "repositorySlug" fields
          = prop_of (prop_of (prop_of pr "fromRef") "repository") "slug").
  { unfold projectable. intros H.
    repeat (apply andb_true_iff in H; destruct H as [H ?]).
    repeat match goal with
           | X : negb _ = true |- _ => apply negb_true_iff in X
           end.
    unfold project_pr.
    rewrite !(get_prop_prop_of pr _ H). cbn [cbind].
    destruct (author_name_total pr H) as [au ->]. cbn [cbind].
    destruct (reviewer_names_cases "pr" pr H) as (_ & _ & _ & R).
    match goal with X : readable_reviewers pr = true |- _ => destruct (R X) as [names ->] end.
    cbn [cbind]. repeat (rewrite get_prop_opt_value; cbn [cbind]).
    repeat match goal with
           | X : nullish ?y = false |- context [get_prop ?y ?k] =>
               rewrite (get_prop_prop_of y k X); cbn [cbind]
           end.
    eexists. split; [reflexivity |]. repeat split; reflexivity. }
  assert (No : projectable pr = false -> exists msg, project_pr pr = Throw (TypeError msg)).
  { unfold projectable, project_pr. intros H.
    destruct (nullish pr) eqn:N.
    { rewrite (get_prop_nullish pr "id" N). eexists. reflexivity. }
    rewrite !(get_prop_prop_of pr _ N). cbn [cbind].
    destruct (author_name_total pr N) as [au ->]. cbn [cbind].
    destruct (reviewer_names_cases "pr" pr N) as (_ & _ & RN & RY).
    destruct (readable_reviewers pr) eqn:R.
    2:{ destruct (RN eq_refl) as [msg ->]. exists msg. reflexivity. }
    destruct (RY eq_refl) as [names ->]. cbn [cbind negb andb] in H |- *.
    repeat (rewrite get_prop_opt_value; cbn [cbind]).
    destruct (nullish (prop_of pr "fromRef")) eqn:F.
    { rewrite (get_prop_nullish _ "repository" F). eexists. reflexivity. }
    rewrite (get_prop_prop_of _ "repository" F). cbn [cbind negb andb] in H |- *.
    destruct (nullish (prop_of (prop_of pr "fromRef") "repository")) eqn:Rp.
    { rewrite (get_prop_nullish _ "project" Rp). eexists. reflexivity. }
    rewrite (get_prop_prop_of _ "project" Rp). cbn [cbind negb andb] in H |- *.
    apply negb_false_iff in H.
    rewrite (get_prop_nullish _ "key" H). eexists. reflexivity. }
  split; [exact Yes |]. split; [exact No |]. split.
  - intros [v Hv]. destruct (projectable pr) eqn:P; [reflexivity |].
    destruct (No eq_refl) as [msg Hm]. rewrite Hm in Hv. discriminate Hv.
  - intros P. destruct (Yes P) as (fields & Hf & _). eexists. exact Hf.
Qed.

(** X11. The projection of the list operation succeeds exactly on the items
    that are objects, have readable reviewers, and carry [fromRef], its
    [repository] and the [project] of that repository; it then has the eight
    fields in their fixed order, with the id, project key and repository slug
    of the item.  On every other item it throws a [TypeError]. *)
Theorem projection_succeeds_iff pr :
  (projectable pr = true ->
   exists fields,
     project_pr pr = Normal (JObj fields)
     /\ map fst fields = ["id"; "title"; "author"; "reviewers"; "state"; "repository";
                          "projectKey"; "repositorySlug"]
     /\ lookup "id" fields = prop_of pr "id"
     /\ lookup "title" fields = prop_of pr "title"
     /\ lookup "state" fields = prop_of pr "state"
     /\ lookup "projectKey" fields
        = prop_of (prop_of (prop_of (prop_of pr "fromRef") "repository") "project") "key"
     /\ lookup "repositorySlug" fields
        = prop_of (prop_of (prop_of pr "fromRef") "repository") "slug")
  /\ (projectable pr = false -> exists msg, project_pr pr = Throw (TypeError msg))
  /\ ((exists v, project_pr pr = Normal v) <-> projectable pr = true).
Proof.
  assert (Yes : projectable pr = true ->
     exists fields,
       project_pr pr = Normal (JObj fields)
       /\ map fst fields = ["id"; "title"; "author"; "reviewers"; "state"; "repository";
                            "projectKey"; "repositorySlug"]
       /\ lookup "id" fields = prop_of pr "id"
       /\ lookup "title" fields = prop_of pr "title"
       /\ lookup "state" fields = prop_of pr "state"
       /\ lookup "projectKey" fields
          = prop_of (prop_of (prop_of (prop_of pr "fromRef") "repository") "project") "key"
       /\ lookup "repositorySlug" fields
          = prop_of (prop_of (prop_of pr "fromRef") "repository") "slug").
  { unfold projectable. intros H.
    repeat (apply andb_true_iff in H; destruct H as [H ?]).
    repeat match goal with
           | X : negb _ = true |- _ => apply negb_true_iff in X
           end.
    unfold project_pr.
    rewrite !(get_prop_prop_of pr _ H). cbn [cbind].
    destruct (author_name_total pr H) as [au ->]. cbn [cbind].
    destruct (reviewer_names_cases "pr" pr H) as (_ & _ & _ & R).
    match goal with X : readable_reviewers pr = true |- _ => destruct (R X) as [names ->] end.
    cbn [cbind]. repeat (rewrite get_prop_opt_value; cbn [cbind]).
    repeat match goal with
           | X : nullish ?y = false |- context [get_prop ?y ?k] =>
               rewrite (get_prop_prop_of y k X); cbn [cbind]
           end.
    eexists. split; [reflexivity |]. repeat split; reflexivity. }
  assert (No : projectable pr = false -> exists msg, project_pr pr = Throw (TypeError msg)).
  { unfold projectable, project_pr. intros H.
    destruct (nullish pr) eqn:N.
    { rewrite (get_prop_nullish pr "id" N). eexists. reflexivity. }
    rewrite !(get_prop_prop_of pr _ N). cbn [cbind].
    destruct (author_name_total pr N) as [au ->]. cbn [cbind].
    destruct (reviewer_names_cases "pr" pr N) as (_ & _ & RN & RY).
    destruct (readable_reviewers pr) eqn:R.
    2:{ destruct (RN eq_refl) as [msg ->]. exists msg. reflexivity. }
    destruct (RY eq_refl) as [names ->]. cbn [cbind negb andb] in H |- *.
    repeat (rewrite get_prop_opt_value; cbn [cbind]).
    destruct (nullish (prop_of pr "fromRef")) eqn:F.
    { rewrite (get_prop_nullish _ "repository" F). eexists. reflexivity. }
    rewrite (get_prop_prop_of _ "repository" F). cbn [cbind negb andb] in H |- *.
    destruct (nullish (prop_of (prop_of pr "fromRef") "repository")) eqn:Rp.
    { rewrite (get_prop_nullish _ "project" Rp). eexists. reflexivity. }
    rewrite (get_prop_prop_of _ "project" Rp). cbn [cbind negb andb] in H |- *.
    apply negb_false_iff in H.
    rewrite (get_prop_nullish _ "key" H). eexists. reflexivity. }
  split; [exact Yes |]. split; [exact No |]. split.
  - intros [v Hv]. destruct (projectable pr) eqn:P; [reflexivity |].
    destruct (No eq_refl) as [msg Hm]. rewrite Hm in Hv. discriminate Hv.
  - intros P. destruct (Yes P) as (fields & Hf & _). eexists. exact Hf.
Qed.

Lemma projection_succeeds_iff_witness :
  exists fields,
    project_pr (sample_pr 7 "Add") = Normal (JObj fields)
    /\ lookup "projectKey" fields = JStr "PRJ"
    /\ lookup "repositorySlug" fields = JStr "repo".
Proof.
  destruct (projection_succeeds_iff (sample_pr 7 "Add")) as (Yes & _).
  destruct (Yes eq_refl) as (fields & H & _ & _ & _ & _ & K & S).
  exists fields. split; [exact H |]. split; [exact K | exact S].
Defined.

(** ** The listing is all or nothing *)

Lemma cmap_normal_iff {A B} (f : A -> Completion B) l :
  (exists l', cmap f l = Normal l') <-> Forall (fun x => exists y, f x = Normal y) l.
Proof.
  induction l as [| x l IH]; cbn [cmap].
  - split; [constructor | eexists; reflexivity].
  - split.
    + intros [l' H]. destruct (f x) as [y |] eqn:Hx; [| discriminate H]. cbn [cbind] in H.
      destruct (cmap f l) as [ys |]; [| discriminate H].
      constructor; [exists y; exact Hx | apply IH; eexists; reflexivity].
    + intros F. inversion F as [| ? ? [y Hy] F']; subst.
      rewrite Hy. cbn [cbind]. apply IH in F'. destruct F' as [ys ->].
      eexists. reflexivity.
Qed.

Lemma cmap_length {A B} (f : A -> Completion B) l : forall l',
  cmap f l = Normal l' -> List.length l' = List.length l.
Proof.
  induction l as [| x l IH]; cbn [cmap]; intros l' H.
  - inversion H. reflexivity.
  - destruct (f x) as [y |]; [| discriminate H]. cbn [cbind] in H.
    destruct (cmap f l) as [ys |]; [| discriminate H]. cbn [cbind] in H.
    inversion H. cbn [List.length]. f_equal. apply IH. reflexivity.
Qed.

Lemma cmap_throw_type_error (f : JValue -> Completion JValue) l :
  (forall x, In x l -> (exists y, f x = Normal y) \/ (exists msg, f x = Throw (TypeError msg))) ->
  (exists x, In x l /\ exists msg, f x = Throw (TypeError msg)) ->
  exists msg, cmap f l = Throw (TypeError msg).
Proof.
  induction l as [| x l IH]; intros Hall [z [Hin Hz]]; [destruct Hin |].
  cbn [cmap]. destruct (Hall x (or_introl eq_refl)) as [[y Hy] | [msg Hm]].
  - rewrite Hy. cbn [cbind].
    destruct Hin as [-> | Hin].
    + destruct Hz as [msg Hm]. rewrite Hm in Hy. discriminate Hy.
    + destruct (IH (fun x' H' => Hall x' (or_intror H')) (ex_intro _ z (conj Hin Hz)))
        as [msg ->].
      exists msg. reflexivity.
  - rewrite Hm. exists msg. reflexivity.
Qed.




(** X12. The list pipeline (deduplicate, then project) returns either a
    projection of every deduplicated item or no list at all: it completes
    exactly when no collected item is null and every item that survives
    deduplication can be projected, and then returns one projection per
    surviving item; a single surviving item that cannot be projected turns
    the whole result into a [TypeError]. *)
Theorem listing_is_all_or_nothing prs :
  ((exists v, listing prs = Normal v)
   <-> Forall (fun p => nullish p = false) prs
       /\ Forall (fun p => projectable p = true) (first_seen [] prs))
  /\ (forall v, listing prs = Normal v ->
        exists projected,
          v = JArr projected
          /\ cmap project_pr (first_seen [] prs) = Normal projected
          /\ List.length projected = List.length (first_seen [] prs))
  /\ (forall x,
        Forall (fun p => nullish p = false) prs ->
        In x (first_seen [] prs) -> projectable x = false ->
        exists msg, listing prs = Throw (TypeError msg)).
Proof.
  assert (P : forall x, (exists y, project_pr x = Normal y) <-> projectable x = true).
  { intros x. apply project_pr_cases. }
  split; [| split].
  - split.
    + intros [v H]. unfold listing in H.
      destruct (uniquePrs prs) as [kept |] eqn:U; [| discriminate H]. cbn [cbind] in H.
      assert (F : Forall (fun p => nullish p = false) prs).
      { exact (uniquePrs_completes prs kept U). }
      split; [exact F |].
      rewrite (uniquePrs_first_seen prs F) in U. inversion U; subst kept.
      destruct (cmap project_pr (first_seen [] prs)) as [projected |] eqn:C;
        [| discriminate H].
      assert (G : exists l', cmap project_pr (first_seen [] prs) = Normal l')
        by (eexists; exact C).
      apply cmap_normal_iff in G. eapply Forall_impl; [| exact G].
      intros x Hx. apply P. exact Hx.
    + intros [F G]. unfold listing. rewrite (uniquePrs_first_seen prs F). cbn [cbind].
      assert (G' : Forall (fun x => exists y, project_pr x = Normal y) (first_seen [] prs)).
      { eapply Forall_impl; [| exact G]. intros x Hx. apply P. exact Hx. }
      apply cmap_normal_iff in G'. destruct G' as [projected ->].
      eexists. reflexivity.
  - intros v H. unfold listing in H.
    destruct (uniquePrs prs) as [kept |] eqn:U; [| discriminate H]. cbn [cbind] in H.
    assert (F : Forall (fun p => nullish p = false) prs).
    { exact (uniquePrs_completes prs kept U). }
    rewrite (uniquePrs_first_seen prs F) in U. inversion U; subst kept.
    destruct (cmap project_pr (first_seen [] prs)) as [projected |] eqn:C;
      [| discriminate H].
    cbn [cbind] in H. inversion H. exists projected.
    split; [reflexivity |]. split; [reflexivity |].
    apply (cmap_length project_pr). exact C.
  - intros x F Hin Hx. unfold listing. rewrite (uniquePrs_first_seen prs F). cbn [cbind].
    destruct (cmap_throw_type_error project_pr (first_seen [] prs)) as [msg ->].
    + intros y _. destruct (projectable y) eqn:Py.
      * left. apply P. exact Py.
      * right. apply project_pr_cases. exact Py.
    + exists x. split; [exact Hin |]. apply project_pr_cases. exact Hx.
    + exists msg. reflexivity.
Qed.

Lemma listing_is_all_or_nothing_witness :
  exists msg, listing [sample_pr 1 "Fix"; bare_pr 2 "Add"; sample_pr 3 "Tidy"]
              = Throw (TypeError msg).
Proof.
  destruct (listing_is_all_or_nothing [sample_pr 1 "Fix"; bare_pr 2 "Add"; sample_pr 3 "Tidy"])
    as (_ & _ & T).
  apply (T (bare_pr 2 "Add")).
  - repeat constructor.
  - right. left. reflexivity.
  - reflexivity.
Defined.

(** ** The dates of the get-info operation *)

Lemma author_name_value x : nullish x = false -> author_name x = Normal (author_of x).
Proof.
  intros N. unfold author_name, author_of.
  rewrite (get_prop_prop_of x "author" N). cbn [cbind].
  rewrite get_prop_opt_value. cbn [cbind].
  rewrite get_prop_opt_value.
  destruct (nullish (prop_of x "author")); reflexivity.
Qed.

Lemma project_info_fields parse expr d c u names :
  nullish d = false ->
  get_prop d "createdDate" = Normal (JNum c) -> Z.abs c <= 8640000000000000 ->
  get_prop d "updatedDate" = Normal (JNum u) -> Z.abs u <= 8640000000000000 ->
  reads_reviewers d names ->
  project_info parse expr d
  = Normal (JObj [("id", prop_of d "id"); ("title", prop_of d "title");
                  ("description", prop_of d "description");
                  ("author", author_of d); ("reviewers", names);
                  ("state", prop_of d "state");
                  ("created_on", JStr (iso_string c));
                  ("updated_on", JStr (iso_string u))]).
Proof.
  intros N Hc Rc Hu Ru Hr. unfold project_info.
  rewrite (get_prop_prop_of d "id" N). cbn [cbind].
  rewrite (get_prop_prop_of d "title" N). cbn [cbind].
  rewrite (get_prop_prop_of d "description" N). cbn [cbind].
  rewrite (author_name_value d N). cbn [cbind].
  rewrite (Hr expr). cbn [cbind].
  rewrite (get_prop_prop_of d "state" N). cbn [cbind].
  rewrite Hc. cbn [cbind]. rewrite (toISOString_number parse c Rc). cbn [cbind].
  rewrite Hu. cbn [cbind]. rewrite (toISOString_number parse u Ru). reflexivity.
Qed.

(** C8, as the code has it.  The time 1700000000000 is rendered as
    [2023-11-14T22:13:20.000Z].  For a pull-request object whose
    [createdDate] and [updatedDate] are both numbers within the range of
    [Date] and whose reviewers can be read, the get-info tool of both
    variants returns the one text block holding the pretty-printed
    projection, whose [created_on] and [updated_on] are the ISO-8601
    renderings of the two times. *)
Theorem dates_rendered_as_iso d c u names :
  nullish d = false ->
  get_prop d "createdDate" = Normal (JNum c) -> Z.abs c <= 8640000000000000 ->
  get_prop d "updatedDate" = Normal (JNum u) -> Z.abs u <= 8640000000000000 ->
  reads_reviewers d names ->
  iso_string 1700000000000 = "2023-11-14T22:13:20.000Z"
  /\ (forall base token a rt,
        answers rt 0 (ApiTool.request base token
                        (pr_path (ApiTool.projectKey a) (ApiTool.repositorySlug a)
                                 (ApiTool.prId a)) no_config) d ->
        result_of (ApiTool.bitbucketgetpr base token a) rt
        = Normal {| content := [ {| block_type := "text";
            text := JSON_stringify
                      (JObj [("id", prop_of d "id"); ("title", prop_of d "title");
                             ("description", prop_of d "description");
                             ("author", author_of d); ("reviewers", names);
                             ("state", prop_of d "state");
                             ("created_on", JStr (iso_string c));
                             ("updated_on", JStr (iso_string u))]) |} ] |})
  /\ (forall tok a rt,
        answers rt 0 (Server.request tok
                        (pr_path (Server.projectKey a) (Server.repositorySlug a)
                                 (Server.prId a)) None) d ->
        result_of (Server.bitbucketgetpr tok a) rt
        = Normal {| content := [ {| block_type := "text";
            text := JSON_stringify
                      (JObj [("id", prop_of d "id"); ("title", prop_of d "title");
                             ("description", prop_of d "description");
                             ("author", author_of d); ("reviewers", names);
                             ("state", prop_of d "state");
                             ("created_on", JStr (iso_string c));
                             ("updated_on", JStr (iso_string u))]) |} ] |}).
Proof.
  intros N Hc Rc Hu Ru Hr. split; [vm_compute; reflexivity |]. split.
  - intros base token a rt [st H]. unfold result_of, ApiTool.bitbucketgetpr.
    rewrite registerApiTool_run. unfold ApiTool.getpr_logic.
    rewrite bind_run, bitbucketGet_run. cbn [List.length]. rewrite H.
    cbn [to_result data]. rewrite bind_lift. cbn [ApiTool.getOrThrow].
    rewrite bind_run. unfold runtime at 1. unfold lift.
    rewrite (project_info_fields (Date_parse rt) "d" d c u names N Hc Rc Hu Ru Hr).
    reflexivity.
  - intros tok a rt [st H]. unfold result_of, Server.bitbucketgetpr.
    rewrite bind_run, bitbucketApiRequest_run. cbn [List.length]. rewrite H.
    cbn [to_result data]. rewrite bind_run. unfold runtime at 1. rewrite bind_lift.
    rewrite (project_info_fields (Date_parse rt) "data.data" d c u names N Hc Rc Hu Ru Hr).
    reflexivity.
Qed.

Lemma dates_rendered_as_iso_witness :
  result_of (ApiTool.bitbucketgetpr "https://bitbucket.example" "token"
               {| ApiTool.projectKey := "PRJ"; ApiTool.repositorySlug := "repo";
                  ApiTool.prId := 5 |})
    (scripted [ok (dated_pr 1700000000000 1700000360000)])
  = Normal {| content := [ {| block_type := "text";
      text := JSON_stringify
                (JObj [("id", JNum 5); ("title", JStr "Fix"); ("description", JUndefined);
                       ("author", JUndefined); ("reviewers", JUndefined);
                       ("state", JStr "OPEN");
                       ("created_on", JStr "2023-11-14T22:13:20.000Z");
                       ("updated_on", JStr "2023-11-14T22:19:20.000Z")]) |} ] |}
  /\ result_of (Server.bitbucketgetpr (Some "token")
                  {| Server.projectKey := "PRJ"; Server.repositorySlug := "repo";
                     Server.prId := 5 |})
       (scripted [ok (dated_pr 1700000000000 1700000360000)])
     = Normal {| content := [ {| block_type := "text";
         text := JSON_stringify
                   (JObj [("id", JNum 5); ("title", JStr "Fix"); ("description", JUndefined);
                          ("author", JUndefined); ("reviewers", JUndefined);
                          ("state", JStr "OPEN");
                          ("created_on", JStr "2023-11-14T22:13:20.000Z");
                          ("updated_on", JStr "2023-11-14T22:19:20.000Z")]) |} ] |}.
Proof.
  assert (Rc : Z.abs 1700000000000 <= 8640000000000000) by (vm_compute; discriminate).
  assert (Ru : Z.abs 1700000360000 <= 8640000000000000) by (vm_compute; discriminate).
  destruct (dates_rendered_as_iso (dated_pr 1700000000000 1700000360000)
              1700000000000 1700000360000 JUndefined
              eq_refl eq_refl Rc eq_refl Ru (fun expr => eq_refl)) as (_ & A & S).
  split.
  - exact (A "https://bitbucket.example" "token"
             {| ApiTool.projectKey := "PRJ"; ApiTool.repositorySlug := "repo";
                ApiTool.prId := 5 |}
             (scripted [ok (dated_pr 1700000000000 1700000360000)])
             (ex_intro _ 200 eq_refl)).
  - exact (S (Some "token")
             {| Server.projectKey := "PRJ"; Server.repositorySlug := "repo";
                Server.prId := 5 |}
             (scripted [ok (dated_pr 1700000000000 1700000360000)])
             (ex_intro _ 200 eq_refl)).
Defined.

(** C8 fails as stated: a pull-request object that carries the
    [createdDate] 1700000000000 and no [updatedDate] gets no projection at
    all.  [toISOString] throws on the missing date: the variant with
    [registerApiTool] answers an error text and [src/server.ts] throws. *)
Lemma created_date_alone_gives_no_projection :
  result_of (ApiTool.bitbucketgetpr "https://bitbucket.example" "token"
               {| ApiTool.projectKey := "PRJ"; ApiTool.repositorySlug := "repo";
                  ApiTool.prId := 5 |})
    (scripted [ok (JObj [("id", JNum 5); ("createdDate", JNum 1700000000000)])])
  = Normal {| content := [ {| block_type := "text";
                              text := JStr "Unhandled error: Invalid time value" |} ] |}
  /\ result_of (Server.bitbucketgetpr (Some "token")
                  {| Server.projectKey := "PRJ"; Server.repositorySlug := "repo";
                     Server.prId := 5 |})
       (scripted [ok (JObj [("id", JNum 5); ("createdDate", JNum 1700000000000)])])
     = Throw (RangeError "Invalid time value").
Proof. split; vm_compute; reflexivity. Qed.

(** ** Dates that are not valid times *)




(** ** The two variants on the same answer *)

Lemma reviewer_names_expr e1 e2 x names :
  reviewer_names e1 x = Normal names -> reviewer_names e2 x = Normal names.
Proof.
  unfold reviewer_names. destruct (get_prop x "reviewers") as [rs |]; [| discriminate].
  cbn [cbind]. destruct (nullish rs); [trivial |].
  destruct rs; cbn [call_map]; try discriminate; trivial.
Qed.

Lemma project_info_expr parse e1 e2 d v :
  project_info parse e1 d = Normal v -> project_info parse e2 d = Normal v.
Proof.
  unfold project_info. intros H.
  destruct (get_prop d "id"); [| discriminate H]. cbn [cbind] in H |- *.
  destruct (get_prop d "title"); [| discriminate H]. cbn [cbind] in H |- *.
  destruct (get_prop d "description"); [| discriminate H]. cbn [cbind] in H |- *.
  destruct (author_name d); [| discriminate H]. cbn [cbind] in H |- *.
  destruct (reviewer_names e1 d) as [names |] eqn:R; [| discriminate H].
  rewrite (reviewer_names_expr e1 e2 d names R). exact H.
Qed.

Lemma project_info_object parse expr d v :
  project_info parse expr d = Normal v -> exists fields, v = JObj fields.
Proof.
  unfold project_info, cbind.
  repeat (step_match; try discriminate).
  intros H. inversion H. eexists. reflexivity.
Qed.

(** X14. On the same upstream pull request the two variants of the get-info
    operation return the same envelope whenever the projection can be built:
    the pretty-printed projection, field for field. *)
Theorem info_variants_agree base token tok a a' rt d v :
  answers rt 0 (ApiTool.request base token
                  (pr_path (ApiTool.projectKey a) (ApiTool.repositorySlug a)
                           (ApiTool.prId a)) no_config) d ->
  answers rt 0 (Server.request tok
                  (pr_path (Server.projectKey a') (Server.repositorySlug a')
                           (Server.prId a')) None) d ->
  project_info (Date_parse rt) "d" d = Normal v ->
  result_of (ApiTool.bitbucketgetpr base token a) rt
  = Normal (text_envelope (JSON_stringify v))
  /\ result_of (Server.bitbucketgetpr tok a') rt
     = result_of (ApiTool.bitbucketgetpr base token a) rt.
Proof.
  intros [sa Ha] [ss Hs] P.
  assert (A : result_of (ApiTool.bitbucketgetpr base token a) rt
              = Normal (text_envelope (JSON_stringify v))).
  { unfold result_of, ApiTool.bitbucketgetpr.
    rewrite registerApiTool_run. unfold ApiTool.getpr_logic.
    rewrite bind_run, bitbucketGet_run. cbn [List.length]. rewrite Ha.
    cbn [to_result data]. rewrite bind_lift. cbn [ApiTool.getOrThrow].
    rewrite bind_run. unfold runtime at 1. unfold lift. rewrite P. cbn [fst].
    destruct (project_info_object _ _ _ _ P) as [fields ->]. reflexivity. }
  split; [exact A |]. rewrite A.
  unfold result_of, Server.bitbucketgetpr.
  rewrite bind_run, bitbucketApiRequest_run. cbn [List.length]. rewrite Hs.
  cbn [to_result data]. rewrite bind_run. unfold runtime at 1. rewrite bind_lift.
  rewrite (project_info_expr _ "d" "data.data" d v P).
  destruct (project_info_keys _ _ _ _ P) as [He Hd].
  unfold lift. cbn [fst].
  destruct (project_info_object _ _ _ _ P) as [fields ->].
  unfold Server.formatToolResponse. cbn in He, Hd |- *. rewrite He, Hd. reflexivity.
Qed.

Lemma info_variants_agree_witness :
  result_of (Server.bitbucketgetpr None
               {| Server.projectKey := "PRJ"; Server.repositorySlug := "repo";
                  Server.prId := 5 |})
    (scripted [ok (dated_pr 1700000000000 1700000360000)])
  = result_of (ApiTool.bitbucketgetpr "https://bitbucket.example" "token"
                 {| ApiTool.projectKey := "PRJ"; ApiTool.repositorySlug := "repo";
                    ApiTool.prId := 5 |})
      (scripted [ok (dated_pr 1700000000000 1700000360000)]).
Proof.
  refine (proj2 (info_variants_agree "https://bitbucket.example" "token" None
                   {| ApiTool.projectKey := "PRJ"; ApiTool.repositorySlug := "repo";
                      ApiTool.prId := 5 |}
                   {| Server.projectKey := "PRJ"; Server.repositorySlug := "repo";
                      Server.prId := 5 |}
                   (scripted [ok (dated_pr 1700000000000 1700000360000)])
                   (dated_pr 1700000000000 1700000360000) _ _ _ eq_refl)).
  - exists 200. reflexivity.
  - exists 200. reflexivity.
Defined.

(** ** Answers without a [values] property *)

(** X15. An answer that is an object without [values] is handled
    differently by the two variants.  [src/server.ts] treats it as an empty
    list: after the user search it reports that the user could not be
    determined, and an inbox page of that shape adds nothing.  The
    [registerApiTool] variant indexes and spreads [values] unguarded, so the
    user search ends in an [Unhandled error: ] text and an inbox page of that
    shape throws a [TypeError]. *)
Theorem answers_without_values base token tok role rt username found :
  get_prop found "values" = Normal JUndefined ->
  (answers rt 0 (Server.request tok whoami_path None) username ->
   truthy username = true ->
   answers rt 1 (Server.request tok (users_path username) None) found ->
   ends_with (Server.bitbucketlistprs tok role) rt "Could not determine the current user."
     [Server.request tok whoami_path None;
      Server.request tok (users_path username) None])
  /\ (answers rt 0 (ApiTool.request base token whoami_path no_config) username ->
      answers rt 1 (ApiTool.request base token (users_path username) no_config) found ->
      ends_with (ApiTool.bitbucketlistprs base token role) rt
        "Unhandled error: Cannot read properties of undefined (reading '0')"
        [ApiTool.request base token whoami_path no_config;
         ApiTool.request base token (users_path username) no_config])
  /\ (forall r prs log,
        answers rt (List.length log) (Server.request tok (inbox_path r) None) found ->
        Server.inbox tok r prs rt log
        = (Normal prs, (log ++ [Server.request tok (inbox_path r) None])%list))
  /\ (forall r rest acc log,
        answers rt (List.length log) (ApiTool.request base token (inbox_path r) no_config)
          found ->
        exists msg,
          ApiTool.collect base token (r :: rest) acc rt log
          = (Throw (TypeError msg),
             (log ++ [ApiTool.request base token (inbox_path r) no_config])%list)).
Proof.
  intros V. split; [| split; [| split]].
  - intros H0 T [st H1]. unfold ends_with.
    rewrite (server_listprs_after_whoami _ _ _ _ H0), bind_run.
    unfold Server.find_user. rewrite T.
    rewrite bind_run, bitbucketApiRequest_run. cbn [List.length]. rewrite H1.
    cbn [to_result data]. rewrite bind_lift, V. reflexivity.
  - intros H0 H1. unfold ends_with, ApiTool.bitbucketlistprs.
    rewrite registerApiTool_run.
    rewrite (apitool_listprs_after_users _ _ _ _ _ _ H0 H1).
    rewrite bind_lift, V. rewrite bind_lift. reflexivity.
  - intros r prs log [st H]. unfold Server.inbox.
    rewrite bind_run, bitbucketApiRequest_run, H. cbn [to_result data].
    rewrite bind_lift, V. reflexivity.
  - intros r rest acc log [st H]. cbn [ApiTool.collect].
    rewrite bind_run, bitbucketGet_run, H. cbn [to_result data].
    rewrite bind_lift. cbn [ApiTool.getOrThrow].
    rewrite bind_lift, V. rewrite bind_lift. eexists. reflexivity.
Qed.

Lemma answers_without_values_witness :
  ends_with (Server.bitbucketlistprs (Some "token") all)
    (scripted [ok (JStr "ann"); ok (JObj [("size", JNum 0)])])
    "Could not determine the current user."
    [Server.request (Some "token") whoami_path None;
     Server.request (Some "token") (users_path (JStr "ann")) None]
  /\ ends_with (ApiTool.bitbucketlistprs "https://bitbucket.example" "token" all)
       (scripted [ok (JStr "ann"); ok (JObj [("size", JNum 0)])])
       "Unhandled error: Cannot read properties of undefined (reading '0')"
       [ApiTool.request "https://bitbucket.example" "token" whoami_path no_config;
        ApiTool.request "https://bitbucket.example" "token" (users_path (JStr "ann"))
          no_config].
Proof.
  destruct (answers_without_values "https://bitbucket.example" "token" (Some "token") all
              (scripted [ok (JStr "ann"); ok (JObj [("size", JNum 0)])])
              (JStr "ann") (JObj [("size", JNum 0)]) eq_refl) as (S & A & _).
  split.
  - apply S; [exists 200; reflexivity | reflexivity | exists 200; reflexivity].
  - apply A; exists 200; reflexivity.
Defined.

(** ** Empty inbox pages *)

(** X16. When the user is resolved and every inbox page queried is the
    empty list, the list operation returns the text of an empty JSON array,
    [[]], for every role filter and in both variants. *)
Theorem empty_inbox_gives_empty_array base token tok role rt username found :
  finds_user found ->
  (answers rt 0 (ApiTool.request base token whoami_path no_config) username ->
   answers rt 1 (ApiTool.request base token (users_path username) no_config) found ->
   (forall n r, (2 <= n)%nat ->
                answers rt n (ApiTool.request base token (inbox_path r) no_config)
                  (JObj [("values", JArr [])])) ->
   result_of (ApiTool.bitbucketlistprs base token role) rt
   = Normal (text_envelope (JStr "[]")))
  /\ (answers rt 0 (Server.request tok whoami_path None) username ->
      truthy username = true ->
      answers rt 1 (Server.request tok (users_path username) None) found ->
      (forall n r, (2 <= n)%nat ->
                   answers rt n (Server.request tok (inbox_path r) None)
                     (JObj [("values", JArr [])])) ->
      result_of (Server.bitbucketlistprs tok role) rt
      = Normal (text_envelope (JStr "[]"))).
Proof.
  intros F.
  assert (L : lists (JObj [("values", JArr [])]) []).
  { exists (JArr []). split; reflexivity. }
  split.
  - intros H0 H1 Hp. unfold result_of, ApiTool.bitbucketlistprs.
    rewrite registerApiTool_run.
    rewrite (apitool_listprs_resolved _ _ _ _ _ _ H0 H1 (finds_user_resolves _ F)).
    rewrite bind_run.
    destruct role; cbn [ApiTool.roles_of role_name toUpperCase];
      repeat (rewrite (collect_first_answered _ _ _ _ _ _ _ (JObj [("values", JArr [])]) [])
                by (try (apply Hp; cbn; lia); exact L));
      reflexivity.
  - intros H0 T H1 Hp. unfold result_of.
    rewrite (server_listprs_after_whoami _ _ _ _ H0), bind_run.
    destruct (server_find_user_found tok rt [Server.request tok whoami_path None]
                username found T H1 F) as (user & -> & Tu & Ts).
    rewrite bind_lift, Tu, (truthy_slug user Tu), Ts. cbn [negb orb app].
    assert (I : forall r prs log, (2 <= List.length log)%nat ->
               Server.inbox tok r prs rt log
               = (Normal prs, (log ++ [Server.request tok (inbox_path r) None])%list)).
    { intros r prs log Hn.
      rewrite (server_inbox_answered tok r prs rt log (JObj [("values", JArr [])]) []
                 (Hp _ r Hn) L).
      rewrite app_nil_r. reflexivity. }
    destruct role; cbn [Server.is_author_or_all Server.is_reviewer_or_all];
      rewrite bind_run, ?I by (cbn; lia); unfold ret; cbv beta iota;
      rewrite bind_run, ?I by (cbn; lia); reflexivity.
Qed.

Lemma empty_inbox_gives_empty_array_witness :
  result_of (ApiTool.bitbucketlistprs "https://bitbucket.example" "token" reviewer) quiet_host
  = Normal (text_envelope (JStr "[]"))
  /\ result_of (Server.bitbucketlistprs (Some "token") all) quiet_host
     = Normal (text_envelope (JStr "[]")).
Proof.
  assert (F : finds_user (page [sample_user])).
  { exists sample_user, []. split; reflexivity. }
  split.
  - destruct (empty_inbox_gives_empty_array "https://bitbucket.example" "token"
                (Some "token") reviewer quiet_host (JStr "ann") (page [sample_user]) F)
      as [A _].
    apply A.
    + exists 200. reflexivity.
    + exists 200. reflexivity.
    + intros n r Hn. exists 200.
      destruct n as [| [| n]]; [inversion Hn | inversion Hn as [| ? Hm]; inversion Hm |].
      reflexivity.
  - destruct (empty_inbox_gives_empty_array "https://bitbucket.example" "token"
                (Some "token") all quiet_host (JStr "ann") (page [sample_user]) F)
      as [_ S].
    apply S.
    + exists 200. reflexivity.
    + reflexivity.
    + exists 200. reflexivity.
    + intros n r Hn. exists 200.
      destruct n as [| [| n]]; [inversion Hn | inversion Hn as [| ? Hm]; inversion Hm |].
      reflexivity.
Defined.

(** ** The configuration gate *)

Lemma main_serving env base token :
  Startup.main env = Startup.Serving base token
  <-> env "BB_BASE_URL" = Some base /\ base <> EmptyString
      /\ env "BB_TOKEN" = Some token /\ token <> EmptyString.
Proof.
  unfold Startup.main, Startup.required, Startup.fatal.
  destruct (env "BB_BASE_URL") as [b |]; [| split; [discriminate | intros (H & _); discriminate H]].
  destruct (b =? "")%string eqn:Eb.
  { apply String.eqb_eq in Eb. subst b.
    split; [discriminate | intros (H & Hn & _); inversion H; subst; contradiction Hn; reflexivity]. }
  destruct (env "BB_TOKEN") as [t |];
    [| split; [discriminate | intros (_ & _ & H & _); discriminate H]].
  destruct (t =? "")%string eqn:Et.
  { apply String.eqb_eq in Et. subst t.
    split; [discriminate
           | intros (_ & _ & H & Hn); inversion H; subst; contradiction Hn; reflexivity]. }
  apply String.eqb_neq in Eb, Et.
  split.
  - intros H. inversion H; subst. repeat split; assumption.
  - intros (H1 & _ & H2 & _). inversion H1; inversion H2; subst. reflexivity.
Qed.

(** X17. The variant configured from the environment serves tool calls only
    when both [BB_BASE_URL] and [BB_TOKEN] are set to non-empty strings;
    otherwise the process exits with code 1 after naming the first missing
    variable, the base URL before the token, and no handler can run.  In a
    process that serves, every request of every tool goes to a URL under that
    base URL and carries that token. *)
Theorem process_serves_only_when_configured env :
  (forall base token,
      Startup.main env = Startup.Serving base token
      <-> env "BB_BASE_URL" = Some base /\ base <> EmptyString
          /\ env "BB_TOKEN" = Some token /\ token <> EmptyString)
  /\ (env "BB_BASE_URL" = None \/ env "BB_BASE_URL" = Some EmptyString ->
      Startup.main env = Startup.Exited 1 ["Missing BB_BASE_URL"]
      /\ forall c, Startup.call env c = None)
  /\ (forall base,
        env "BB_BASE_URL" = Some base -> base <> EmptyString ->
        env "BB_TOKEN" = None \/ env "BB_TOKEN" = Some EmptyString ->
        Startup.main env = Startup.Exited 1 ["Missing BB_TOKEN"]
        /\ forall c, Startup.call env c = None)
  /\ (forall c handler rt req,
        Startup.call env c = Some handler ->
        In req (requests_of handler rt) ->
        exists base token,
          env "BB_BASE_URL" = Some base /\ base <> EmptyString
          /\ env "BB_TOKEN" = Some token /\ token <> EmptyString
          /\ starts_with base (url req)
          /\ carries_bearer ("Bearer " ++ token) req).
Proof.
  split; [intros base token; apply main_serving |].
  split; [| split].
  - intros H.
    assert (M : Startup.main env = Startup.Exited 1 ["Missing BB_BASE_URL"]).
    { unfold Startup.main, Startup.required, Startup.fatal.
      destruct H as [-> | ->]; reflexivity. }
    split; [exact M |]. intros c. unfold Startup.call. rewrite M. reflexivity.
  - intros base Hb Hn H.
    assert (M : Startup.main env = Startup.Exited 1 ["Missing BB_TOKEN"]).
    { unfold Startup.main, Startup.required, Startup.fatal. rewrite Hb.
      apply String.eqb_neq in Hn. rewrite Hn.
      destruct H as [-> | ->]; reflexivity. }
    split; [exact M |]. intros c. unfold Startup.call. rewrite M. reflexivity.
  - intros c handler rt req Hc Hin. unfold Startup.call in Hc.
    destruct (Startup.main env) as [code err | base token] eqn:M; [discriminate Hc |].
    inversion Hc; subst handler.
    apply main_serving in M. destruct M as (Hb & Nb & Ht & Nt).
    exists base, token. repeat (split; [assumption |]).
    destruct c as [role | a | a]; cbn [ApiTool.invoke] in Hin.
    + pose proof (apitool_listprs_log base token role rt) as F.
      rewrite Forall_forall in F. destruct (F req Hin) as (path & _ & ->).
      split; [exists path; reflexivity | reflexivity].
    + rewrite apitool_getpr_requests in Hin. destruct Hin as [<- | []].
      split; [eexists; reflexivity | reflexivity].
    + rewrite apitool_getdiff_requests in Hin. destruct Hin as [<- | []].
      split; [eexists; reflexivity | reflexivity].
Qed.

Lemma process_serves_only_when_configured_witness :
  Startup.main (fun name => if (name =? "BB_BASE_URL")%string
                            then Some "https://bitbucket.example" else None)
  = Startup.Exited 1 ["Missing BB_TOKEN"].
Proof.
  destruct (process_serves_only_when_configured
              (fun name => if (name =? "BB_BASE_URL")%string
                           then Some "https://bitbucket.example" else None))
    as (_ & _ & T & _).
  apply (T "https://bitbucket.example").
  - reflexivity.
  - discriminate.
  - left. reflexivity.
Defined.

(** ** The list operation in the two variants *)

(** X18. With role [all], on the same answers, the two variants of the list
    operation return the same envelope whenever the listing can be built:
    the pretty-printed array of the projections of the deduplicated AUTHOR
    and REVIEWER items. *)
Theorem list_variants_agree base token tok rt username found d1 d2 l1 l2 v :
  truthy username = true ->
  finds_user found ->
  lists d1 l1 -> lists d2 l2 ->
  listing (l1 ++ l2) = Normal v ->
  answers rt 0 (ApiTool.request base token whoami_path no_config) username ->
  answers rt 1 (ApiTool.request base token (users_path username) no_config) found ->
  answers rt 2 (ApiTool.request base token (inbox_path "AUTHOR") no_config) d1 ->
  answers rt 3 (ApiTool.request base token (inbox_path "REVIEWER") no_config) d2 ->
  answers rt 0 (Server.request tok whoami_path None) username ->
  answers rt 1 (Server.request tok (users_path username) None) found ->
  answers rt 2 (Server.request tok (inbox_path "AUTHOR") None) d1 ->
  answers rt 3 (Server.request tok (inbox_path "REVIEWER") None) d2 ->
  result_of (ApiTool.bitbucketlistprs base token all) rt
  = Normal (text_envelope (JSON_stringify v))
  /\ result_of (Server.bitbucketlistprs tok all) rt
     = result_of (ApiTool.bitbucketlistprs base token all) rt.
Proof.
  intros T F L1 L2 Hv A0 A1 A2 A3 S0 S1 S2 S3.
  pose proof (apitool_listprs_all _ _ _ _ _ _ _ _ _ A0 A1 F A2 L1 A3 L2) as Ha.
  pose proof (server_listprs_all _ _ _ _ _ _ _ _ S0 T S1 F S2 L1 S3 L2) as Hs.
  assert (Arr : exists projected, v = JArr projected).
  { unfold listing in Hv. destruct (uniquePrs _); [| discriminate Hv]. cbn [cbind] in Hv.
    destruct (cmap _ _); [| discriminate Hv]. inversion Hv. eexists. reflexivity. }
  destruct Arr as [projected ->].
  assert (A : result_of (ApiTool.bitbucketlistprs base token all) rt
              = Normal (text_envelope (JSON_stringify (JArr projected)))).
  { unfold result_of, ApiTool.bitbucketlistprs. rewrite registerApiTool_run.
    unfold result_of in Ha. rewrite Hv in Ha.
    destruct (ApiTool.listprs_logic base token all rt []) as [c l]. cbn [fst] in Ha.
    subst c. reflexivity. }
  split; [exact A |]. rewrite A, Hs, Hv. reflexivity.
Qed.

Lemma list_variants_agree_witness :
  result_of (Server.bitbucketlistprs (Some "token") all)
    (scripted [ok (JStr "ann"); ok (page [sample_user]);
               ok (page [sample_pr 42 "From author"]);
               ok (page [sample_pr 42 "From reviewer"; sample_pr 2 "Other"])])
  = result_of (ApiTool.bitbucketlistprs "https://bitbucket.example" "token" all)
      (scripted [ok (JStr "ann"); ok (page [sample_user]);
                 ok (page [sample_pr 42 "From author"]);
                 ok (page [sample_pr 42 "From reviewer"; sample_pr 2 "Other"])]).
Proof.
  assert (V : exists v, listing ([sample_pr 42 "From author"]
                                 ++ [sample_pr 42 "From reviewer"; sample_pr 2 "Other"])%list
                        = Normal v).
  { eexists. vm_compute. reflexivity. }
  destruct V as [v Hv].
  refine (proj2 (list_variants_agree "https://bitbucket.example" "token" (Some "token")
                   (scripted [ok (JStr "ann"); ok (page [sample_user]);
                              ok (page [sample_pr 42 "From author"]);
                              ok (page [sample_pr 42 "From reviewer"; sample_pr 2 "Other"])])
                   (JStr "ann") (page [sample_user])
                   (page [sample_pr 42 "From author"])
                   (page [sample_pr 42 "From reviewer"; sample_pr 2 "Other"])
                   [sample_pr 42 "From author"]
                   [sample_pr 42 "From reviewer"; sample_pr 2 "Other"]
                   v eq_refl _ _ _ Hv _ _ _ _ _ _ _ _)).
  - exists sample_user, []. split; reflexivity.
  - eexists. split; reflexivity.
  - eexists. split; reflexivity.
  - exists 200; reflexivity.
  - exists 200; reflexivity.
  - exists 200; reflexivity.
  - exists 200; reflexivity.
  - exists 200; reflexivity.
  - exists 200; reflexivity.
  - exists 200; reflexivity.
  - exists 200; reflexivity.
Defined.

(** ** [getOrThrow] after the request helper *)

Lemma error_message_defined e : error_message e <> JUndefined.
Proof.
  unfold error_message. destruct (truthy _) eqn:T; [| discriminate].
  intros U. rewrite U in T. discriminate T.
Qed.

(** X19. [getOrThrow] applied to the result of [bitbucketGet] gives back the
    body when the GET resolves.  When the GET is rejected with an upstream
    message that [ToString] completes on, it throws a plain [Error] whose
    message is that message as a string: the HTTP status and the response of
    the rejected GET are not carried any further.  One GET is issued either
    way. *)
Theorem getOrThrow_drops_the_status base token path config rt log :
  (forall r,
      upstream rt (List.length log) (ApiTool.request base token path config) = Normal r ->
      (resp <- ApiTool.bitbucketGet base token path config ;;
       lift (ApiTool.getOrThrow resp)) rt log
      = (Normal (data r), (log ++ [ApiTool.request base token path config])%list))
  /\ (forall e,
        upstream rt (List.length log) (ApiTool.request base token path config) = Throw e ->
        stringable (error_message e) = true ->
        (resp <- ApiTool.bitbucketGet base token path config ;;
         lift (ApiTool.getOrThrow resp)) rt log
        = (Throw {| err_name := "Error";
                    err_message :=
                      to_string (match err_response e with
                                 | Some r => if truthy (data r) then data r
                                             else JStr (err_message e)
                                 | None => JStr (err_message e)
                                 end);
                    err_response := None |},
           (log ++ [ApiTool.request base token path config])%list)).
Proof.
  split.
  - intros r H. rewrite bind_run, bitbucketGet_run, H. reflexivity.
  - intros e H _. rewrite bind_run, bitbucketGet_run, H. unfold lift.
    cbn [to_result ApiTool.getOrThrow].
    f_equal. f_equal. unfold ApiTool.new_Error.
    pose proof (error_message_defined e) as D.
    assert (M : error_message e = match err_response e with
                                  | Some r => if truthy (data r) then data r
                                              else JStr (err_message e)
                                  | None => JStr (err_message e)
                                  end).
    { unfold error_message. destruct (err_response e); reflexivity. }
    rewrite <- M. destruct (error_message e); try reflexivity. contradiction D. reflexivity.
Qed.

Lemma getOrThrow_drops_the_status_witness :
  (resp <- ApiTool.bitbucketGet "https://bitbucket.example" "token" whoami_path no_config ;;
   lift (ApiTool.getOrThrow resp))
    (scripted [http_error 403 (JStr "Forbidden")]) []
  = (Throw {| err_name := "Error"; err_message := "Forbidden"; err_response := None |},
     [ApiTool.request "https://bitbucket.example" "token" whoami_path no_config])
  /\ (resp <- ApiTool.bitbucketGet "https://bitbucket.example" "token" whoami_path
                no_config ;;
      lift (ApiTool.getOrThrow resp))
       (scripted [ok (JStr "ann")]) []
     = (Normal (JStr "ann"),
        [ApiTool.request "https://bitbucket.example" "token" whoami_path no_config]).
Proof.
  destruct (getOrThrow_drops_the_status "https://bitbucket.example" "token" whoami_path
              no_config (scripted [http_error 403 (JStr "Forbidden")]) []) as (_ & T).
  split; [exact (T (http_failure 403 (JStr "Forbidden")) eq_refl eq_refl) |].
  destruct (getOrThrow_drops_the_status "https://bitbucket.example" "token" whoami_path
              no_config (scripted [ok (JStr "ann")]) []) as (N & _).
  exact (N {| status := 200; data := JStr "ann" |} eq_refl).
Defined.
